(** * code-sandbox-mcp: the tool functions of [main.py] over a model of the
      container engine

    The tools of [main.py] drive a Docker client: they look containers up,
    run commands in them and move tar archives in and out.  The embedding
    below keeps the Python control flow (guards, [try]/[except], the batch
    loop, the path arithmetic) and threads an explicit [World] through it:
    the module globals, the engine's containers, the local file system and
    the list of engine calls issued so far. *)

From Stdlib Require Import ZArith Ascii String List Lia Bool.
From stdpp Require Import base gmap strings list fin_maps.

Import ListNotations.
Local Open Scope string_scope.
Set Warnings "-register-all".
Local Open Scope list_scope.

(** ** Python [str] helpers

    A [str] is modelled by the string of its UTF-8 bytes, so that [encode]
    is the identity on bytes and [len(data)] is [String.length]; every test
    the tools make on a [str] ([startswith], [lstrip], [endswith], the
    separator arithmetic of [posixpath]) looks at ASCII characters only and
    reads the same on the encoded form. *)

Module Py.

Definition sep : ascii := "/"%char.

(** [s.startswith(pre)] *)
Fixpoint startswith (s pre : string) {struct pre} : bool :=
  match pre with
  | EmptyString => true
  | String c pre' =>
      match s with
      | String d s' => Ascii.eqb d c && startswith s' pre'
      | EmptyString => false
      end
  end.

(** [s.endswith("/")] *)
Fixpoint endswith_sep (s : string) : bool :=
  match s with
  | EmptyString => false
  | String c EmptyString => Ascii.eqb c sep
  | String _ r => endswith_sep r
  end.

(** [s.lstrip('/')] *)
Fixpoint lstrip_sep (s : string) : string :=
  match s with
  | String c r => if Ascii.eqb c sep then lstrip_sep r else s
  | EmptyString => EmptyString
  end.

(** [s.rstrip('/')] *)
Fixpoint rstrip_sep (s : string) : string :=
  match s with
  | EmptyString => EmptyString
  | String c r =>
      match rstrip_sep r with
      | EmptyString => if Ascii.eqb c sep then EmptyString else String c EmptyString
      | r' => String c r'
      end
  end.

(** [s[:-1]] *)
Fixpoint drop_last (s : string) : string :=
  match s with
  | EmptyString => EmptyString
  | String _ EmptyString => EmptyString
  | String c r => String c (drop_last r)
  end.

(** ['/' in s] *)
Fixpoint has_sep (s : string) : bool :=
  match s with
  | EmptyString => false
  | String c r => Ascii.eqb c sep || has_sep r
  end.

(** [s == '/' * len(s)] *)
Fixpoint all_sep (s : string) : bool :=
  match s with
  | EmptyString => true
  | String c r => Ascii.eqb c sep && all_sep r
  end.

(** [s.split(sep)]: never empty; the empty string gives one empty component. *)
Fixpoint split_sep (s : string) : list string :=
  match s with
  | EmptyString => [EmptyString]
  | String c r =>
      if Ascii.eqb c sep then EmptyString :: split_sep r
      else match split_sep r with
           | h :: t => String c h :: t
           | [] => [String c EmptyString]
           end
  end.

(** [posixpath.join(a, b)] for two arguments. *)
Definition path_join (a b : string) : string :=
  if startswith b "/" then b
  else if String.eqb a EmptyString || endswith_sep a then a +:+ b
  else a +:+ "/" +:+ b.

(** [p[:p.rfind('/') + 1]]: everything up to and including the last
    separator. *)
Fixpoint upto_last_sep (p : string) : string :=
  match p with
  | EmptyString => EmptyString
  | String c r => if has_sep p then String c (upto_last_sep r) else EmptyString
  end.

(** [p[p.rfind('/') + 1:]] *)
Fixpoint after_last_sep (p : string) : string :=
  match p with
  | EmptyString => EmptyString
  | String c r => if has_sep p then after_last_sep r else p
  end.

(** [posixpath.basename] *)
Definition basename (p : string) : string := after_last_sep p.

(** [posixpath.dirname] *)
Definition dirname (p : string) : string :=
  let head := upto_last_sep p in
  if negb (String.eqb head EmptyString) && negb (all_sep head) then rstrip_sep head else head.

End Py.

Example basename_ex : Py.basename "/tmp/data/a.txt" = "a.txt".
Proof. reflexivity. Qed.
Example dirname_ex : Py.dirname "/app/src/a.txt" = "/app/src".
Proof. reflexivity. Qed.
Example dirname_root_ex : Py.dirname "//a" = "//".
Proof. reflexivity. Qed.
Example join_ex : Py.path_join "/app" "src" = "/app/src".
Proof. reflexivity. Qed.
Example join_abs_ex : Py.path_join "/app" "/etc" = "/etc".
Proof. reflexivity. Qed.
Example lstrip_ex : Py.lstrip_sep "///etc/passwd" = "etc/passwd".
Proof. reflexivity. Qed.
Example split_ex : Py.split_sep "/app//x/" = [EmptyString; "app"; EmptyString; "x"; EmptyString].
Proof. reflexivity. Qed.

(** ** Paths inside a container

    The engine and the shell resolve a path component by component from the
    root: an empty component and [.] stay in place, [..] steps to the parent
    (the root is its own parent), any other name steps down.  A resolved path
    is the list of names from the root. *)

Module Fspath.

Definition step (st : list string) (c : string) : list string :=
  if String.eqb c EmptyString || String.eqb c "." then st
  else if String.eqb c ".." then removelast st
  else st ++ [c].

Definition walk (st : list string) (comps : list string) : list string :=
  fold_left step comps st.

(** An absolute path is walked from the root, a relative one from [cwd]. *)
Definition resolve_from (cwd : list string) (p : string) : list string :=
  walk (if Py.startswith p "/" then [] else cwd) (Py.split_sep p).

Definition resolve (p : string) : list string := resolve_from [] p.

Fixpoint is_prefix (a b : list string) : bool :=
  match a, b with
  | [], _ => true
  | x :: a', y :: b' => String.eqb x y && is_prefix a' b'
  | _ :: _, [] => false
  end.

(** [p] names [root] itself or something beneath it. *)
Definition within (root p : string) : bool := is_prefix (resolve root) (resolve p).

End Fspath.

Example resolve_ex : Fspath.resolve "/app/./src//a.txt" = ["app"; "src"; "a.txt"].
Proof. reflexivity. Qed.
Example resolve_dotdot_ex : Fspath.resolve "/app/../etc" = ["etc"].
Proof. reflexivity. Qed.
Example within_ex : Fspath.within "/app" "/app/src/a.txt" = true.
Proof. reflexivity. Qed.

(** ** Data model *)

(** Python [bytes]. *)
Definition bytes := string.

(** [bytes.decode('utf-8')] is strict: it raises on a sequence that is not
    well-formed UTF-8 (overlong forms, surrogates and code points past
    U+10FFFF included). *)
Module Utf8.

Definition byte_in (lo hi : N) (c : ascii) : bool :=
  (lo <=? N_of_ascii c)%N && (N_of_ascii c <=? hi)%N.

Definition cont : ascii -> bool := byte_in 128 191.

Definition second_of_3 (b c : ascii) : bool :=
  if (N_of_ascii b =? 224)%N then byte_in 160 191 c
  else if (N_of_ascii b =? 237)%N then byte_in 128 159 c
  else cont c.

Definition second_of_4 (b c : ascii) : bool :=
  if (N_of_ascii b =? 240)%N then byte_in 144 191 c
  else if (N_of_ascii b =? 244)%N then byte_in 128 143 c
  else cont c.

Fixpoint valid (s : bytes) : bool :=
  match s with
  | EmptyString => true
  | String b r =>
      if (N_of_ascii b <? 128)%N then valid r
      else if byte_in 194 223 b then
        match r with
        | String c1 r1 => cont c1 && valid r1
        | _ => false
        end
      else if byte_in 224 239 b then
        match r with
        | String c1 (String c2 r2) => second_of_3 b c1 && cont c2 && valid r2
        | _ => false
        end
      else if byte_in 240 244 b then
        match r with
        | String c1 (String c2 (String c3 r3)) =>
            second_of_4 b c1 && cont c2 && cont c3 && valid r3
        | _ => false
        end
      else false
  end.

(** What CPython's decoder reports when it stops: the first and the last
    position of the bytes at fault, the byte at the first of them, and the
    reason. *)
Inductive Reason := InvalidStart | InvalidContinuation | UnexpectedEnd.

Fixpoint scan (pos : nat) (s : bytes) : option (nat * nat * ascii * Reason) :=
  match s with
  | EmptyString => None
  | String b r =>
      if (N_of_ascii b <? 128)%N then scan (S pos) r
      else if byte_in 194 223 b then
        match r with
        | EmptyString => Some (pos, pos, b, UnexpectedEnd)
        | String c1 r1 =>
            if cont c1 then scan (2 + pos) r1 else Some (pos, pos, b, InvalidContinuation)
        end
      else if byte_in 224 239 b then
        match r with
        | EmptyString => Some (pos, pos, b, UnexpectedEnd)
        | String c1 r1 =>
            if negb (second_of_3 b c1) then Some (pos, pos, b, InvalidContinuation)
            else match r1 with
                 | EmptyString => Some (pos, S pos, b, UnexpectedEnd)
                 | String c2 r2 =>
                     if cont c2 then scan (3 + pos) r2
                     else Some (pos, S pos, b, InvalidContinuation)
                 end
        end
      else if byte_in 240 244 b then
        match r with
        | EmptyString => Some (pos, pos, b, UnexpectedEnd)
        | String c1 r1 =>
            if negb (second_of_4 b c1) then Some (pos, pos, b, InvalidContinuation)
            else match r1 with
                 | EmptyString => Some (pos, S pos, b, UnexpectedEnd)
                 | String c2 r2 =>
                     if negb (cont c2) then Some (pos, S pos, b, InvalidContinuation)
                     else match r2 with
                          | EmptyString => Some (pos, 2 + pos, b, UnexpectedEnd)
                          | String c3 r3 =>
                              if cont c3 then scan (4 + pos) r3
                              else Some (pos, 2 + pos, b, InvalidContinuation)
                          end
                 end
        end
      else Some (pos, pos, b, InvalidStart)
  end.

Definition reason_text (r : Reason) : string :=
  match r with
  | InvalidStart => "invalid start byte"
  | InvalidContinuation => "invalid continuation byte"
  | UnexpectedEnd => "unexpected end of data"
  end.

Definition hex_digit (n : N) : ascii :=
  if (n <? 10)%N then ascii_of_N (48 + n) else ascii_of_N (87 + n).

(** [%02x] *)
Definition hex2 (b : ascii) : string :=
  String (hex_digit (N_of_ascii b / 16)) (String (hex_digit (N_of_ascii b mod 16)) EmptyString).

Fixpoint dec_digits (fuel n : nat) (acc : string) : string :=
  match fuel with
  | O => acc
  | S fuel' =>
      let acc' := String (ascii_of_nat (48 + n mod 10)) acc in
      if (n / 10 =? 0)%nat then acc' else dec_digits fuel' (n / 10) acc'
  end.

(** [%d] *)
Definition dec (n : nat) : string := dec_digits (S n) n EmptyString.

(** [str()] of the [UnicodeDecodeError] raised for [s]. *)
Definition message (s : bytes) : string :=
  match scan 0 s with
  | Some (first, last, b, why) =>
      "'utf-8' codec can't decode "
      +:+ (if (first =? last)%nat
           then "byte 0x" +:+ hex2 b +:+ " in position " +:+ dec first
           else "bytes in position " +:+ dec first +:+ "-" +:+ dec last)
      +:+ ": " +:+ reason_text why
  | None => EmptyString
  end.

End Utf8.

Example utf8_valid_ex : Utf8.valid "执行命令失败: ok" = true.
Proof. reflexivity. Qed.
Example utf8_invalid_ex : Utf8.valid (String (ascii_of_N 255) "x") = false.
Proof. reflexivity. Qed.

(** The exceptions the tools can meet, by class, with their [str()]. *)
Inductive ExnKind :=
| NotFound            (* docker.errors.NotFound *)
| APIError            (* docker.errors.APIError other than NotFound *)
| DockerException     (* any other engine or transport failure *)
| UnicodeDecodeError
| IndexError
| AttributeError
| OSError.

Record exn := Raise { exn_kind : ExnKind; exn_str : string }.

Definition is_NotFound (e : exn) : bool :=
  match exn_kind e with NotFound => true | _ => false end.

(** The values the tools put in the dictionaries they return.  A [dict]
    keeps its keys in insertion order. *)
Inductive Value :=
| VNone
| VBool (b : bool)
| VInt (z : Z)
| VStr (s : string)
| VList (l : list Value)
| VDict (d : list (string * Value)).

Definition pydict := list (string * Value).

Fixpoint dict_get (k : string) (d : pydict) : option Value :=
  match d with
  | [] => None
  | (k', v) :: d' => if String.eqb k' k then Some v else dict_get k d'
  end.

(** A member of a tar archive: a regular file carries its payload, a
    directory none.  [tarfile] stores [size] beside the payload. *)
Record TarEntry := mkTarEntry {
  te_name : string;
  te_size : nat;
  te_data : option bytes
}.

(** The file system of a container, by resolved path. *)
Record Fs := mkFs {
  fs_dirs : gset (list string);
  fs_files : gmap (list string) bytes
}.

Record Container := mkContainer {
  c_id : string;
  c_name : string;
  c_status : string;
  c_fs : Fs
}.

(** What one [exec_run] yields: the exit code and the two output streams
    ([None] for a stream that produced nothing). *)
Record ExecOutput := mkExecOutput {
  eo_exit : Z;
  eo_stdout : option bytes;
  eo_stderr : option bytes
}.

(** The calls the tools make on the Docker client. *)
Inductive EngineCall :=
| CGet (key : string)
| CStart (id : string)
| CPull (image : string)
| CRun (image : string) (name : option string) (gpu : bool)
| CExec (id : string) (argv : list string)
| CPutArchive (id : string) (path : string) (tar : list TarEntry)
| CGetArchive (id : string) (path : string)
| CStop (id : string) (timeout : Z)
| CRemove (id : string) (v : bool).

(** The state a tool call runs in: the module globals [docker_available]
    and [persistent_container_id], the engine's containers, the local file
    system (paths as written), the count of [uuid.uuid4()] draws, and the
    engine calls issued so far, oldest first. *)
Record World := mkWorld {
  docker_available : bool;
  persistent_container_id : option string;
  containers : list Container;
  local_files : gmap string bytes;
  local_dirs : gset string;
  uuid_count : nat;
  calls : list EngineCall
}.

Definition DEFAULT_IMAGE : string := "python:3.9-slim".
Definition PERSISTENT_CONTAINER_NAME : string := "code_sandbox_persistent".

Definition set_calls (cs : list EngineCall) (w : World) : World :=
  mkWorld (docker_available w) (persistent_container_id w) (containers w)
          (local_files w) (local_dirs w) (uuid_count w) cs.

Definition set_containers (cs : list Container) (w : World) : World :=
  mkWorld (docker_available w) (persistent_container_id w) cs
          (local_files w) (local_dirs w) (uuid_count w) (calls w).

Definition set_persistent (p : option string) (w : World) : World :=
  mkWorld (docker_available w) p (containers w)
          (local_files w) (local_dirs w) (uuid_count w) (calls w).

Definition set_local (fs : gmap string bytes) (ds : gset string) (w : World) : World :=
  mkWorld (docker_available w) (persistent_container_id w) (containers w)
          fs ds (uuid_count w) (calls w).

Definition set_uuid_count (n : nat) (w : World) : World :=
  mkWorld (docker_available w) (persistent_container_id w) (containers w)
          (local_files w) (local_dirs w) n (calls w).

(** [containers.get(key)] matches a full id first, then a name. *)
Definition by_id (key : string) (cs : list Container) : option Container :=
  find (fun c => String.eqb (c_id c) key) cs.

Definition by_name (key : string) (cs : list Container) : option Container :=
  find (fun c => String.eqb (c_name c) key) cs.

Definition lookup_container (key : string) (cs : list Container) : option Container :=
  match by_id key cs with
  | Some c => Some c
  | None => by_name key cs
  end.

Definition update_container (id : string) (f : Container -> Container)
    (cs : list Container) : list Container :=
  map (fun c => if String.eqb (c_id c) id then f c else c) cs.

Definition remove_container (id : string) (cs : list Container) : list Container :=
  List.filter (fun c => negb (String.eqb (c_id c) id)) cs.

Definition with_status (s : string) (c : Container) : Container :=
  mkContainer (c_id c) (c_name c) s (c_fs c).

Definition with_fs (fs : Fs) (c : Container) : Container :=
  mkContainer (c_id c) (c_name c) (c_status c) fs.

(** ** Effects

    A tool body is a computation over the [World] that ends with a value or
    a raised exception; the world reached is kept in both cases, as Python
    keeps the side effects made before a [raise]. *)

Definition M (A : Type) : Type := World -> (exn + A) * World.

Definition ret {A} (a : A) : M A := fun w => (inr a, w).

Definition raise {A} (e : exn) : M A := fun w => (inl e, w).

Definition bind {A B} (m : M A) (k : A -> M B) : M B :=
  fun w =>
    match m w with
    | (inr a, w') => k a w'
    | (inl e, w') => (inl e, w')
    end.

(** [try: m  except Exception: pass] *)
Definition try_pass (m : M unit) : M unit :=
  fun w =>
    match m w with
    | (inr _, w') => (inr tt, w')
    | (inl _, w') => (inr tt, w')
    end.

(** [try: m  except NotFound: h] *)
Definition try_NotFound {A} (m : M A) (h : M A) : M A :=
  fun w =>
    match m w with
    | (inr a, w') => (inr a, w')
    | (inl e, w') => if is_NotFound e then h w' else (inl e, w')
    end.

Definition gets {A} (f : World -> A) : M A := fun w => (inr (f w), w).

Definition modify (f : World -> World) : M unit := fun w => (inr tt, f w).

Declare Scope m_scope.
Delimit Scope m_scope with m.
Notation "x <- m ;; k" := (bind m (fun x => k))
  (at level 100, m at next level, right associativity) : m_scope.
Notation "m ;; k" := (bind m (fun _ => k))
  (at level 100, right associativity) : m_scope.
Local Open Scope m_scope.

Lemma bind_inr {A B} (m : M A) (k : A -> M B) w a w' :
  m w = (inr a, w') -> bind m k w = k a w'.
Proof. intros H. unfold bind. rewrite H. reflexivity. Qed.

Lemma bind_inl {A B} (m : M A) (k : A -> M B) w e w' :
  m w = (inl e, w') -> bind m k w = (inl e, w').
Proof. intros H. unfold bind. rewrite H. reflexivity. Qed.

(** ** The container engine

    What the Docker client does is outside [main.py].  The model keeps the
    engine's own rules (lookup by id or name, [exec] only in a running
    container, archives resolved from the container's root, unique names)
    and leaves the rest to parameters: [fault] decides whether a call fails
    in the adapter before it takes effect, [shell] what a command does in a
    container, [tar_add] what [tarfile] reads from the local tree, [uuid4]
    the tokens drawn. *)

Definition fresh_id (cs : list Container) : string :=
  let longest := fold_right (fun c n => Nat.max (Nat.max (String.length (c_id c))
                                                        (String.length (c_name c))) n) 0%nat cs in
  string_of_list_ascii (repeat "f"%char (S longest)).

Definition initial_fs : Fs := mkFs {[ [] ; ["app"] ]} ∅.

Definition is_dir (fs : Fs) (p : list string) : bool :=
  match p with
  | [] => true
  | _ => bool_decide (p ∈ fs_dirs fs)
  end.

(** The proper ancestors of a resolved path, the root left out. *)
Fixpoint ancestors (p : list string) : list (list string) :=
  match p with
  | [] => []
  | x :: p' =>
      match p' with
      | [] => []
      | _ => [x] :: map (cons x) (ancestors p')
      end
  end.

(** Unpacking one member under [dir]: a member that would land outside
    [dir], or on a directory, is refused; missing parents are created. *)
Definition extract_member (dir : list string) (e : TarEntry) (fs : Fs) : option Fs :=
  let p := Fspath.walk dir (Py.split_sep (te_name e)) in
  if negb (Fspath.is_prefix dir p) then None
  else match te_data e with
       | Some d =>
           if is_dir fs p then None
           else Some (mkFs (fs_dirs fs ∪ list_to_set (ancestors p)) (<[p := d]> (fs_files fs)))
       | None =>
           Some (mkFs (fs_dirs fs ∪ list_to_set (ancestors p) ∪ {[ p ]}) (fs_files fs))
       end.

Fixpoint extract (dir : list string) (tar : list TarEntry) (fs : Fs) : option Fs :=
  match tar with
  | [] => Some fs
  | e :: tar' =>
      match extract_member dir e fs with
      | Some fs' => extract dir tar' fs'
      | None => None
      end
  end.

Fixpoint join_sep (l : list string) : string :=
  match l with
  | [] => EmptyString
  | [x] => x
  | x :: l' => x +:+ "/" +:+ join_sep l'
  end.

(** The archive of what lies at [p]: a file alone, or a directory followed
    by the files beneath it, named from the last component of [p]. *)
Definition archive_of (fs : Fs) (p : list string) : option (list TarEntry) :=
  let top := List.last p EmptyString in
  match fs_files fs !! p with
  | Some d => Some [mkTarEntry top (String.length d) (Some d)]
  | None =>
      if is_dir fs p then
        Some (mkTarEntry top 0 None ::
              omap (fun kd : list string * bytes =>
                      if Fspath.is_prefix p kd.1
                      then Some (mkTarEntry (join_sep (top :: drop (length p) kd.1))
                                            (String.length kd.2) (Some kd.2))
                      else None)
                   (map_to_list (fs_files fs)))
      else None
  end.

Section Tools.

Variable fault : World -> EngineCall -> option exn.
Variable shell : World -> Container -> list string -> ExecOutput * Fs.
Variable tar_add : World -> string -> string -> exn + list TarEntry.
Variable uuid4 : nat -> string.

(** Every engine call is recorded when it is issued, whether it then fails
    or not. *)
Definition issue (c : EngineCall) : M unit :=
  fun w =>
    let w' := set_calls (calls w ++ [c]) w in
    match fault w c with
    | Some e => (inl e, w')
    | None => (inr tt, w')
    end.

Definition no_such_container (key : string) : exn :=
  Raise NotFound ("404 Client Error: Not Found (No such container: " +:+ key +:+ ")").

(** [docker_client.containers.get(key)] *)
Definition containers_get (key : string) : M Container :=
  issue (CGet key) ;;
  cs <- gets containers ;;
  match lookup_container key cs with
  | Some c => ret c
  | None => raise (no_such_container key)
  end.

(** A [Container] object acts on the engine through its id. *)
Definition live (id : string) : M Container :=
  cs <- gets containers ;;
  match by_id id cs with
  | Some c => ret c
  | None => raise (no_such_container id)
  end.

Definition put_container (id : string) (f : Container -> Container) : M unit :=
  modify (fun w => set_containers (update_container id f (containers w)) w).

(** [container.exec_run(argv, ...)] *)
Definition exec_run (id : string) (argv : list string) : M ExecOutput :=
  issue (CExec id argv) ;;
  c <- live id ;;
  if negb (String.eqb (c_status c) "running")
  then raise (Raise APIError ("409 Client Error: Conflict (container " +:+ id +:+ " is not running)"))
  else
    w <- gets (fun w => w) ;;
    let '(o, fs) := shell w c argv in
    put_container id (with_fs fs) ;;
    ret o.

(** [container.start()] *)
Definition container_start (id : string) : M unit :=
  issue (CStart id) ;;
  _ <- live id ;;
  put_container id (with_status "running").

(** [container.stop(timeout=t)] *)
Definition container_stop (id : string) (t : Z) : M unit :=
  issue (CStop id t) ;;
  _ <- live id ;;
  put_container id (with_status "exited").

(** [container.remove(v=v)]: a running container is not removed. *)
Definition container_remove (id : string) (v : bool) : M unit :=
  issue (CRemove id v) ;;
  c <- live id ;;
  if String.eqb (c_status c) "running"
  then raise (Raise APIError ("409 Client Error: Conflict (cannot remove a running container " +:+ id +:+ ")"))
  else modify (fun w => set_containers (remove_container id (containers w)) w).

(** [docker_client.images.pull(image)] *)
Definition images_pull (image : string) : M unit := issue (CPull image).

(** [docker_client.containers.run(image, name=..., detach=True, ...)]: a
    name in use is refused; the new container gets an id no container has
    and is running.  The engine names a container that is given no name; the
    model reuses the id. *)
Definition containers_run (image : string) (name : option string) (gpu : bool) : M Container :=
  issue (CRun image name gpu) ;;
  cs <- gets containers ;;
  let id := fresh_id cs in
  let nm := match name with Some n => n | None => id end in
  match lookup_container nm cs with
  | Some _ =>
      raise (Raise APIError ("409 Client Error: Conflict (the container name " +:+ nm +:+ " is already in use)"))
  | None =>
      let c := mkContainer id nm "running" initial_fs in
      modify (fun w => set_containers (containers w ++ [c]) w) ;;
      ret c
  end.

(** [container.put_archive(path, tar)]: [path] must be a directory. *)
Definition put_archive (id path : string) (tar : list TarEntry) : M unit :=
  issue (CPutArchive id path tar) ;;
  c <- live id ;;
  let d := Fspath.resolve path in
  if is_dir (c_fs c) d then
    match extract d tar (c_fs c) with
    | Some fs => put_container id (with_fs fs)
    | None => raise (Raise APIError "500 Server Error: cannot unpack the archive")
    end
  else raise (Raise NotFound ("404 Client Error: Not Found (Could not find the file " +:+ path +:+ ")")).

(** [container.get_archive(path)], the chunks already joined and read by
    [tarfile]. *)
Definition get_archive (id path : string) : M (list TarEntry) :=
  issue (CGetArchive id path) ;;
  c <- live id ;;
  match archive_of (c_fs c) (Fspath.resolve path) with
  | Some tar => ret tar
  | None => raise (Raise NotFound ("404 Client Error: Not Found (Could not find the file " +:+ path +:+ ")"))
  end.

(** [bytes.decode('utf-8')] *)
Definition bytes_decode (b : bytes) : M string :=
  if Utf8.valid b then ret b
  else raise (Raise UnicodeDecodeError (Utf8.message b)).

(** [os.path.exists] *)
Definition os_path_exists (p : string) : M bool :=
  gets (fun w => bool_decide (is_Some (local_files w !! p)) || bool_decide (p ∈ local_dirs w)).

(** ** [sandbox_exec] (main.py 217-315) *)

Definition unavailable : pydict :=
  [("success", VBool false); ("error", VStr "Docker服务不可用")].

Definition failure (prefix : string) (e : exn) : pydict :=
  [("success", VBool false); ("error", VStr (prefix +:+ exn_str e))].

(** [f"/app/workspaces/{workspace_id}" if is_persistent else "/app"] *)
Definition base_dir (workspace_id : option string) : string :=
  match workspace_id with
  | Some ws => "/app/workspaces/" +:+ ws
  | None => "/app"
  end.

(** [cmd_to_run]: the command, behind [cd {working_dir} && ] in persistent
    mode. *)
Definition cmd_to_run (workspace_id : option string) (cmd : string) : string :=
  match workspace_id with
  | Some _ => "cd " +:+ base_dir workspace_id +:+ " && " +:+ cmd
  | None => cmd
  end.

(** [s.decode('utf-8') if s else ""] *)
Definition decode_stream (o : option bytes) : M string :=
  match o with
  | Some b => if String.eqb b EmptyString then ret EmptyString else bytes_decode b
  | None => ret EmptyString
  end.

(** The dictionary appended for one command. *)
Definition command_result (cmd : string) (exit_code : Z) (stdout stderr : string) : Value :=
  VDict [("command", VStr cmd);
         ("exit_code", VInt exit_code);
         ("stdout", VStr stdout);
         ("stderr", VStr stderr);
         ("success", VBool (exit_code =? 0)%Z)].

(** The output of an [exec_run] without [demux]: both streams in one. *)
Definition combined (o : ExecOutput) : bytes :=
  default EmptyString (eo_stdout o) +:+ default EmptyString (eo_stderr o).

(** Lines 246-260: look for [pip], install it when [which] printed nothing;
    any exception is logged and dropped. *)
Definition bootstrap (id : string) : M unit :=
  try_pass (
    o <- exec_run id ["which"; "pip"] ;;
    if String.eqb (combined o) EmptyString then
      exec_run id ["apt-get"; "update"] ;;
      exec_run id ["apt-get"; "install"; "-y"; "python3-pip"] ;;
      ret tt
    else ret tt).

(** Lines 272-278: the install step in front of a command that starts with
    [python]. *)
Definition install_step (id : string) (to_run : string) : M unit :=
  if Py.startswith to_run "python" then
    try_pass (
      exec_run id ["pip"; "install"; "--upgrade"; "pip"] ;;
      exec_run id ["pip"; "install"; "-r"; "requirements.txt"] ;;
      ret tt)
  else ret tt.

(** Lines 263-304: the loop over [commands]; [results] is the list built so
    far, and a non-zero exit code leaves the loop. *)
Fixpoint run_commands (id : string) (workspace_id : option string)
    (commands : list string) (results : list Value) : M (list Value) :=
  match commands with
  | [] => ret results
  | cmd :: rest =>
      let to_run := cmd_to_run workspace_id cmd in
      install_step id to_run ;;
      o <- exec_run id ["sh"; "-c"; to_run] ;;
      stdout <- decode_stream (eo_stdout o) ;;
      stderr <- decode_stream (eo_stderr o) ;;
      let results' := results ++ [command_result cmd (eo_exit o) stdout stderr] in
      if (eo_exit o =? 0)%Z then run_commands id workspace_id rest results'
      else ret results'
  end.

(** The body of the [try] block. *)
Definition sandbox_exec_body (container_id : string) (commands : list string)
    (workspace_id : option string) : M (list Value) :=
  container <- containers_get container_id ;;
  bootstrap (c_id container) ;;
  run_commands (c_id container) workspace_id commands [].

Definition sandbox_exec (container_id : string) (commands : list string)
    (workspace_id : option string) (w : World) : pydict * World :=
  if negb (docker_available w) then (unavailable, w)
  else
    match sandbox_exec_body container_id commands workspace_id w with
    | (inr results, w') => ([("success", VBool true); ("results", VList results)], w')
    | (inl e, w') => (failure "执行命令失败: " e, w')
    end.

(** ** Destination paths (main.py 343-353, 429-441, 508-518) *)

(** [if dest.startswith('/'): dest = dest.lstrip('/')] *)
Definition strip_leading (dest : string) : string :=
  if Py.startswith dest "/" then Py.lstrip_sep dest else dest.

(** [target_dir] of [write_file_sandbox] and of [copy_project]. *)
Definition resolve_dest_dir (workspace_id dest_dir : option string) : string :=
  match dest_dir with
  | None => base_dir workspace_id
  | Some d => Py.path_join (base_dir workspace_id) (strip_leading d)
  end.

(** [full_dest_path] of [copy_file], once [dest_path] is known. *)
Definition full_dest_path (workspace_id : option string) (dest_path : string) : string :=
  base_dir workspace_id +:+ "/" +:+ strip_leading dest_path.

(** ** [write_file_sandbox] (main.py 317-395)

    A [str] is modelled by its UTF-8 encoding, so [file_contents.encode]
    (line 371) is the identity here; a text with no encoding (a lone
    surrogate) has no counterpart in the model, and the failure it causes
    at line 371 is outside it. *)

Definition write_file_body (container_id file_name file_contents : string)
    (workspace_id dest_dir : option string) : M pydict :=
  container <- containers_get container_id ;;
  let target_dir := resolve_dest_dir workspace_id dest_dir in
  exec_run (c_id container) ["sh"; "-c"; "mkdir -p " +:+ target_dir] ;;
  let target_dir := if Py.endswith_sep target_dir then Py.drop_last target_dir else target_dir in
  let file_path := target_dir +:+ "/" +:+ file_name in
  let file_data : bytes := file_contents in
  let tar := [mkTarEntry file_name (String.length file_data) (Some file_data)] in
  put_archive (c_id container) target_dir tar ;;
  ret [("success", VBool true); ("file_path", VStr file_path)].

Definition write_file_sandbox (container_id file_name file_contents : string)
    (workspace_id dest_dir : option string) (w : World) : pydict * World :=
  if negb (docker_available w) then (unavailable, w)
  else
    match write_file_body container_id file_name file_contents workspace_id dest_dir w with
    | (inr d, w') => (d, w')
    | (inl e, w') => (failure "写入文件失败: " e, w')
    end.

(** ** [copy_file] (main.py 397-474) *)




(** ** [copy_project] (main.py 476-561)

    The archive of the local tree (lines 526-544, [os.walk] and [tar.add]) is
    the parameter [tar_tree]. *)

Variable tar_tree : World -> string -> exn + list TarEntry.

Definition copy_project_body (container_id local_src_dir : string)
    (workspace_id dest_dir : option string) : M pydict :=
  container <- containers_get container_id ;;
  isdir <- gets (fun w => bool_decide (local_src_dir ∈ local_dirs w)) ;;
  if negb isdir
  then ret [("success", VBool false); ("error", VStr ("本地目录不存在: " +:+ local_src_dir))]
  else
    let target_dir := resolve_dest_dir workspace_id dest_dir in
    exec_run (c_id container) ["sh"; "-c"; "mkdir -p " +:+ target_dir] ;;
    w <- gets (fun w => w) ;;
    match tar_tree w local_src_dir with
    | inl e => raise e
    | inr tar =>
        put_archive (c_id container) target_dir tar ;;
        ret [("success", VBool true); ("dest_dir", VStr target_dir)]
    end.

Definition copy_project (container_id local_src_dir : string)
    (workspace_id dest_dir : option string) (w : World) : pydict * World :=
  if negb (docker_available w) then (unavailable, w)
  else
    match copy_project_body container_id local_src_dir workspace_id dest_dir w with
    | (inr d, w') => (d, w')
    | (inl e, w') => (failure "复制目录失败: " e, w')
    end.

(** ** [copy_file_from_sandbox] (main.py 563-633) *)

(** [p], [dirname p], [dirname (dirname p)], ... down to the first empty or
    all-separator name. *)
Fixpoint dir_chain (fuel : nat) (p : string) : list string :=
  match fuel with
  | O => []
  | S fuel' =>
      if String.eqb p EmptyString || Py.all_sep p then []
      else p :: dir_chain fuel' (Py.dirname p)
  end.

(** [repr] of a path in the message of an [OSError]. *)
Definition quoted (p : string) : string := "'" +:+ p +:+ "'".

(** The first name of [chain], a path followed by its ancestors, that lies
    directly under a regular file. *)
Fixpoint under_file (files : gmap string bytes) (chain : list string) : option string :=
  match chain with
  | child :: rest =>
      match rest with
      | parent :: _ =>
          if bool_decide (is_Some (files !! parent)) then Some child
          else under_file files rest
      | [] => None
      end
  | [] => None
  end.

(** [os.makedirs(p)] *)
Definition os_makedirs (p : string) : M unit :=
  fun w =>
    let chain := dir_chain (String.length p) p in
    if bool_decide (is_Some (local_files w !! p)) || bool_decide (p ∈ local_dirs w)
    then (inl (Raise OSError ("[Errno 17] File exists: " +:+ quoted p)), w)
    else
      match under_file (local_files w) chain with
      | Some child => (inl (Raise OSError ("[Errno 20] Not a directory: " +:+ quoted child)), w)
      | None => (inr tt, set_local (local_files w) (local_dirs w ∪ list_to_set chain) w)
      end.

(** [open(p, 'wb')]: the file is created or emptied. *)
Definition local_open_wb (p : string) : M unit :=
  fun w =>
    if String.eqb p EmptyString
    then (inl (Raise OSError "[Errno 2] No such file or directory: ''"), w)
    else if bool_decide (p ∈ local_dirs w)
    then (inl (Raise OSError ("[Errno 21] Is a directory: " +:+ quoted p)), w)
    else if String.eqb (Py.dirname p) EmptyString || Py.all_sep (Py.dirname p)
            || bool_decide (Py.dirname p ∈ local_dirs w)
    then (inr tt, set_local (<[p := EmptyString]> (local_files w)) (local_dirs w) w)
    else if existsb (fun d => bool_decide (is_Some (local_files w !! d)))
                    (dir_chain (String.length p) (Py.dirname p))
    then (inl (Raise OSError ("[Errno 20] Not a directory: " +:+ quoted p)), w)
    else (inl (Raise OSError ("[Errno 2] No such file or directory: " +:+ quoted p)), w).

(** [f.write(data)] on the file just opened. *)
Definition local_write (p : string) (data : bytes) : M unit :=
  modify (fun w => set_local (<[p := data]> (local_files w)) (local_dirs w) w).

(** [os.path.getsize(p)] *)
Definition os_path_getsize (p : string) : M nat :=
  fun w =>
    match local_files w !! p with
    | Some d => (inr (String.length d), w)
    | None => (inl (Raise OSError ("[Errno 2] No such file or directory: " +:+ quoted p)), w)
    end.

(** Lines 591-592: a relative path is rooted in the workspace, in persistent
    mode only. *)
Definition container_src (workspace_id : option string) (container_src_path : string) : string :=
  match workspace_id with
  | Some ws =>
      if negb (Py.startswith container_src_path "/")
      then "/app/workspaces/" +:+ ws +:+ "/" +:+ container_src_path
      else container_src_path
  | None => container_src_path
  end.

Definition copy_file_from_body (container_id container_src_path : string)
    (workspace_id local_dest_path : option string) : M pydict :=
  container <- containers_get container_id ;;
  let src := container_src workspace_id container_src_path in
  let dest := default (Py.basename src) local_dest_path in
  tar <- get_archive (c_id container) src ;;
  let parent_dir := Py.dirname dest in
  (if String.eqb parent_dir EmptyString then ret tt
   else present <- os_path_exists parent_dir ;;
        if present then ret tt else os_makedirs parent_dir) ;;
  member <- match tar with
            | m :: _ => ret m
            | [] => raise (Raise IndexError "list index out of range")
            end ;;
  local_open_wb dest ;;
  data <- match te_data member with
          | Some d => ret d
          | None => raise (Raise AttributeError "'NoneType' object has no attribute 'read'")
          end ;;
  local_write dest data ;;
  size <- os_path_getsize dest ;;
  ret [("success", VBool true); ("local_path", VStr dest); ("file_size", VInt (Z.of_nat size))].

Definition copy_file_from_sandbox (container_id container_src_path : string)
    (workspace_id local_dest_path : option string) (w : World) : pydict * World :=
  if negb (docker_available w) then (unavailable, w)
  else
    match copy_file_from_body container_id container_src_path workspace_id local_dest_path w with
    | (inr d, w') => (d, w')
    | (inl e, w') => (failure "从容器复制文件失败: " e, w')
    end.

(** ** [sandbox_stop] (main.py 635-681) *)

Definition is_cached (container_id : string) (cached : option string) : bool :=
  match cached with
  | Some pid => String.eqb container_id pid
  | None => false
  end.

Definition sandbox_stop_body (container_id : string) (is_persistent : bool) : M pydict :=
  cached <- gets persistent_container_id ;;
  if is_persistent || is_cached container_id cached
  then ret [("success", VBool true);
            ("message", VStr ("容器 " +:+ container_id +:+ " 是持久化容器，已标记为保留"))]
  else
    container <- containers_get container_id ;;
    container_stop (c_id container) 10 ;;
    container_remove (c_id container) true ;;
    ret [("success", VBool true);
         ("message", VStr ("容器 " +:+ container_id +:+ " 已停止并移除"))].

Definition sandbox_stop (container_id : string) (is_persistent : bool) (w : World)
    : pydict * World :=
  if negb (docker_available w) then (unavailable, w)
  else
    match sandbox_stop_body container_id is_persistent w with
    | (inr d, w') => (d, w')
    | (inl e, w') => (failure "停止容器失败: " e, w')
    end.

(** ** [clean_workspace] (main.py 683-719) *)

Definition clean_workspace_body (container_id workspace_id : string) : M pydict :=
  container <- containers_get container_id ;;
  let workspace_path := "/app/workspaces/" +:+ workspace_id in
  exec_run (c_id container) ["rm"; "-rf"; workspace_path] ;;
  ret [("success", VBool true); ("message", VStr ("已清理工作区: " +:+ workspace_path))].

Definition clean_workspace (container_id workspace_id : string) (w : World)
    : pydict * World :=
  if negb (docker_available w) then (unavailable, w)
  else
    match clean_workspace_body container_id workspace_id w with
    | (inr d, w') => (d, w')
    | (inl e, w') => (failure "清理工作区失败: " e, w')
    end.

(** ** [ensure_persistent_container] (main.py 59-124)

    One caller at a time: the whole body runs inside [with container_lock];
    the interleaving of several callers is not modelled. *)

(** Lines 64-72: [Some id] when the cached container is running. *)
Definition check_cached : M (option string) :=
  cached <- gets persistent_container_id ;;
  match cached with
  | Some pid =>
      try_NotFound
        (container <- containers_get pid ;;
         if String.eqb (c_status container) "running" then ret (Some pid) else ret None)
        (modify (set_persistent None) ;; ret None)
  | None => ret None
  end.

(** Lines 75-83: [Some id] when a container has the well-known name. *)
Definition adopt_named : M (option string) :=
  try_NotFound
    (existing <- containers_get PERSISTENT_CONTAINER_NAME ;;
     (if negb (String.eqb (c_status existing) "running")
      then container_start (c_id existing) else ret tt) ;;
     modify (set_persistent (Some (c_id existing))) ;;
     ret (Some (c_id existing)))
    (ret None).

(** Lines 86-124; the [except] there logs and raises again. *)
Definition create_persistent : M string :=
  images_pull DEFAULT_IMAGE ;;
  container <- containers_run DEFAULT_IMAGE (Some PERSISTENT_CONTAINER_NAME) true ;;
  modify (set_persistent (Some (c_id container))) ;;
  exec_run (c_id container) ["mkdir"; "-p"; "/app/workspaces"] ;;
  ret (c_id container).

Definition ensure_persistent_container : M string :=
  r <- check_cached ;;
  match r with
  | Some pid => ret pid
  | None =>
      r <- adopt_named ;;
      match r with
      | Some pid => ret pid
      | None => create_persistent
      end
  end.

(** ** [sandbox_initialize] (main.py 125-216) *)

(** [str(uuid.uuid4())] *)
Definition uuid_draw : M string :=
  fun w => (inr (uuid4 (uuid_count w)), set_uuid_count (S (uuid_count w)) w).

(** Lines 147-163: the container with the well-known name is there. *)
Definition initialize_existing : M pydict :=
  existing <- containers_get PERSISTENT_CONTAINER_NAME ;;
  let container_id := c_id existing in
  workspace_id <- uuid_draw ;;
  let workspace_path := "/app/workspaces/" +:+ workspace_id in
  exec_run (c_id existing) ["mkdir"; "-p"; workspace_path] ;;
  ret [("success", VBool true);
       ("container_id", VStr container_id);
       ("workspace_id", VStr workspace_id);
       ("workspace_path", VStr workspace_path);
       ("mode", VStr "persistent");
       ("message", VStr "使用已存在的持久化容器")].

(** Lines 164-180: it is not there. *)
Definition initialize_created : M pydict :=
  container_id <- ensure_persistent_container ;;
  workspace_id <- uuid_draw ;;
  let workspace_path := "/app/workspaces/" +:+ workspace_id in
  container <- containers_get container_id ;;
  exec_run (c_id container) ["mkdir"; "-p"; workspace_path] ;;
  ret [("success", VBool true);
       ("container_id", VStr container_id);
       ("workspace_id", VStr workspace_id);
       ("workspace_path", VStr workspace_path);
       ("mode", VStr "persistent")].

(** Lines 181-210: a container of its own. *)
Definition initialize_standalone (image : string) : M pydict :=
  images_pull image ;;
  container <- containers_run image None false ;;
  ret [("success", VBool true);
       ("container_id", VStr (c_id container));
       ("mode", VStr "standalone")].

Definition sandbox_initialize_body (image : string) (use_persistent : bool) : M pydict :=
  if use_persistent then try_NotFound initialize_existing initialize_created
  else initialize_standalone image.

Definition sandbox_initialize (image : string) (use_persistent : bool) (w : World)
    : pydict * World :=
  if negb (docker_available w) then (unavailable, w)
  else
    match sandbox_initialize_body image use_persistent w with
    | (inr d, w') => (d, w')
    | (inl e, w') => (failure "创建容器失败: " e, w')
    end.

End Tools.

(** ** A sample engine

    Concrete parameters for the examples: no adapter failure, a shell that
    knows a handful of commands, [tarfile] reading regular local files. *)

Module Sample.

Definition no_fault : World -> EngineCall -> option exn := fun _ _ => None.

Definition out_ok (text : string) : ExecOutput :=
  mkExecOutput 0 (if String.eqb text EmptyString then None else Some text) None.

Definition out_fail (code : Z) (text : string) : ExecOutput :=
  mkExecOutput code None (if String.eqb text EmptyString then None else Some text).

Definition add_dir (p : list string) (fs : Fs) : Fs :=
  mkFs (fs_dirs fs ∪ list_to_set (ancestors p) ∪ {[ p ]}) (fs_files fs).

Definition remove_tree (p : list string) (fs : Fs) : Fs :=
  mkFs (filter (fun d => Fspath.is_prefix p d = false) (fs_dirs fs))
       (filter (fun kd => Fspath.is_prefix p kd.1 = false) (fs_files fs)).

(** [String.length pre] characters dropped from the front. *)
Definition after (pre s : string) : string :=
  String.substring (String.length pre) (String.length s - String.length pre) s.

(** One command without [&&]. *)
Definition simple (cwd : list string) (fs : Fs) (s : string) : ExecOutput * Fs :=
  if String.eqb s "true" then (out_ok EmptyString, fs)
  else if String.eqb s "false" then (out_fail 1 EmptyString, fs)
  else if Py.startswith s "mkdir -p "
  then (out_ok EmptyString, add_dir (Fspath.resolve_from cwd (after "mkdir -p " s)) fs)
  else if Py.startswith s "echo " then (out_ok (after "echo " s), fs)
  else (out_fail 127 ("sh: 1: " +:+ s +:+ ": not found"), fs).

(** [sh -c s], where [s] may start with [cd dir && ]. *)
Definition script (cwd : list string) (fs : Fs) (s : string) : ExecOutput * Fs :=
  match String.index 0 " && " s with
  | Some n =>
      let pre := String.substring 0 n s in
      let rest := String.substring (n + 4) (String.length s - (n + 4)) s in
      if Py.startswith pre "cd " then
        let d := Fspath.resolve_from cwd (after "cd " pre) in
        if is_dir fs d then simple d fs rest
        else (out_fail 2 ("sh: 1: cd: can't cd to " +:+ after "cd " pre), fs)
      else simple cwd fs s
  | None => simple cwd fs s
  end.

(** Commands start in the working directory [/app]. *)
Definition shell (w : World) (c : Container) (argv : list string) : ExecOutput * Fs :=
  match argv with
  | ["sh"; "-c"; s] => script ["app"] (c_fs c) s
  | ["mkdir"; "-p"; p] => (out_ok EmptyString, add_dir (Fspath.resolve_from ["app"] p) (c_fs c))
  | ["rm"; "-rf"; p] => (out_ok EmptyString, remove_tree (Fspath.resolve_from ["app"] p) (c_fs c))
  | ["which"; "pip"] => (out_ok "/usr/local/bin/pip", c_fs c)
  | "pip" :: _ => (out_ok EmptyString, c_fs c)
  | _ => (out_fail 127 "executable file not found", c_fs c)
  end.


Definition tar_tree (w : World) (dir : string) : exn + list TarEntry := inr [].

Definition uuid4 (n : nat) : string :=
  "0000-" +:+ string_of_list_ascii (repeat "a"%char (S n)).

(** A running standalone container [c1] and one local file. *)
Definition box : Container := mkContainer "c1" "box" "running" initial_fs.

Definition world : World :=
  mkWorld true None [box] {[ "notes.txt" := "hi" ]} ∅ 0 [].

(** The same world seen by a process whose start-up probe failed. *)
Definition world_unavailable : World :=
  mkWorld false None [box] {[ "notes.txt" := "hi" ]} ∅ 0 [].

(** The container [c1] stopped. *)
Definition world_stopped : World :=
  mkWorld true None [with_status "exited" box] {[ "notes.txt" := "hi" ]} ∅ 0 [].

End Sample.

Example sample_batch :
  (sandbox_exec Sample.no_fault Sample.shell "c1" ["true"; "false"; "true"] None Sample.world).1
  = [("success", VBool true);
     ("results", VList [command_result "true" 0 EmptyString EmptyString;
                        command_result "false" 1 EmptyString EmptyString])].
Proof. vm_compute. reflexivity. Qed.

(** * Properties *)

(** ** Destination paths *)

Lemma startswith_app (a b : string) : Py.startswith (a +:+ b) a = true.
Proof.
  induction a as [|c a IH]; [reflexivity|].
  change (Ascii.eqb c c && Py.startswith (a +:+ b) a = true).
  rewrite Ascii.eqb_refl. exact IH.
Qed.

Lemma split_sep_cons (s : string) : exists h t, Py.split_sep s = h :: t.
Proof.
  induction s as [|c s IH]; simpl.
  - eauto.
  - destruct (Ascii.eqb c Py.sep); [eauto|].
    destruct IH as (h & t & ->). eauto.
Qed.

Lemma split_sep_app (a b : string) :
  Py.split_sep (a +:+ "/" +:+ b) = Py.split_sep a ++ Py.split_sep b.
Proof.
  induction a as [|c a IH]; simpl.
  - reflexivity.
  - destruct (Ascii.eqb c Py.sep).
    + simpl. f_equal. exact IH.
    + simpl in IH. rewrite IH.
      destruct (split_sep_cons a) as (h & t & ->). reflexivity.
Qed.

Lemma endswith_sep_inv (a : string) :
  Py.endswith_sep a = true -> exists a', a = a' +:+ "/".
Proof.
  induction a as [|c a IH]; simpl; [discriminate|].
  destruct a as [|c' a].
  - intros H. apply Ascii.eqb_eq in H. subst c. exists EmptyString. reflexivity.
  - intros H. destruct (IH H) as (a' & E). exists (String c a'). change (String c (String c' a) = String c (a' +:+ "/")). f_equal. exact E.
Qed.

Lemma walk_app (st : list string) (l1 l2 : list string) :
  Fspath.walk st (l1 ++ l2) = Fspath.walk (Fspath.walk st l1) l2.
Proof. unfold Fspath.walk. apply fold_left_app. Qed.

(** The names a component list adds when it has no [..]. *)
Definition proper (c : string) : bool :=
  negb (String.eqb c EmptyString || String.eqb c ".").

Lemma walk_no_dotdot (l : list string) :
  forall st, ~ In ".." l -> Fspath.walk st l = st ++ List.filter proper l.
Proof.
  induction l as [|c l IH]; intros st H; simpl.
  - rewrite app_nil_r. reflexivity.
  - assert (Hc : String.eqb c ".." = false).
    { apply String.eqb_neq. intros ->. apply H. left. reflexivity. }
    assert (Hl : ~ In ".." l) by (intros X; apply H; right; exact X).
    unfold Fspath.walk in *. simpl. unfold Fspath.step at 2, proper.
    destruct (String.eqb c EmptyString || String.eqb c ".") eqn:E; simpl.
    + apply IH, Hl.
    + rewrite Hc. rewrite IH by exact Hl. rewrite <- app_assoc. reflexivity.
Qed.

Lemma is_prefix_app (a b : list string) : Fspath.is_prefix a (a ++ b) = true.
Proof.
  induction a as [|x a IH]; simpl; [reflexivity|].
  rewrite String.eqb_refl. exact IH.
Qed.

Lemma resolve_walk (p : string) : Fspath.resolve p = Fspath.walk [] (Py.split_sep p).
Proof. unfold Fspath.resolve, Fspath.resolve_from. destruct (Py.startswith p "/"); reflexivity. Qed.

Lemma lstrip_sep_components (p c : string) :
  In c (Py.split_sep (Py.lstrip_sep p)) -> In c (Py.split_sep p).
Proof.
  induction p as [|a p IH]; simpl; [tauto|].
  destruct (Ascii.eqb a Py.sep) eqn:E.
  - intros H. right. apply IH, H.
  - simpl. rewrite E. tauto.
Qed.

Lemma lstrip_sep_no_lead (p : string) : Py.startswith (Py.lstrip_sep p) "/" = false.
Proof.
  induction p as [|a p IH]; simpl; [reflexivity|].
  destruct (Ascii.eqb a Py.sep) eqn:E; [exact IH|].
  simpl. unfold Py.sep in E. rewrite E. reflexivity.
Qed.

Lemma strip_leading_no_lead (p : string) : Py.startswith (strip_leading p) "/" = false.
Proof.
  unfold strip_leading. destruct (Py.startswith p "/") eqn:E; [apply lstrip_sep_no_lead | exact E].
Qed.

Lemma strip_leading_components (p c : string) :
  In c (Py.split_sep (strip_leading p)) -> In c (Py.split_sep p).
Proof.
  unfold strip_leading. destruct (Py.startswith p "/"); [apply lstrip_sep_components | tauto].
Qed.

(** Joining a name without [..] below [base] stays below [base]. *)
Lemma within_app (base q : string) :
  ~ In ".." (Py.split_sep q) -> Fspath.within base (base +:+ "/" +:+ q) = true.
Proof.
  intros H. unfold Fspath.within. rewrite !resolve_walk, split_sep_app, walk_app.
  rewrite (walk_no_dotdot _ _ H). apply is_prefix_app.
Qed.

Lemma within_join (base q : string) :
  Py.startswith q "/" = false -> ~ In ".." (Py.split_sep q) ->
  Fspath.within base (Py.path_join base q) = true.
Proof.
  intros Hq H. unfold Py.path_join. rewrite Hq.
  destruct (String.eqb base EmptyString) eqn:Eb; simpl.
  - apply String.eqb_eq in Eb. subst base. reflexivity.
  - destruct (Py.endswith_sep base) eqn:Ee; [|apply within_app, H].
    destruct (endswith_sep_inv _ Ee) as (b & ->).
    unfold Fspath.within. rewrite !resolve_walk.
    replace ((b +:+ "/") +:+ q) with (b +:+ "/" +:+ q).
    + pose proof (split_sep_app b EmptyString) as X.
      change (b +:+ "/" +:+ EmptyString) with (b +:+ "/") in X.
      rewrite X, split_sep_app, !walk_app.
      rewrite (walk_no_dotdot _ _ H). apply is_prefix_app.
    + clear. induction b as [|c b IH]; [reflexivity|].
      change (String c (b +:+ "/" +:+ q) = String c ((b +:+ "/") +:+ q)).
      rewrite IH. reflexivity.
Qed.

Lemma startswith_join (base q : string) :
  Py.startswith q "/" = false -> Py.startswith (Py.path_join base q) base = true.
Proof.
  intros Hq. unfold Py.path_join. rewrite Hq.
  destruct (String.eqb base EmptyString || Py.endswith_sep base); apply startswith_app.
Qed.

(** C1, as amended.  For every destination path [p] with no [..] component,
    given to [write_file_sandbox] or [copy_project] as [dest_dir] or to
    [copy_file] as [dest_path]: the leading separators of [p] are stripped
    before it is joined to the base directory, the target path starts with
    the base directory (the working root [/app], or the workspace root when
    a [workspace_id] is given), and it resolves to the base directory or to
    something beneath it. *)
Theorem dest_path_under_base (workspace_id : option string) (p : string)
    (Hp : ~ In ".." (Py.split_sep p)) :
  Py.startswith (strip_leading p) "/" = false
  /\ Py.startswith (resolve_dest_dir workspace_id (Some p)) (base_dir workspace_id) = true
  /\ Py.startswith (full_dest_path workspace_id p) (base_dir workspace_id) = true
  /\ Fspath.within (base_dir workspace_id) (resolve_dest_dir workspace_id (Some p)) = true
  /\ Fspath.within (base_dir workspace_id) (full_dest_path workspace_id p) = true.
Proof.
  assert (Hs : ~ In ".." (Py.split_sep (strip_leading p))).
  { intros X. apply Hp, strip_leading_components, X. }
  pose proof (strip_leading_no_lead p) as Hl.
  repeat split.
  - exact Hl.
  - apply startswith_join, Hl.
  - apply startswith_app.
  - apply within_join; assumption.
  - apply within_app, Hs.
Qed.

Lemma dest_path_under_base_witness :
  Py.startswith (strip_leading "//etc/passwd") "/" = false
  /\ Py.startswith (resolve_dest_dir (Some "w1") (Some "//etc/passwd")) (base_dir (Some "w1")) = true
  /\ Py.startswith (full_dest_path (Some "w1") "//etc/passwd") (base_dir (Some "w1")) = true
  /\ Fspath.within (base_dir (Some "w1")) (resolve_dest_dir (Some "w1") (Some "//etc/passwd")) = true
  /\ Fspath.within (base_dir (Some "w1")) (full_dest_path (Some "w1") "//etc/passwd") = true.
Proof.
  apply (dest_path_under_base (Some "w1") "//etc/passwd").
  vm_compute. intros H. decompose [or] H; discriminate || contradiction.
Defined.

(** C1 as stated fails: a destination that begins with a separator and goes
    on with [..] is joined as it is, and the target resolves outside the
    base directory; [write_file_sandbox] then creates the file there. *)
Lemma dest_path_escapes :
  Fspath.within (base_dir None) (resolve_dest_dir None (Some "/../tmp")) = false
  /\ Fspath.within (base_dir None) (full_dest_path None "/../tmp/x.txt") = false
  /\ Fspath.within (base_dir (Some "w1")) (resolve_dest_dir (Some "w1") (Some "/../w2")) = false
  /\ let r := write_file_sandbox Sample.no_fault Sample.shell
                "c1" "x.txt" "data" None (Some "/../tmp") Sample.world in
     r.1 = [("success", VBool true); ("file_path", VStr "/app/../tmp/x.txt")]
     /\ (fs_files <$> (c_fs <$> by_id "c1" (containers r.2)))
        = Some {[ ["tmp"; "x.txt"] := "data" ]}.
Proof. vm_compute. repeat split; reflexivity. Qed.

(** ** Reasoning about tool bodies *)

Lemma bind_inv {A B} (m : M A) (k : A -> M B) w r w' :
  bind m k w = (r, w') ->
  (exists a w1, m w = (inr a, w1) /\ k a w1 = (r, w'))
  \/ (exists e, m w = (inl e, w') /\ r = inl e).
Proof.
  unfold bind. destruct (m w) as [[e|a] w1]; intros H.
  - right. exists e. inversion H. subst. split; reflexivity.
  - left. exists a, w1. split; [reflexivity | exact H].
Qed.

(** The script of a [sh -c] call. *)
Definition sh_script (c : EngineCall) : option string :=
  match c with
  | CExec _ ["sh"; "-c"; s] => Some s
  | _ => None
  end.

Definition sh_scripts (cs : list EngineCall) : list string := omap sh_script cs.

(** A call of the install step of lines 275-276. *)
Definition is_pip_install (c : EngineCall) : bool :=
  match c with
  | CExec _ ("pip" :: "install" :: _) => true
  | _ => false
  end.

Lemma sh_scripts_app (a b : list EngineCall) :
  sh_scripts (a ++ b) = sh_scripts a ++ sh_scripts b.
Proof. unfold sh_scripts. apply omap_app. Qed.

(** The engine's refusal of [exec] in a container that is not running. *)
Definition not_running (id : string) : exn :=
  Raise APIError ("409 Client Error: Conflict (container " +:+ id +:+ " is not running)").

Section ExecProperties.

Variable fault : World -> EngineCall -> option exn.
Variable shell : World -> Container -> list string -> ExecOutput * Fs.

Lemma issue_calls c w r w' :
  issue fault c w = (r, w') -> calls w' = calls w ++ [c].
Proof.
  unfold issue. destruct (fault w c); intros H; inversion H; reflexivity.
Qed.

Lemma live_calls id w r w' : live id w = (r, w') -> calls w' = calls w.
Proof.
  unfold live, bind, gets, ret, raise. destruct (by_id id (containers w));
    intros H; inversion H; reflexivity.
Qed.

Lemma exec_run_calls id argv w r w' :
  exec_run fault shell id argv w = (r, w') -> calls w' = calls w ++ [CExec id argv].
Proof.
  unfold exec_run. intros H.
  apply bind_inv in H as [(a & w1 & H1 & H)|(e & H1 & _)];
    [|apply issue_calls in H1; exact H1].
  apply issue_calls in H1. rewrite <- H1.
  apply bind_inv in H as [(c & w2 & H2 & H)|(e & H2 & _)];
    [|apply live_calls in H2; exact H2].
  apply live_calls in H2. rewrite <- H2.
  destruct (negb (String.eqb (c_status c) "running")).
  - inversion H. reflexivity.
  - unfold bind, gets, put_container, modify, ret in H.
    destruct (shell w2 c argv) as [o fs]. inversion H. reflexivity.
Qed.

Lemma containers_get_calls key w r w' :
  containers_get fault key w = (r, w') -> calls w' = calls w ++ [CGet key].
Proof.
  unfold containers_get. intros H.
  apply bind_inv in H as [(a & w1 & H1 & H)|(e & H1 & _)];
    [|apply issue_calls in H1; exact H1].
  apply issue_calls in H1. rewrite <- H1.
  unfold bind, gets, ret, raise in H.
  destruct (lookup_container key (containers w1)); inversion H; reflexivity.
Qed.

Lemma decode_stream_world o w r w' : decode_stream o w = (r, w') -> w' = w.
Proof.
  unfold decode_stream, bytes_decode, ret, raise.
  destruct o as [b|]; [destruct (String.eqb b EmptyString); [|destruct (Utf8.valid b)]|];
    intros H; inversion H; reflexivity.
Qed.

Definition no_pip_install (d : list EngineCall) : Prop :=
  forallb (fun c => negb (is_pip_install c)) d = true.

(** What the install step adds to the trace: nothing unless the command to
    run starts with [python], and never a [sh -c] call. *)
Lemma install_step_calls id to_run w r w' :
  install_step fault shell id to_run w = (r, w') ->
  r = inr tt
  /\ exists d, calls w' = calls w ++ d /\ sh_scripts d = []
               /\ (Py.startswith to_run "python" = false -> d = []).
Proof.
  unfold install_step. destruct (Py.startswith to_run "python").
  - unfold try_pass. intros H.
    destruct (bind _ _ w) as [r0 w0] eqn:E.
    assert (w0 = w' /\ r = inr tt) as [-> ->] by (destruct r0; inversion H; auto).
    clear H. split; [reflexivity|].
    apply bind_inv in E as [(a & w1 & H1 & E)|(e & H1 & _)].
    + apply exec_run_calls in H1.
      apply bind_inv in E as [(b & w2 & H2 & E)|(e & H2 & _)].
      * apply exec_run_calls in H2. inversion E. subst.
        eexists. split; [rewrite H2, H1, <- app_assoc; reflexivity|].
        split; [reflexivity | discriminate].
      * apply exec_run_calls in H2.
        eexists. split; [rewrite H2, H1, <- app_assoc; reflexivity|].
        split; [reflexivity | discriminate].
    + apply exec_run_calls in H1.
      eexists. split; [exact H1|]. split; [reflexivity | discriminate].
  - intros H. inversion H. split; [reflexivity|]. exists []. rewrite app_nil_r. auto.
Qed.

(** The bootstrap of lines 246-260 never fails, and adds neither a
    [sh -c] call nor an install step. *)
Lemma bootstrap_calls id w r w' :
  bootstrap fault shell id w = (r, w') ->
  r = inr tt
  /\ exists d, calls w' = calls w ++ d /\ sh_scripts d = [] /\ no_pip_install d.
Proof.
  unfold bootstrap, try_pass. intros H.
  destruct (bind _ _ w) as [r0 w0] eqn:E.
  assert (w0 = w' /\ r = inr tt) as [-> ->] by (destruct r0; inversion H; auto).
  clear H. split; [reflexivity|].
  apply bind_inv in E as [(o & w1 & H1 & E)|(e & H1 & _)].
  - apply exec_run_calls in H1.
    destruct (String.eqb (combined o) EmptyString).
    + apply bind_inv in E as [(a & w2 & H2 & E)|(e & H2 & _)].
      * apply exec_run_calls in H2.
        apply bind_inv in E as [(b & w3 & H3 & E)|(e & H3 & _)].
        -- apply exec_run_calls in H3. inversion E. subst.
           eexists. split; [rewrite H3, H2, H1, <- !app_assoc; reflexivity|].
           split; reflexivity.
        -- apply exec_run_calls in H3.
           eexists. split; [rewrite H3, H2, H1, <- !app_assoc; reflexivity|].
           split; reflexivity.
      * apply exec_run_calls in H2.
        eexists. split; [rewrite H2, H1, <- !app_assoc; reflexivity|].
        split; reflexivity.
    + inversion E. subst. eexists. split; [exact H1|]. split; reflexivity.
  - apply exec_run_calls in H1. eexists. split; [exact H1|]. split; reflexivity.
Qed.

(** ** The batch of [sandbox_exec] *)

Definition exit_code_of (v : Value) : option Z :=
  match v with
  | VDict d => match dict_get "exit_code" d with
               | Some (VInt z) => Some z
               | _ => None
               end
  | _ => None
  end.

(** [v] is the record of one run of [cmd]: the command text, an integer
    exit code, the two captured texts, and [success] equal to
    [exit_code == 0]. *)
Definition is_command_result (cmd : string) (v : Value) : Prop :=
  exists d code out err,
    v = VDict d
    /\ dict_get "command" d = Some (VStr cmd)
    /\ dict_get "exit_code" d = Some (VInt code)
    /\ dict_get "stdout" d = Some (VStr out)
    /\ dict_get "stderr" d = Some (VStr err)
    /\ dict_get "success" d = Some (VBool (code =? 0)%Z).

Lemma command_result_is cmd code out err :
  is_command_result cmd (command_result cmd code out err).
Proof.
  unfold is_command_result, command_result.
  eexists _, code, out, err. repeat split; reflexivity.
Qed.

Lemma command_result_exit cmd code out err :
  exit_code_of (command_result cmd code out err) = Some code.
Proof. reflexivity. Qed.

(** [outs] are the records of the first [length outs] commands, in order;
    every record but the last has exit code 0, and when commands are left
    over the last record has a non-zero exit code. *)
Definition is_batch (commands : list string) (outs : list Value) : Prop :=
  length outs <= length commands
  /\ Forall2 is_command_result (firstn (length outs) commands) outs
  /\ Forall (fun v => exit_code_of v = Some 0%Z) (removelast outs)
  /\ (length outs < length commands ->
      exists z, exit_code_of (List.last outs VNone) = Some z /\ z <> 0%Z).

Lemma is_batch_nil commands : commands = [] -> is_batch commands [].
Proof.
  intros ->. repeat split; simpl; auto. intros H. inversion H.
Qed.

Lemma is_batch_stop cmd rest code out err :
  code <> 0%Z -> is_batch (cmd :: rest) [command_result cmd code out err].
Proof.
  intros H. repeat split; simpl.
  - lia.
  - constructor; [apply command_result_is | constructor].
  - constructor.
  - intros _. exists code. auto.
Qed.

Lemma is_batch_cons cmd rest out err outs :
  is_batch rest outs -> is_batch (cmd :: rest) (command_result cmd 0 out err :: outs).
Proof.
  intros (Hl & Hf & Hz & Hlast). repeat split.
  - simpl. lia.
  - simpl. constructor; [apply command_result_is | exact Hf].
  - destruct outs as [|v outs]; [constructor|].
    change (removelast (command_result cmd 0 out err :: v :: outs))
      with (command_result cmd 0 out err :: removelast (v :: outs)).
    constructor; [reflexivity | exact Hz].
  - intros H. simpl in H. assert (H' : length outs < length rest) by lia.
    destruct (Hlast H') as (z & Hz1 & Hz2).
    destruct outs as [|v outs]; [discriminate|].
    exists z. split; [exact Hz1 | exact Hz2].
Qed.

(** The loop: what it adds to the trace and, when it ends without an
    exception, what it appends to [results]. *)
Lemma run_commands_spec id ws commands :
  forall results w r w',
    run_commands fault shell id ws commands results w = (r, w') ->
    exists n d,
      n <= length commands
      /\ calls w' = calls w ++ d
      /\ sh_scripts d = map (cmd_to_run ws) (firstn n commands)
      /\ ((forall cmd, In cmd commands ->
             Py.startswith (cmd_to_run ws cmd) "python" = false) -> no_pip_install d)
      /\ (forall res, r = inr res ->
            exists outs, res = results ++ outs /\ length outs = n /\ is_batch commands outs).
Proof.
  induction commands as [|cmd rest IH]; intros results w r w' H.
  - inversion H. subst. exists 0, []. rewrite app_nil_r.
    repeat split; try reflexivity; try (simpl; lia).
    intros res E. inversion E. subst. exists []. rewrite app_nil_r.
    split; [reflexivity|]. split; [reflexivity|]. apply is_batch_nil. reflexivity.
  - simpl in H.
    apply bind_inv in H as [([] & w1 & H1 & H)|(e & H1 & _)];
      [|apply install_step_calls in H1 as [X _]; discriminate].
    apply install_step_calls in H1 as (_ & d1 & Hd1 & Hs1 & Hp1).
    assert (Hnp1 : (forall c, In c (cmd :: rest) ->
                      Py.startswith (cmd_to_run ws c) "python" = false) -> d1 = []).
    { intros X. apply Hp1, X. left. reflexivity. }
    set (call := CExec id ["sh"; "-c"; cmd_to_run ws cmd]) in *.
    assert (Hstop : forall w2, calls w2 = calls w1 ++ [call] ->
              w' = w2 ->
              exists d, 1 <= length (cmd :: rest)
                /\ calls w' = calls w ++ d
                /\ sh_scripts d = map (cmd_to_run ws) (firstn 1 (cmd :: rest))
                /\ ((forall c, In c (cmd :: rest) ->
                       Py.startswith (cmd_to_run ws c) "python" = false) -> no_pip_install d)).
    { intros w2 Hc ->. exists (d1 ++ [call]). repeat split.
      - simpl. lia.
      - rewrite Hc, Hd1, <- app_assoc. reflexivity.
      - rewrite sh_scripts_app, Hs1. reflexivity.
      - intros X. rewrite (Hnp1 X). reflexivity. }
    apply bind_inv in H as [(o & w2 & H2 & H)|(e & H2 & ->)].
    2:{ apply exec_run_calls in H2. destruct (Hstop _ H2 eq_refl) as (d & A & B & C & D).
        exists 1, d. repeat split; auto. intros res E. discriminate. }
    apply exec_run_calls in H2.
    apply bind_inv in H as [(out & w3 & H3 & H)|(e & H3 & ->)].
    2:{ apply decode_stream_world in H3. subst w'.
        destruct (Hstop _ H2 eq_refl) as (d & A & B & C & D).
        exists 1, d. repeat split; auto. intros res E. discriminate. }
    apply decode_stream_world in H3. subst w3.
    apply bind_inv in H as [(err & w4 & H4 & H)|(e & H4 & ->)].
    2:{ apply decode_stream_world in H4. subst w'.
        destruct (Hstop _ H2 eq_refl) as (d & A & B & C & D).
        exists 1, d. repeat split; auto. intros res E. discriminate. }
    apply decode_stream_world in H4. subst w4.
    destruct (eo_exit o =? 0)%Z eqn:Ez.
    + apply Z.eqb_eq in Ez. rewrite Ez in H.
      destruct (IH _ _ _ _ H) as (n & d & Hn & Hd & Hs & Hp & Hres).
      exists (S n), (d1 ++ [call] ++ d). repeat split.
      * simpl. lia.
      * rewrite Hd, H2, Hd1, <- !app_assoc. reflexivity.
      * rewrite !sh_scripts_app, Hs1, Hs. reflexivity.
      * intros X. rewrite (Hnp1 X). simpl.
        apply Hp. intros c Hc. apply X. right. exact Hc.
      * intros res E. destruct (Hres res E) as (outs & -> & Hlen & Hb).
        exists (command_result cmd 0 out err :: outs).
        rewrite <- app_assoc. simpl.
        split; [reflexivity|]. split; [lia|]. apply is_batch_cons, Hb.
    + apply Z.eqb_neq in Ez. inversion H. subst.
      destruct (Hstop _ H2 eq_refl) as (d & A & B & C & D).
      exists 1, d. repeat split; auto.
      intros res E. inversion E. subst.
      exists [command_result cmd (eo_exit o) out err].
      split; [reflexivity|]. split; [reflexivity|]. apply is_batch_stop, Ez.
Qed.

(** ** Containers that stay running *)

Definition running (id : string) (w : World) : Prop :=
  exists c, by_id id (containers w) = Some c /\ c_status c = "running".

Lemma by_id_update id id' f cs :
  (forall c, c_id (f c) = c_id c) ->
  by_id id (update_container id' f cs)
  = (fun c => if String.eqb (c_id c) id' then f c else c) <$> by_id id cs.
Proof.
  intros Hf. unfold by_id, update_container.
  induction cs as [|c cs IH]; simpl; [reflexivity|].
  destruct (String.eqb (c_id c) id') eqn:E1; simpl.
  - rewrite Hf. destruct (String.eqb (c_id c) id) eqn:E2; simpl; [rewrite E1; reflexivity | exact IH].
  - destruct (String.eqb (c_id c) id) eqn:E2; simpl; [rewrite E1; reflexivity | exact IH].
Qed.

Lemma running_with_fs id id' fs w :
  running id w ->
  running id (set_containers (update_container id' (with_fs fs) (containers w)) w).
Proof.
  intros (c & Hc & Hs). unfold running. simpl.
  rewrite by_id_update by reflexivity. rewrite Hc. simpl.
  destruct (String.eqb (c_id c) id'); eexists; split; try reflexivity; exact Hs.
Qed.

Lemma issue_containers c w r w' :
  issue fault c w = (r, w') -> containers w' = containers w.
Proof. unfold issue. destruct (fault w c); intros H; inversion H; reflexivity. Qed.

Lemma running_ext id w w' : containers w' = containers w -> running id w -> running id w'.
Proof. unfold running. intros ->. tauto. Qed.

Lemma live_world id w r w' : live id w = (r, w') -> w' = w.
Proof.
  unfold live, bind, gets, ret, raise. destruct (by_id id (containers w));
    intros H; inversion H; reflexivity.
Qed.

Lemma exec_run_running id0 id argv w r w' :
  exec_run fault shell id argv w = (r, w') -> running id0 w -> running id0 w'.
Proof.
  unfold exec_run. intros H R.
  apply bind_inv in H as [(a & w1 & H1 & H)|(e & H1 & _)];
    [|apply issue_containers in H1; eapply running_ext; eauto].
  apply issue_containers in H1. apply (running_ext id0 _ _ H1) in R. clear H1.
  apply bind_inv in H as [(c & w2 & H2 & H)|(e & H2 & _)];
    [|apply live_world in H2; subst; exact R].
  apply live_world in H2. subst w2.
  destruct (negb (String.eqb (c_status c) "running")).
  - inversion H. subst. exact R.
  - unfold bind, gets, put_container, modify, ret in H.
    destruct (shell w1 c argv) as [o fs]. inversion H. subst.
    apply running_with_fs, R.
Qed.

(** With no adapter failure, [exec_run] in a running container returns what
    the shell gives. *)
Lemma exec_run_ok id argv w :
  fault w (CExec id argv) = None -> running id w ->
  exists o w', exec_run fault shell id argv w = (inr o, w')
               /\ (exists w0 c, o = (shell w0 c argv).1) /\ running id w'.
Proof.
  intros Hf (c & Hc & Hs).
  set (w1 := set_calls (calls w ++ [CExec id argv]) w).
  assert (H1 : issue fault (CExec id argv) w = (inr tt, w1))
    by (unfold issue; rewrite Hf; reflexivity).
  assert (H2 : live id w1 = (inr c, w1)).
  { unfold live, bind, gets, ret. change (containers w1) with (containers w).
    rewrite Hc. reflexivity. }
  unfold exec_run. rewrite (bind_inr _ _ _ _ _ H1), (bind_inr _ _ _ _ _ H2).
  rewrite Hs. change (negb ("running" =? "running")%string) with false. cbv iota.
  unfold bind, gets, put_container, modify, ret.
  destruct (shell w1 c argv) as [o fs] eqn:E.
  eexists _, _. split; [reflexivity|]. split.
  - exists w1, c. rewrite E. reflexivity.
  - apply (running_with_fs id id fs w1). exists c. auto.
Qed.

Lemma try_pass_inv (m : M unit) w r w' :
  try_pass m w = (r, w') -> r = inr tt /\ exists r0, m w = (r0, w').
Proof.
  unfold try_pass. destruct (m w) as [[e|[]] w0]; intros H; inversion H; subst; eauto.
Qed.

Lemma install_step_running id0 id to_run w r w' :
  install_step fault shell id to_run w = (r, w') -> running id0 w -> running id0 w'.
Proof.
  unfold install_step. destruct (Py.startswith to_run "python").
  - intros H R. apply try_pass_inv in H as (_ & r0 & H).
    apply bind_inv in H as [(a & w1 & H1 & H)|(e & H1 & _)];
      [|eapply exec_run_running; eauto].
    apply (exec_run_running id0) in H1; [|exact R].
    apply bind_inv in H as [(b & w2 & H2 & H)|(e & H2 & _)];
      [|eapply exec_run_running; eauto].
    apply (exec_run_running id0) in H2; [|exact H1].
    inversion H. subst. exact H2.
  - intros H R. inversion H. subst. exact R.
Qed.

Lemma bootstrap_running id0 id w r w' :
  bootstrap fault shell id w = (r, w') -> running id0 w -> running id0 w'.
Proof.
  unfold bootstrap. intros H R. apply try_pass_inv in H as (_ & r0 & H).
  apply bind_inv in H as [(o & w1 & H1 & H)|(e & H1 & _)];
    [|eapply exec_run_running; eauto].
  apply (exec_run_running id0) in H1; [|exact R].
  destruct (String.eqb (combined o) EmptyString); [|inversion H; subst; exact H1].
  apply bind_inv in H as [(a & w2 & H2 & H)|(e & H2 & _)];
    [|eapply exec_run_running; eauto].
  apply (exec_run_running id0) in H2; [|exact H1].
  apply bind_inv in H as [(b & w3 & H3 & H)|(e & H3 & _)];
    [|eapply exec_run_running; eauto].
  apply (exec_run_running id0) in H3; [|exact H2].
  inversion H. subst. exact H3.
Qed.

(** A stream that [decode_stream] turns into text: nothing, or well-formed
    UTF-8. *)
Definition decodable (o : option bytes) : Prop :=
  match o with
  | Some b => Utf8.valid b = true
  | None => True
  end.

Lemma decode_stream_ok o w : decodable o -> exists s, decode_stream o w = (inr s, w).
Proof.
  unfold decodable, decode_stream, bytes_decode, ret. destruct o as [b|]; [|eauto].
  intros H. destruct (String.eqb b EmptyString); [eauto|]. rewrite H. eauto.
Qed.

(** No failure of the adapter on the [sh -c] calls, decodable output, a
    running container: the loop ends with a list, whatever the exit codes
    and whatever happens in the install steps. *)
Lemma run_commands_ok id ws commands :
  (forall w0 s, fault w0 (CExec id ["sh"; "-c"; s]) = None) ->
  (forall w0 c cmd, In cmd commands ->
     decodable (eo_stdout (shell w0 c ["sh"; "-c"; cmd_to_run ws cmd]).1)
     /\ decodable (eo_stderr (shell w0 c ["sh"; "-c"; cmd_to_run ws cmd]).1)) ->
  forall results w, running id w ->
    exists res w', run_commands fault shell id ws commands results w = (inr res, w').
Proof.
  intros Hf. induction commands as [|cmd rest IH]; intros Hd results w R.
  - simpl. unfold ret. eauto.
  - simpl.
    destruct (install_step fault shell id (cmd_to_run ws cmd) w) as [r1 w1] eqn:E1.
    pose proof (install_step_running id _ _ _ _ _ E1 R) as R1.
    apply install_step_calls in E1 as E1'. destruct E1' as (-> & _).
    rewrite (bind_inr _ _ _ _ _ E1).
    destruct (exec_run_ok id ["sh"; "-c"; cmd_to_run ws cmd] w1 (Hf _ _) R1)
      as (o & w2 & E2 & (w0 & c & Ho) & R2).
    rewrite (bind_inr _ _ _ _ _ E2).
    destruct (Hd w0 c cmd (or_introl eq_refl)) as [D1 D2]. rewrite <- Ho in D1, D2.
    destruct (decode_stream_ok _ w2 D1) as (out & E3).
    destruct (decode_stream_ok _ w2 D2) as (err & E4).
    rewrite (bind_inr _ _ _ _ _ E3), (bind_inr _ _ _ _ _ E4).
    destruct (eo_exit o =? 0)%Z.
    + apply IH; [|exact R2]. intros w3 c3 cmd3 Hin. apply Hd. right. exact Hin.
    + unfold ret. eauto.
Qed.

Lemma no_pip_install_app a b : no_pip_install a -> no_pip_install b -> no_pip_install (a ++ b).
Proof. unfold no_pip_install. intros Ha Hb. rewrite forallb_app, Ha, Hb. reflexivity. Qed.

Lemma cmd_to_run_workspace ws cmd :
  Py.startswith (cmd_to_run (Some ws) cmd) "python" = false.
Proof. reflexivity. Qed.

Lemma containers_get_containers key w r w' :
  containers_get fault key w = (r, w') -> containers w' = containers w.
Proof.
  unfold containers_get. intros H.
  apply bind_inv in H as [(a & w1 & H1 & H)|(e & H1 & _)];
    [|apply issue_containers in H1; exact H1].
  apply issue_containers in H1. rewrite <- H1.
  unfold bind, gets, ret, raise in H.
  destruct (lookup_container key (containers w1)); inversion H; reflexivity.
Qed.

Lemma containers_get_ok key w c :
  fault w (CGet key) = None -> lookup_container key (containers w) = Some c ->
  exists w', containers_get fault key w = (inr c, w').
Proof.
  intros Hf Hc. unfold containers_get, bind, issue, gets, ret. rewrite Hf.
  change (containers (set_calls (calls w ++ [CGet key]) w)) with (containers w).
  rewrite Hc. eauto.
Qed.

(** The whole body of the [try]: its trace and its result. *)
Lemma sandbox_exec_body_spec container_id commands ws w r w' :
  sandbox_exec_body fault shell container_id commands ws w = (r, w') ->
  exists n d,
    calls w' = calls w ++ d
    /\ sh_scripts d = map (cmd_to_run ws) (firstn n commands)
    /\ ((forall cmd, In cmd commands ->
           Py.startswith (cmd_to_run ws cmd) "python" = false) -> no_pip_install d)
    /\ (forall res, r = inr res -> length res = n /\ is_batch commands res).
Proof.
  unfold sandbox_exec_body. intros H.
  apply bind_inv in H as [(c & w1 & H1 & H)|(e & H1 & ->)].
  2:{ apply containers_get_calls in H1. exists 0, [CGet container_id].
      split; [exact H1|]. split; [reflexivity|]. split; [intros _; reflexivity|].
      intros res E. discriminate. }
  apply containers_get_calls in H1.
  apply bind_inv in H as [([] & w2 & H2 & H)|(e & H2 & _)];
    [|apply bootstrap_calls in H2 as [X _]; discriminate].
  apply bootstrap_calls in H2 as (_ & d2 & Hd2 & Hs2 & Hp2).
  apply run_commands_spec in H as (n & d & Hn & Hd & Hs & Hp & Hres).
  exists n, ([CGet container_id] ++ d2 ++ d). split; [|split; [|split]].
  - rewrite Hd, Hd2, H1, <- !app_assoc. reflexivity.
  - rewrite !sh_scripts_app, Hs2, Hs. reflexivity.
  - intros X. apply no_pip_install_app; [reflexivity|].
    apply no_pip_install_app; [exact Hp2 | apply Hp, X].
  - intros res0 E. destruct (Hres res0 E) as (outs & -> & Hl & Hb). simpl. auto.
Qed.

(** ** What [exec_run] and the decoding give back *)

Lemma by_id_id id cs c : by_id id cs = Some c -> c_id c = id.
Proof.
  unfold by_id. intros H. apply find_some in H as [_ H]. apply String.eqb_eq, H.
Qed.

(** A value returned by [exec_run] is what the shell gave for [argv] in a
    running container of that id, in the world where the call is already on
    the trace. *)
Lemma exec_run_returns id argv w o w' :
  exec_run fault shell id argv w = (inr o, w') ->
  exists c,
    by_id id (containers w) = Some c /\ c_status c = "running"
    /\ fault w (CExec id argv) = None
    /\ o = (shell (set_calls (calls w ++ [CExec id argv]) w) c argv).1.
Proof.
  unfold exec_run. intros H.
  apply bind_inv in H as [(a & w1 & H1 & H)|(e & _ & X)]; [|discriminate].
  pose proof (issue_calls _ _ _ _ H1) as Hc1.
  assert (Hf : fault w (CExec id argv) = None).
  { unfold issue in H1. destruct (fault w (CExec id argv)); [discriminate | reflexivity]. }
  assert (Hw1 : w1 = set_calls (calls w ++ [CExec id argv]) w).
  { unfold issue in H1. rewrite Hf in H1. inversion H1. reflexivity. }
  apply bind_inv in H as [(c & w2 & H2 & H)|(e & _ & X)]; [|discriminate].
  pose proof (live_world _ _ _ _ H2) as ->.
  assert (Hc : by_id id (containers w1) = Some c).
  { unfold live, bind, gets, ret, raise in H2.
    destruct (by_id id (containers w1)); inversion H2. reflexivity. }
  destruct (String.eqb (c_status c) "running") eqn:Es; simpl in H; [|discriminate].
  unfold bind, gets, put_container, modify, ret in H.
  destruct (shell w1 c argv) as [o1 fs] eqn:Esh. inversion H. subst o1.
  exists c. rewrite Hw1 in Hc, Esh. split; [exact Hc|].
  split; [apply String.eqb_eq, Es|]. split; [exact Hf|]. rewrite Esh. reflexivity.
Qed.

(** What [exec_run] raises: the adapter's exception, or the engine's
    refusal of a missing or stopped container. *)
Lemma exec_run_raises id argv w e w' :
  exec_run fault shell id argv w = (inl e, w') ->
  fault w (CExec id argv) = Some e \/ e = no_such_container id \/ e = not_running id.
Proof.
  unfold exec_run. intros H.
  apply bind_inv in H as [(a & w1 & H1 & H)|(e0 & H1 & X)].
  - apply bind_inv in H as [(c & w2 & H2 & H)|(e0 & H2 & X)].
    + destruct (negb (String.eqb (c_status c) "running")).
      * inversion H. right. right. reflexivity.
      * unfold bind, gets, put_container, modify, ret in H.
        destruct (shell w2 c argv). discriminate.
    + inversion X. subst e0. right. left.
      unfold live, bind, gets, ret, raise in H2.
      destruct (by_id id (containers w1)); inversion H2. reflexivity.
  - inversion X. subst e0. left. unfold issue in H1.
    destruct (fault w (CExec id argv)); inversion H1. reflexivity.
Qed.

(** [s.decode('utf-8') if s else ""] as a function of the stream. *)
Definition text (o : option bytes) : string := default EmptyString o.

Lemma decode_stream_returns o w s w' :
  decode_stream o w = (inr s, w') -> s = text o /\ decodable o.
Proof.
  unfold decode_stream, bytes_decode, decodable, text, ret, raise.
  destruct o as [b|]; simpl.
  - destruct (String.eqb b EmptyString) eqn:Eb.
    + apply String.eqb_eq in Eb. subst b. intros H. inversion H. split; reflexivity.
    + destruct (Utf8.valid b); intros H; inversion H. split; reflexivity.
  - intros H. inversion H. split; [reflexivity | exact I].
Qed.

Lemma decode_stream_raises o w e w' :
  decode_stream o w = (inl e, w') -> ~ decodable o /\ exn_kind e = UnicodeDecodeError.
Proof.
  unfold decode_stream, bytes_decode, decodable, ret, raise.
  destruct o as [b|]; [|discriminate].
  destruct (String.eqb b EmptyString); [discriminate|].
  destruct (Utf8.valid b); [discriminate|].
  intros H. inversion H. split; [discriminate | reflexivity].
Qed.

Lemma containers_get_raises key w e w' :
  containers_get fault key w = (inl e, w') ->
  fault w (CGet key) = Some e
  \/ (lookup_container key (containers w) = None /\ e = no_such_container key).
Proof.
  unfold containers_get. intros H.
  apply bind_inv in H as [(a & w1 & H1 & H)|(e0 & H1 & X)].
  - right. apply issue_containers in H1. unfold bind, gets, ret, raise in H.
    rewrite H1 in H. destruct (lookup_container key (containers w)); inversion H.
    split; reflexivity.
  - left. inversion X. subst e0. unfold issue in H1.
    destruct (fault w (CGet key)); inversion H1. reflexivity.
Qed.

(** ** The records of a batch *)

(** The record appended at lines 293-299 for a command whose run gave [o]. *)
Definition record_of (cmd : string) (o : ExecOutput) : Value :=
  command_result cmd (eo_exit o) (text (eo_stdout o)) (text (eo_stderr o)).

(** [o] is what came back from running [cmd] (behind [cd] in a workspace)
    with [sh -c] in the running container [id], and both streams decode. *)
Definition produced (id : string) (ws : option string) (cmd : string) (o : ExecOutput) : Prop :=
  exists w0 c,
    by_id id (containers w0) = Some c /\ c_status c = "running"
    /\ o = (shell w0 c ["sh"; "-c"; cmd_to_run ws cmd]).1
    /\ decodable (eo_stdout o) /\ decodable (eo_stderr o).

Definition no_output : ExecOutput := mkExecOutput 0 None None.

(** Every output but the last has exit code 0, and when commands are left
    over the last output has a non-zero exit code. *)
Definition halts_at_failure (commands : list string) (os : list ExecOutput) : Prop :=
  length os <= length commands
  /\ Forall (fun o => eo_exit o = 0%Z) (removelast os)
  /\ (length os < length commands -> eo_exit (List.last os no_output) <> 0%Z).

Lemma zip_with_records_length (commands : list string) (os : list ExecOutput) :
  length os <= length commands -> length (zip_with record_of commands os) = length os.
Proof.
  revert os. induction commands as [|cmd rest IH]; intros [|o os] H; simpl in *;
    try reflexivity; try lia.
  rewrite IH by lia. reflexivity.
Qed.

(** The loop, when it ends without an exception: the records appended are
    those of the outputs the commands produced, in order. *)
Lemma run_commands_records id ws commands :
  forall results w res w',
    run_commands fault shell id ws commands results w = (inr res, w') ->
    exists os,
      res = results ++ zip_with record_of commands os
      /\ Forall2 (produced id ws) (firstn (length os) commands) os
      /\ halts_at_failure commands os.
Proof.
  induction commands as [|cmd rest IH]; intros results w res w' H.
  - inversion H. subst. exists []. rewrite app_nil_r.
    split; [reflexivity|]. split; [constructor|].
    split; [reflexivity|]. split; [constructor|]. simpl. lia.
  - simpl in H.
    apply bind_inv in H as [([] & w1 & H1 & H)|(e & _ & X)]; [|discriminate].
    apply bind_inv in H as [(o & w2 & H2 & H)|(e & _ & X)]; [|discriminate].
    apply exec_run_returns in H2 as (c & Hc & Hs & _ & Ho).
    apply bind_inv in H as [(out & w3 & H3 & H)|(e & _ & X)]; [|discriminate].
    apply decode_stream_world in H3 as Hw3. subst w3.
    apply decode_stream_returns in H3 as [-> D3].
    apply bind_inv in H as [(err & w4 & H4 & H)|(e & _ & X)]; [|discriminate].
    apply decode_stream_world in H4 as Hw4. subst w4.
    apply decode_stream_returns in H4 as [-> D4].
    assert (Hp : produced id ws cmd o).
    { eexists _, c. split; [|split; [exact Hs|split; [exact Ho|split; assumption]]].
      exact Hc. }
    fold (record_of cmd o) in H.
    destruct (eo_exit o =? 0)%Z eqn:Ez.
    + apply Z.eqb_eq in Ez.
      destruct (IH _ _ _ _ H) as (os & -> & Hf & Hl & Hz & Hlast).
      exists (o :: os). split; [rewrite <- app_assoc; reflexivity|].
      split; [simpl; constructor; assumption|].
      split; [simpl; lia|]. split.
      * destruct os as [|o' os]; [constructor|].
        change (removelast (o :: o' :: os)) with (o :: removelast (o' :: os)).
        constructor; assumption.
      * intros Hlt. simpl in Hlt. assert (Hlt' : length os < length rest) by lia.
        specialize (Hlast Hlt'). destruct os as [|o' os]; [exfalso; apply Hlast; reflexivity|].
        exact Hlast.
    + apply Z.eqb_neq in Ez. injection H as <- <-.
      exists [o]. split; [destruct rest; reflexivity|].
      split; [simpl; constructor; [exact Hp | constructor]|].
      split; [simpl; lia|]. split; [constructor|]. intros _. exact Ez.
Qed.

(** The exception a command of the list can end the loop with: the
    adapter's, the engine's refusal of a missing or stopped container, or
    the decoding error of lines 290-291 on an output that is not UTF-8. *)
Definition command_failure (id : string) (ws : option string) (commands : list string)
    (e : exn) : Prop :=
  exists cmd, In cmd commands /\
    ((exists w0, fault w0 (CExec id ["sh"; "-c"; cmd_to_run ws cmd]) = Some e)
     \/ e = no_such_container id
     \/ e = not_running id
     \/ (exn_kind e = UnicodeDecodeError
         /\ exists w0 c,
              by_id id (containers w0) = Some c
              /\ (~ decodable (eo_stdout (shell w0 c ["sh"; "-c"; cmd_to_run ws cmd]).1)
                  \/ ~ decodable (eo_stderr (shell w0 c ["sh"; "-c"; cmd_to_run ws cmd]).1)))).

Lemma command_failure_cons id ws cmd rest e :
  command_failure id ws rest e -> command_failure id ws (cmd :: rest) e.
Proof. intros (c & Hin & H). exists c. split; [right; exact Hin | exact H]. Qed.

Lemma run_commands_raises id ws commands :
  forall results w e w',
    run_commands fault shell id ws commands results w = (inl e, w') ->
    command_failure id ws commands e.
Proof.
  induction commands as [|cmd rest IH]; intros results w e w' H; [discriminate|].
  simpl in H.
  apply bind_inv in H as [([] & w1 & H1 & H)|(e0 & H1 & _)];
    [|apply install_step_calls in H1 as [X _]; discriminate].
  apply bind_inv in H as [(o & w2 & H2 & H)|(e0 & H2 & X)].
  2:{ inversion X. subst e0. exists cmd. split; [left; reflexivity|].
      apply exec_run_raises in H2 as [A|[A|A]]; eauto. }
  apply exec_run_returns in H2 as (c & Hc & Hs & _ & Ho).
  apply bind_inv in H as [(out & w3 & H3 & H)|(e0 & H3 & X)].
  2:{ inversion X. subst e0. apply decode_stream_raises in H3 as [N K].
      exists cmd. split; [left; reflexivity|]. right. right. right.
      split; [exact K|].
      exists (set_calls (calls w1 ++ [CExec id ["sh"; "-c"; cmd_to_run ws cmd]]) w1), c.
      split; [exact Hc|]. left. rewrite <- Ho. exact N. }
  apply decode_stream_world in H3. subst w3.
  apply bind_inv in H as [(err & w4 & H4 & H)|(e0 & H4 & X)].
  2:{ inversion X. subst e0. apply decode_stream_raises in H4 as [N K].
      exists cmd. split; [left; reflexivity|]. right. right. right.
      split; [exact K|].
      exists (set_calls (calls w1 ++ [CExec id ["sh"; "-c"; cmd_to_run ws cmd]]) w1), c.
      split; [exact Hc|]. right. rewrite <- Ho. exact N. }
  apply decode_stream_world in H4. subst w4.
  destruct (eo_exit o =? 0)%Z; [|discriminate].
  apply command_failure_cons. exact (IH _ _ _ _ H).
Qed.

(** The body of the [try], when it returns: the container was found, and
    the list holds the records of the outputs produced, one per command
    run. *)
Lemma sandbox_exec_body_records container_id commands ws w res w' :
  sandbox_exec_body fault shell container_id commands ws w = (inr res, w') ->
  exists c os,
    lookup_container container_id (containers w) = Some c
    /\ res = zip_with record_of commands os
    /\ Forall2 (produced (c_id c) ws) (firstn (length os) commands) os
    /\ halts_at_failure commands os
    /\ sh_scripts (calls w')
       = sh_scripts (calls w) ++ map (cmd_to_run ws) (firstn (length os) commands).
Proof.
  intros H. pose proof (sandbox_exec_body_spec _ _ _ _ _ _ H) as (n & d & Hd & Hsd & _ & Hr).
  destruct (Hr res eq_refl) as [Hn _].
  unfold sandbox_exec_body in H.
  apply bind_inv in H as [(c & w1 & H1 & H)|(e & _ & X)]; [|discriminate].
  assert (Hl : lookup_container container_id (containers w) = Some c).
  { unfold containers_get in H1.
    apply bind_inv in H1 as [(a & w0 & H0 & H1)|(e & _ & X)]; [|discriminate].
    apply issue_containers in H0. unfold bind, gets, ret, raise in H1. rewrite H0 in H1.
    destruct (lookup_container container_id (containers w)); inversion H1. reflexivity. }
  apply bind_inv in H as [([] & w2 & H2 & H)|(e & _ & X)]; [|discriminate].
  apply run_commands_records in H as (os & -> & Hf & Hh).
  exists c, os. simpl in Hn. split; [exact Hl|]. split; [reflexivity|].
  split; [exact Hf|]. split; [exact Hh|].
  rewrite zip_with_records_length in Hn by apply Hh. subst n.
  rewrite Hd, sh_scripts_app, Hsd. reflexivity.
Qed.

(** The body of the [try], when it raises. *)
Lemma sandbox_exec_body_raises container_id commands ws w e w' :
  sandbox_exec_body fault shell container_id commands ws w = (inl e, w') ->
  fault w (CGet container_id) = Some e
  \/ (lookup_container container_id (containers w) = None
      /\ e = no_such_container container_id)
  \/ exists c, lookup_container container_id (containers w) = Some c
               /\ command_failure (c_id c) ws commands e.
Proof.
  unfold sandbox_exec_body. intros H.
  apply bind_inv in H as [(c & w1 & H1 & H)|(e0 & H1 & X)].
  - right. right. exists c. split.
    + unfold containers_get in H1.
      apply bind_inv in H1 as [(a & w0 & H0 & H1)|(e0 & _ & X)]; [|discriminate].
      apply issue_containers in H0. unfold bind, gets, ret, raise in H1. rewrite H0 in H1.
      destruct (lookup_container container_id (containers w)); inversion H1. reflexivity.
    + apply bind_inv in H as [([] & w2 & H2 & H)|(e0 & H2 & _)];
        [|apply bootstrap_calls in H2 as [X _]; discriminate].
      exact (run_commands_raises _ _ _ _ _ _ _ H).
  - inversion X. subst e0. apply containers_get_raises in H1 as [A|A]; [left|right; left]; exact A.
Qed.

Lemma firstn_capped {A} n (l : list A) : firstn n l = firstn (Nat.min n (length l)) l.
Proof.
  destruct (Nat.le_gt_cases n (length l)) as [H|H].
  - rewrite Nat.min_l by exact H. reflexivity.
  - rewrite Nat.min_r by lia. rewrite firstn_all. apply firstn_all2. lia.
Qed.

(** C2, as amended.  In every call the commands handed to the shell are
    the first [n] of the request, in request order, and no later command
    runs.  When the reply carries a [results] list, the list has one record
    per command run, in that order, and each record is the one of lines
    293-299 for what [exec_run] returned for that command: the command
    text, the exit code, the two captured streams as text and [success]
    equal to [exit_code == 0]; every output but the last has exit code 0,
    and when the list is shorter than the request the last output has a
    non-zero exit code.  (A reply without [results] is the subject of
    [sandbox_exec_drops_results].) *)
Theorem sandbox_exec_batch container_id commands workspace_id w :
  exists n,
    n <= length commands
    /\ sh_scripts (calls (sandbox_exec fault shell container_id commands workspace_id w).2)
       = sh_scripts (calls w) ++ map (cmd_to_run workspace_id) (firstn n commands)
    /\ forall results,
         dict_get "results" (sandbox_exec fault shell container_id commands workspace_id w).1
         = Some (VList results) ->
         exists c os,
           length os = n
           /\ lookup_container container_id (containers w) = Some c
           /\ results = zip_with record_of commands os
           /\ Forall2 (produced (c_id c) workspace_id) (firstn n commands) os
           /\ halts_at_failure commands os.
Proof.
  unfold sandbox_exec. destruct (negb (docker_available w)).
  { exists 0. split; [lia|]. split; [simpl; rewrite app_nil_r; reflexivity|].
    intros results H. discriminate. }
  destruct (sandbox_exec_body _ _ _ _ _ w) as [[e|res] w1] eqn:E.
  - apply sandbox_exec_body_spec in E as (n & d & Hd & Hs & _ & _).
    exists (Nat.min n (length commands)). split; [lia|]. split.
    + simpl. rewrite Hd, sh_scripts_app, Hs, <- firstn_capped. reflexivity.
    + intros results H. discriminate.
  - apply sandbox_exec_body_records in E as (c & os & Hl & -> & Hf & Hh & Ht).
    exists (length os). split; [apply Hh|]. split; [exact Ht|].
    intros results H. simpl in H. inversion H. subst results.
    exists c, os. repeat split; try assumption; apply Hh.
Qed.

(** C9.  With a [workspace_id] the command that is run starts with
    [cd /app/workspaces/... && ], never with [python], and [sandbox_exec]
    issues no call of the install step, whatever the commands. *)
Theorem workspace_skips_install container_id commands ws w :
  (forall cmd, Py.startswith (cmd_to_run (Some ws) cmd) "python" = false)
  /\ exists d,
       calls (sandbox_exec fault shell container_id commands (Some ws) w).2 = calls w ++ d
       /\ no_pip_install d.
Proof.
  split; [intros cmd; apply cmd_to_run_workspace|].
  unfold sandbox_exec. destruct (negb (docker_available w)).
  { exists []. rewrite app_nil_r. split; reflexivity. }
  destruct (sandbox_exec_body _ _ _ _ _ w) as [r w1] eqn:E.
  apply sandbox_exec_body_spec in E as (n & d & Hd & _ & Hp & _).
  exists d. split.
  - destruct r; exact Hd.
  - apply Hp. intros cmd _. apply cmd_to_run_workspace.
Qed.

(** C8, as amended.  The reply of [sandbox_exec] has one of three shapes.
    (1) [success] is true and [results] holds the records of the commands
    run, whatever their exit codes; the [sh -c] calls on the trace are those
    commands.  (2) The engine was unavailable: the reply of lines 231-235,
    nothing run.  (3) [success] is false with the message of line 314 and no
    [results], and the exception behind it is one of: the adapter's on the
    lookup; the engine's for a container that is not there; and, for one of
    the commands, the adapter's on its [sh -c] call, the engine's refusal of
    a missing or stopped container, or the [UnicodeDecodeError] of lines
    290-291 on an output that is not UTF-8.  The last is no failure of the
    infrastructure.  Conversely the reply is (1) whenever the engine is
    available, the container is found and running, the adapter fails on
    neither the lookup nor a [sh -c] call and the output decodes: failures of
    the bootstrap and of the install steps are dropped, and exit codes play
    no part. *)
Theorem sandbox_exec_success container_id commands workspace_id w :
  let r := sandbox_exec fault shell container_id commands workspace_id w in
  ((exists os,
       r.1 = [("success", VBool true);
              ("results", VList (zip_with record_of commands os))]
       /\ dict_get "error" r.1 = None
       /\ halts_at_failure commands os
       /\ sh_scripts (calls r.2)
          = sh_scripts (calls w)
            ++ map (cmd_to_run workspace_id) (firstn (length os) commands))
   \/ (docker_available w = false /\ r = (unavailable, w))
   \/ (exists e,
         docker_available w = true
         /\ r.1 = [("success", VBool false);
                   ("error", VStr ("执行命令失败: " +:+ exn_str e))]
         /\ dict_get "results" r.1 = None
         /\ (fault w (CGet container_id) = Some e
             \/ (lookup_container container_id (containers w) = None
                 /\ e = no_such_container container_id)
             \/ exists c, lookup_container container_id (containers w) = Some c
                          /\ command_failure (c_id c) workspace_id commands e)))
  /\ (docker_available w = true ->
      (forall w0, fault w0 (CGet container_id) = None) ->
      (forall w0 id s, fault w0 (CExec id ["sh"; "-c"; s]) = None) ->
      (exists c, lookup_container container_id (containers w) = Some c
                 /\ running (c_id c) w) ->
      (forall w0 c cmd, In cmd commands ->
         decodable (eo_stdout (shell w0 c ["sh"; "-c"; cmd_to_run workspace_id cmd]).1)
         /\ decodable (eo_stderr (shell w0 c ["sh"; "-c"; cmd_to_run workspace_id cmd]).1)) ->
      dict_get "success" r.1 = Some (VBool true)).
Proof.
  cbv zeta. split.
  - unfold sandbox_exec. destruct (docker_available w) eqn:Ed; simpl.
    + destruct (sandbox_exec_body _ _ _ _ _ w) as [[e|res] w1] eqn:E; simpl.
      * right. right. exists e. split; [reflexivity|]. split; [reflexivity|].
        split; [reflexivity|]. exact (sandbox_exec_body_raises _ _ _ _ _ _ E).
      * left. apply sandbox_exec_body_records in E as (c & os & _ & -> & _ & Hh & Ht).
        exists os. split; [reflexivity|]. split; [reflexivity|].
        split; [exact Hh | exact Ht].
    + right. left. split; reflexivity.
  - intros Ed Hg Hx (c & Hc & R) Hdec.
    unfold sandbox_exec. rewrite Ed. simpl.
    destruct (containers_get_ok _ _ _ (Hg w) Hc) as (w1 & E1).
    pose proof (containers_get_containers _ _ _ _ E1) as C1.
    apply (running_ext _ _ _ C1) in R.
    destruct (bootstrap fault shell (c_id c) w1) as [r2 w2] eqn:E2.
    pose proof (bootstrap_running (c_id c) _ _ _ _ E2 R) as R2.
    apply bootstrap_calls in E2 as E2'. destruct E2' as (-> & _).
    destruct (run_commands_ok (c_id c) workspace_id commands (fun w0 s => Hx w0 _ s) Hdec [] w2 R2)
      as (res & w3 & E3).
    unfold sandbox_exec_body.
    rewrite (bind_inr _ _ _ _ _ E1), (bind_inr _ _ _ _ _ E2), E3. reflexivity.
Qed.

End ExecProperties.

(** A shell in which [cat blob.bin] prints one byte that is not UTF-8 and
    exits with 0; every other command is as in [Sample.shell]. *)
Module SampleBinary.

Definition blob : bytes := String (ascii_of_N 255) EmptyString.

Definition shell (w : World) (c : Container) (argv : list string) : ExecOutput * Fs :=
  match argv with
  | ["sh"; "-c"; "cat blob.bin"] => (mkExecOutput 0 (Some blob) None, c_fs c)
  | _ => Sample.shell w c argv
  end.

End SampleBinary.

Lemma sandbox_exec_batch_witness :
  exists n,
    n <= length ["true"; "false"; "true"]
    /\ sh_scripts (calls (sandbox_exec Sample.no_fault Sample.shell
                            "c1" ["true"; "false"; "true"] None Sample.world).2)
       = sh_scripts (calls Sample.world) ++ map (cmd_to_run None) (firstn n ["true"; "false"; "true"])
    /\ forall results,
         dict_get "results" (sandbox_exec Sample.no_fault Sample.shell
                               "c1" ["true"; "false"; "true"] None Sample.world).1
         = Some (VList results) ->
         exists c os,
           length os = n
           /\ lookup_container "c1" (containers Sample.world) = Some c
           /\ results = zip_with record_of ["true"; "false"; "true"] os
           /\ Forall2 (produced Sample.shell (c_id c) None)
                      (firstn n ["true"; "false"; "true"]) os
           /\ halts_at_failure ["true"; "false"; "true"] os.
Proof.
  apply (sandbox_exec_batch Sample.no_fault Sample.shell
           "c1" ["true"; "false"; "true"] None Sample.world).
Defined.

(** The batch of the specification: two records, the third command never
    handed to the shell. *)
Example sample_batch_stops :
  sh_scripts (calls (sandbox_exec Sample.no_fault Sample.shell
                       "c1" ["true"; "false"; "true"] None Sample.world).2)
  = ["true"; "false"].
Proof. vm_compute. reflexivity. Qed.

(** Two commands run, the second prints bytes that are not UTF-8: the reply
    has no [results] at all, so the commands that ran have no record. *)
Lemma sandbox_exec_drops_results :
  dict_get "results"
    (sandbox_exec Sample.no_fault SampleBinary.shell
       "c1" ["true"; "cat blob.bin"; "true"] None Sample.world).1 = None
  /\ dict_get "success"
       (sandbox_exec Sample.no_fault SampleBinary.shell
          "c1" ["true"; "cat blob.bin"; "true"] None Sample.world).1 = Some (VBool false)
  /\ sh_scripts (calls (sandbox_exec Sample.no_fault SampleBinary.shell
                          "c1" ["true"; "cat blob.bin"; "true"] None Sample.world).2)
     = ["true"; "cat blob.bin"].
Proof. vm_compute. repeat split. Qed.

Lemma sandbox_exec_success_witness :
  dict_get "success"
    (sandbox_exec Sample.no_fault Sample.shell "c1" ["true"; "false"] None Sample.world).1
  = Some (VBool true).
Proof.
  apply (proj2 (sandbox_exec_success Sample.no_fault Sample.shell
                  "c1" ["true"; "false"] None Sample.world)).
  - reflexivity.
  - reflexivity.
  - reflexivity.
  - exists Sample.box. split; [reflexivity|]. exists Sample.box. split; reflexivity.
  - intros w0 c cmd [<-|[<-|[]]]; split; exact I.
Defined.

(** The engine is available, the container is found and running, no call
    fails in the adapter and the command exits with 0; its output is not
    UTF-8, and the reply is [success = false]. *)
Lemma sandbox_exec_decode_failure :
  (sandbox_exec Sample.no_fault SampleBinary.shell "c1" ["cat blob.bin"] None Sample.world).1
  = [("success", VBool false);
     ("error",
      VStr ("执行命令失败: "
            +:+ "'utf-8' codec can't decode byte 0xff in position 0: invalid start byte"))]
  /\ dict_get "results"
       (sandbox_exec Sample.no_fault SampleBinary.shell "c1" ["cat blob.bin"] None
          Sample.world).1 = None
  /\ docker_available Sample.world = true
  /\ lookup_container "c1" (containers Sample.world) = Some Sample.box
  /\ c_status Sample.box = "running"
  /\ eo_exit (SampleBinary.shell Sample.world Sample.box ["sh"; "-c"; "cat blob.bin"]).1
     = 0%Z.
Proof. vm_compute. repeat split. Qed.

(** An unknown container: an infrastructure error, no [results]. *)
Example sample_exec_not_found :
  (sandbox_exec Sample.no_fault Sample.shell "zz" ["true"] None Sample.world).1
  = [("success", VBool false);
     ("error", VStr "执行命令失败: 404 Client Error: Not Found (No such container: zz)")].
Proof. vm_compute. reflexivity. Qed.

(** A command in a workspace that starts with [python]: no install step. *)
Example sample_workspace_python :
  calls (sandbox_exec Sample.no_fault Sample.shell
           "c1" ["python main.py"] (Some "w1") Sample.world).2
  = [CGet "c1"; CExec "c1" ["which"; "pip"];
     CExec "c1" ["sh"; "-c"; "cd /app/workspaces/w1 && python main.py"]]
  /\ calls (sandbox_exec Sample.no_fault Sample.shell
              "c1" ["python main.py"] None Sample.world).2
     = [CGet "c1"; CExec "c1" ["which"; "pip"];
        CExec "c1" ["pip"; "install"; "--upgrade"; "pip"];
        CExec "c1" ["pip"; "install"; "-r"; "requirements.txt"];
        CExec "c1" ["sh"; "-c"; "python main.py"]].
Proof. vm_compute. split; reflexivity. Qed.

(** ** [copy_file] with a missing local source *)

Section TransferProperties.

Variable fault : World -> EngineCall -> option exn.
Variable shell : World -> Container -> list string -> ExecOutput * Fs.
Variable tar_add : World -> string -> string -> exn + list TarEntry.



Lemma containers_get_world key w r w' :
  containers_get fault key w = (r, w') -> w' = set_calls (calls w ++ [CGet key]) w.
Proof.
  unfold containers_get, bind, issue, gets, ret, raise.
  destruct (fault w (CGet key)); [intros H; inversion H; reflexivity|].
  destruct (lookup_container key _); intros H; inversion H; reflexivity.
Qed.


End TransferProperties.



(** ** [sandbox_stop] *)

Section StopProperties.

Variable fault : World -> EngineCall -> option exn.

Lemma find_is_Some {A} (f : A -> bool) (l : list A) (x : A) :
  In x l -> f x = true -> exists y, find f l = Some y /\ f y = true.
Proof.
  induction l as [|a l IH]; simpl; [tauto|].
  intros [->|Hin] Hx.
  - rewrite Hx. eauto.
  - destruct (f a) eqn:E; [eauto | apply IH; assumption].
Qed.

(** The container a lookup returns can be acted on through its id. *)
Lemma lookup_live key cs c :
  lookup_container key cs = Some c ->
  exists c', by_id (c_id c) cs = Some c' /\ c_id c' = c_id c.
Proof.
  intros H. assert (Hin : In c cs).
  { unfold lookup_container, by_id, by_name in H.
    destruct (find _ cs) eqn:E.
    - inversion H. subst. apply find_some in E. tauto.
    - apply find_some in H. tauto. }
  destruct (find_is_Some (fun x => String.eqb (c_id x) (c_id c)) cs c Hin (String.eqb_refl _))
    as (y & Hy & Ey).
  exists y. split; [exact Hy | apply String.eqb_eq, Ey].
Qed.

Lemma by_id_remove id cs : by_id id (remove_container id cs) = None.
Proof.
  unfold by_id, remove_container. induction cs as [|c cs IH]; simpl; [reflexivity|].
  destruct (String.eqb (c_id c) id) eqn:E; simpl; [exact IH|].
  rewrite E. exact IH.
Qed.

Lemma container_stop_ok id t w c :
  fault w (CStop id t) = None -> by_id id (containers w) = Some c ->
  container_stop fault id t w
  = (inr tt, set_containers (update_container id (with_status "exited") (containers w))
                            (set_calls (calls w ++ [CStop id t]) w)).
Proof.
  intros Hf Hc. set (w1 := set_calls (calls w ++ [CStop id t]) w).
  assert (H1 : issue fault (CStop id t) w = (inr tt, w1))
    by (unfold issue; rewrite Hf; reflexivity).
  assert (H2 : live id w1 = (inr c, w1)).
  { unfold live, bind, gets, ret. change (containers w1) with (containers w).
    rewrite Hc. reflexivity. }
  unfold container_stop. rewrite (bind_inr _ _ _ _ _ H1), (bind_inr _ _ _ _ _ H2).
  reflexivity.
Qed.

Lemma container_remove_ok id v w c :
  fault w (CRemove id v) = None -> by_id id (containers w) = Some c ->
  String.eqb (c_status c) "running" = false ->
  container_remove fault id v w
  = (inr tt, set_containers (remove_container id (containers w))
                            (set_calls (calls w ++ [CRemove id v]) w)).
Proof.
  intros Hf Hc Hs. set (w1 := set_calls (calls w ++ [CRemove id v]) w).
  assert (H1 : issue fault (CRemove id v) w = (inr tt, w1))
    by (unfold issue; rewrite Hf; reflexivity).
  assert (H2 : live id w1 = (inr c, w1)).
  { unfold live, bind, gets, ret. change (containers w1) with (containers w).
    rewrite Hc. reflexivity. }
  unfold container_remove. rewrite (bind_inr _ _ _ _ _ H1), (bind_inr _ _ _ _ _ H2).
  rewrite Hs. reflexivity.
Qed.

Definition kept (container_id : string) : pydict :=
  [("success", VBool true);
   ("message", VStr ("容器 " +:+ container_id +:+ " 是持久化容器，已标记为保留"))].

Definition stopped_and_removed (container_id : string) : pydict :=
  [("success", VBool true);
   ("message", VStr ("容器 " +:+ container_id +:+ " 已停止并移除"))].

(** C6, as amended.  With the engine available: a call that targets the
    persistent environment ([is_persistent] true, or [container_id] equal
    to the cached identity) returns [success = true] and leaves the world as
    it was, so no stop or remove is issued and no status changes; a call
    for any other container that the engine finds issues, in this order, the
    lookup, [stop(timeout=10)] and [remove(v=True)], after which the
    container is gone, and returns [success = true], provided none of the
    three calls fails in the adapter. *)
Theorem sandbox_stop_spec container_id is_persistent w
    (Hd : docker_available w = true) :
  (is_persistent = true \/ persistent_container_id w = Some container_id ->
   sandbox_stop fault container_id is_persistent w = (kept container_id, w))
  /\ (is_persistent = false ->
      is_cached container_id (persistent_container_id w) = false ->
      forall c,
        lookup_container container_id (containers w) = Some c ->
        (forall w0, fault w0 (CGet container_id) = None
                    /\ fault w0 (CStop (c_id c) 10) = None
                    /\ fault w0 (CRemove (c_id c) true) = None) ->
        let r := sandbox_stop fault container_id is_persistent w in
        r.1 = stopped_and_removed container_id
        /\ calls r.2 = calls w ++ [CGet container_id; CStop (c_id c) 10; CRemove (c_id c) true]
        /\ by_id (c_id c) (containers r.2) = None).
Proof.
  split.
  - intros H. unfold sandbox_stop. rewrite Hd. simpl negb. cbv iota.
    unfold sandbox_stop_body, bind, gets.
    assert (E : is_persistent || is_cached container_id (persistent_container_id w) = true).
    { destruct H as [->| ->]; [reflexivity|]. simpl. rewrite String.eqb_refl.
      apply orb_true_r. }
    rewrite E. reflexivity.
  - intros -> Hc c Hl Hf. cbv zeta.
    unfold sandbox_stop. rewrite Hd. simpl negb. cbv iota.
    unfold sandbox_stop_body.
    assert (E0 : gets persistent_container_id w = (inr (persistent_container_id w), w))
      by reflexivity.
    rewrite (bind_inr _ _ _ _ _ E0). cbv beta. rewrite Hc.
    change (false || false) with false. cbv iota.
    destruct (containers_get_ok fault _ _ _ (proj1 (Hf w)) Hl) as (w1 & E1).
    pose proof (containers_get_world _ _ _ _ _ E1) as ->.
    rewrite (bind_inr _ _ _ _ _ E1).
    destruct (lookup_live _ _ _ Hl) as (c' & Hc' & Hid).
    set (w1 := set_calls (calls w ++ [CGet container_id]) w) in *.
    assert (E2 := container_stop_ok (c_id c) 10 w1 c' (proj1 (proj2 (Hf w1))) Hc').
    rewrite (bind_inr _ _ _ _ _ E2).
    set (w2 := set_containers _ _) in *.
    assert (Hc2 : by_id (c_id c) (containers w2) = Some (with_status "exited" c')).
    { unfold w2. simpl. rewrite by_id_update by reflexivity.
      change (containers w1) with (containers w). rewrite Hc'. simpl.
      rewrite Hid, String.eqb_refl. reflexivity. }
    assert (E3 := container_remove_ok (c_id c) true w2 _ (proj2 (proj2 (Hf w2))) Hc2 eq_refl).
    rewrite (bind_inr _ _ _ _ _ E3). unfold ret. simpl.
    split; [reflexivity|]. split.
    + rewrite <- !app_assoc. reflexivity.
    + apply by_id_remove.
Qed.

End StopProperties.

Lemma sandbox_stop_spec_witness :
  sandbox_stop Sample.no_fault "c1" true Sample.world = (kept "c1", Sample.world)
  /\ (let r := sandbox_stop Sample.no_fault "c1" false Sample.world in
      r.1 = stopped_and_removed "c1"
      /\ calls r.2 = calls Sample.world ++ [CGet "c1"; CStop "c1" 10; CRemove "c1" true]
      /\ by_id "c1" (containers r.2) = None).
Proof.
  split.
  - apply (proj1 (sandbox_stop_spec Sample.no_fault "c1" true Sample.world eq_refl)).
    left. reflexivity.
  - apply (proj2 (sandbox_stop_spec Sample.no_fault "c1" false Sample.world eq_refl)
             eq_refl eq_refl Sample.box eq_refl).
    intros w0. repeat split.
Defined.

(** C6 as stated fails: the guard on [docker_available] comes first, so a
    call that targets the persistent environment returns [success = false]
    when the start-up probe of the engine failed. *)
Lemma sandbox_stop_unavailable :
  (sandbox_stop Sample.no_fault "c1" true Sample.world_unavailable).1
  = [("success", VBool false); ("error", VStr "Docker服务不可用")].
Proof. reflexivity. Qed.

(** ** [clean_workspace] *)

Section CleanProperties.

Variable fault : World -> EngineCall -> option exn.
Variable shell : World -> Container -> list string -> ExecOutput * Fs.

Definition cleaned (workspace_id : string) : pydict :=
  [("success", VBool true);
   ("message", VStr ("已清理工作区: " +:+ "/app/workspaces/" +:+ workspace_id))].

(** C10, as amended.  With the engine available, the container found and
    running, and no adapter failure on the lookup and on the removal
    command: [clean_workspace] returns [success = true] for every
    [workspace_id] and whatever the command does and returns, since its exit
    status is never read; it issues the lookup and one [rm -rf] of the
    workspace path. *)
Theorem clean_workspace_success container_id workspace_id w c
    (Hd : docker_available w = true)
    (Hl : lookup_container container_id (containers w) = Some c)
    (Hr : running (c_id c) w)
    (Hf : forall w0, fault w0 (CGet container_id) = None
                     /\ fault w0 (CExec (c_id c) ["rm"; "-rf"; "/app/workspaces/" +:+ workspace_id])
                        = None) :
  let r := clean_workspace fault shell container_id workspace_id w in
  r.1 = cleaned workspace_id
  /\ calls r.2
     = calls w ++ [CGet container_id;
                   CExec (c_id c) ["rm"; "-rf"; "/app/workspaces/" +:+ workspace_id]].
Proof.
  cbv zeta. unfold clean_workspace. rewrite Hd. simpl negb. cbv iota.
  unfold clean_workspace_body.
  destruct (containers_get_ok fault _ _ _ (proj1 (Hf w)) Hl) as (w1 & E1).
  pose proof (containers_get_calls _ _ _ _ _ E1) as C1.
  pose proof (containers_get_containers _ _ _ _ _ E1) as K1.
  rewrite (bind_inr _ _ _ _ _ E1).
  destruct (exec_run_ok fault shell _ _ w1 (proj2 (Hf w1)) (running_ext fault shell _ _ _ K1 Hr))
    as (o & w2 & E2 & _ & _).
  pose proof (exec_run_calls _ _ _ _ _ _ _ E2) as C2.
  rewrite (bind_inr _ _ _ _ _ E2). unfold ret. simpl.
  split; [reflexivity|]. rewrite C2, C1, <- app_assoc. reflexivity.
Qed.

End CleanProperties.

Lemma clean_workspace_success_witness :
  let r := clean_workspace Sample.no_fault Sample.shell "c1" "never-created" Sample.world in
  r.1 = cleaned "never-created"
  /\ calls r.2
     = calls Sample.world
       ++ [CGet "c1"; CExec (c_id Sample.box) ["rm"; "-rf"; "/app/workspaces/" +:+ "never-created"]].
Proof.
  apply (clean_workspace_success Sample.no_fault Sample.shell
           "c1" "never-created" Sample.world Sample.box).
  - reflexivity.
  - reflexivity.
  - exists Sample.box. split; reflexivity.
  - intros w0. split; reflexivity.
Defined.

(** C10 as stated fails: for a container that exists, [clean_workspace]
    returns [success = false] when the start-up probe of the engine failed,
    and when the container is not running, since [exec_run] then raises. *)
Lemma clean_workspace_can_fail :
  lookup_container "c1" (containers Sample.world_unavailable) = Some Sample.box
  /\ (clean_workspace Sample.no_fault Sample.shell "c1" "w1" Sample.world_unavailable).1
     = [("success", VBool false); ("error", VStr "Docker服务不可用")]
  /\ lookup_container "c1" (containers Sample.world_stopped)
     = Some (with_status "exited" Sample.box)
  /\ (clean_workspace Sample.no_fault Sample.shell "c1" "w1" Sample.world_stopped).1
     = [("success", VBool false);
        ("error", VStr "清理工作区失败: 409 Client Error: Conflict (container c1 is not running)")].
Proof. vm_compute. repeat split; reflexivity. Qed.

(** ** Write, then read back *)

(** A file name in the plain sense: one path component. *)
Definition simple_name (n : string) : Prop :=
  n <> EmptyString /\ Py.has_sep n = false /\ n <> "." /\ n <> "..".

Lemma append_assoc (a b c : string) : (a +:+ b) +:+ c = a +:+ b +:+ c.
Proof.
  induction a as [|x a IH]; [reflexivity|].
  change (String x ((a +:+ b) +:+ c) = String x (a +:+ b +:+ c)). rewrite IH. reflexivity.
Qed.

Lemma split_sep_simple n : Py.has_sep n = false -> Py.split_sep n = [n].
Proof.
  induction n as [|c n IH]; simpl; [reflexivity|].
  destruct (Ascii.eqb c Py.sep); simpl; [discriminate|].
  intros H. rewrite (IH H). reflexivity.
Qed.

Lemma step_simple st n : simple_name n -> Fspath.step st n = st ++ [n].
Proof.
  intros (H1 & _ & H2 & H3). unfold Fspath.step.
  apply String.eqb_neq in H1, H2, H3. rewrite H1, H2, H3. reflexivity.
Qed.

Lemma walk_simple st n : simple_name n -> Fspath.walk st (Py.split_sep n) = st ++ [n].
Proof.
  intros H. rewrite (split_sep_simple n (proj1 (proj2 H))). simpl. apply step_simple, H.
Qed.

Lemma resolve_child dir n :
  simple_name n -> Fspath.resolve (dir +:+ "/" +:+ n) = Fspath.resolve dir ++ [n].
Proof.
  intros H. rewrite !resolve_walk, split_sep_app, walk_app. apply walk_simple, H.
Qed.

Lemma after_last_sep_child dir n :
  Py.has_sep n = false -> Py.after_last_sep (dir +:+ "/" +:+ n) = n.
Proof.
  intros H. induction dir as [|c dir IH].
  - change (Py.after_last_sep (String "/" n) = n). simpl.
    destruct n as [|x n]; [reflexivity|]. simpl in H |- *. rewrite H. reflexivity.
  - change (Py.after_last_sep (String c (dir +:+ "/" +:+ n)) = n).
    assert (Hs : Py.has_sep (String c (dir +:+ "/" +:+ n)) = true).
    { clear IH. simpl. apply orb_true_iff. right.
      induction dir as [|y dir IH]; [reflexivity|].
      change (Py.has_sep (String y (dir +:+ "/" +:+ n)) = true).
      simpl. rewrite IH. apply orb_true_r. }
    unfold Py.after_last_sep; fold Py.after_last_sep. rewrite Hs. exact IH.
Qed.

Lemma upto_last_sep_simple n : Py.has_sep n = false -> Py.upto_last_sep n = EmptyString.
Proof. destruct n as [|c n]; [reflexivity|]. intros H. simpl in *. rewrite H. reflexivity. Qed.

Lemma dirname_simple n : Py.has_sep n = false -> Py.dirname n = EmptyString.
Proof. intros H. unfold Py.dirname. rewrite (upto_last_sep_simple n H). reflexivity. Qed.

Lemma drop_last_sep b : Py.drop_last (b +:+ "/") = b.
Proof.
  induction b as [|c b IH]; [reflexivity|].
  change (Py.drop_last (String c (b +:+ "/")) = String c b).
  simpl. destruct (b +:+ "/") eqn:E.
  - destruct b; discriminate.
  - rewrite IH. reflexivity.
Qed.

(** Dropping the trailing separator of a directory does not move it. *)
Lemma resolve_trimmed dir :
  Fspath.resolve (if Py.endswith_sep dir then Py.drop_last dir else dir) = Fspath.resolve dir.
Proof.
  destruct (Py.endswith_sep dir) eqn:E; [|reflexivity].
  destruct (endswith_sep_inv _ E) as (b & ->). rewrite drop_last_sep, !resolve_walk.
  pose proof (split_sep_app b EmptyString) as X.
  change (b +:+ "/" +:+ EmptyString) with (b +:+ "/") in X.
  rewrite X, walk_app. reflexivity.
Qed.

Section RoundTrip.

Variable fault : World -> EngineCall -> option exn.
Variable shell : World -> Container -> list string -> ExecOutput * Fs.

(** What an engine call leaves alone: the module globals and the local
    file system. *)
Definition local_kept (w w' : World) : Prop :=
  docker_available w' = docker_available w
  /\ local_files w' = local_files w
  /\ local_dirs w' = local_dirs w.

(** Every key names a container of the same id before and after. *)
Definition ids_kept (w w' : World) : Prop :=
  forall key, c_id <$> lookup_container key (containers w')
              = c_id <$> lookup_container key (containers w).

Lemma by_name_update key id f cs :
  (forall c, c_id (f c) = c_id c /\ c_name (f c) = c_name c) ->
  by_name key (update_container id f cs)
  = (fun c => if String.eqb (c_id c) id then f c else c) <$> by_name key cs.
Proof.
  intros Hf. unfold by_name, update_container.
  induction cs as [|c cs IH]; simpl; [reflexivity|].
  destruct (String.eqb (c_id c) id) eqn:E1; simpl.
  - rewrite (proj2 (Hf c)).
    destruct (String.eqb (c_name c) key); simpl; [rewrite E1; reflexivity | exact IH].
  - destruct (String.eqb (c_name c) key); simpl; [rewrite E1; reflexivity | exact IH].
Qed.

Lemma ids_kept_update id f w :
  (forall c, c_id (f c) = c_id c /\ c_name (f c) = c_name c) ->
  ids_kept w (set_containers (update_container id f (containers w)) w).
Proof.
  intros Hf key. simpl. unfold lookup_container.
  rewrite by_id_update by (intros c; apply Hf).
  rewrite by_name_update by exact Hf.
  destruct (by_id key (containers w)) as [c|]; simpl.
  - destruct (String.eqb (c_id c) id); [rewrite (proj1 (Hf c))|]; reflexivity.
  - destruct (by_name key (containers w)) as [c|]; simpl; [|reflexivity].
    destruct (String.eqb (c_id c) id); [rewrite (proj1 (Hf c))|]; reflexivity.
Qed.

Lemma ids_kept_refl w : ids_kept w w.
Proof. intros key. reflexivity. Qed.

Lemma ids_kept_trans w1 w2 w3 : ids_kept w1 w2 -> ids_kept w2 w3 -> ids_kept w1 w3.
Proof. intros H1 H2 key. rewrite H2. apply H1. Qed.

Lemma ids_kept_ext w w' : containers w' = containers w -> ids_kept w w'.
Proof. intros H key. rewrite H. reflexivity. Qed.

Lemma local_kept_refl w : local_kept w w.
Proof. repeat split. Qed.

Lemma local_kept_trans w1 w2 w3 : local_kept w1 w2 -> local_kept w2 w3 -> local_kept w1 w3.
Proof.
  intros (A1 & B1 & C1) (A2 & B2 & C2). repeat split; congruence.
Qed.

Lemma issue_world c w r w' :
  issue fault c w = (r, w') -> w' = set_calls (calls w ++ [c]) w.
Proof. unfold issue. destruct (fault w c); intros H; inversion H; reflexivity. Qed.

Lemma issue_inr c w w' : issue fault c w = (inr tt, w') -> fault w c = None.
Proof. unfold issue. destruct (fault w c); intros H; [discriminate | reflexivity]. Qed.

Lemma live_inv id w c w' :
  live id w = (inr c, w') -> by_id id (containers w) = Some c /\ w' = w.
Proof.
  unfold live, bind, gets, ret, raise. destruct (by_id id (containers w));
    intros H; inversion H; auto.
Qed.

Lemma exec_run_frame id argv w r w' :
  exec_run fault shell id argv w = (r, w') -> local_kept w w' /\ ids_kept w w'.
Proof.
  unfold exec_run. intros H.
  apply bind_inv in H as [(a & w1 & H1 & H)|(e & H1 & _)];
    [|apply issue_world in H1; subst; split;
      [repeat split | apply ids_kept_ext; reflexivity]].
  apply issue_world in H1. subst w1.
  apply bind_inv in H as [(c & w2 & H2 & H)|(e & H2 & _)];
    [|apply live_world in H2; subst; split;
      [repeat split | apply ids_kept_ext; reflexivity]].
  apply live_world in H2. subst w2.
  destruct (negb (String.eqb (c_status c) "running")).
  - inversion H. subst. split; [repeat split | apply ids_kept_ext; reflexivity].
  - unfold bind, gets, put_container, modify, ret in H.
    destruct (shell _ c argv) as [o fs]. inversion H.
    split; [repeat split|].
    apply (ids_kept_trans _ (set_calls (calls w ++ [CExec id argv]) w)).
    + apply ids_kept_ext. reflexivity.
    + apply (ids_kept_update id (with_fs fs) (set_calls (calls w ++ [CExec id argv]) w)).
      intros x. split; reflexivity.
Qed.

Lemma containers_get_inv key w c w' :
  containers_get fault key w = (inr c, w') ->
  lookup_container key (containers w) = Some c
  /\ w' = set_calls (calls w ++ [CGet key]) w.
Proof.
  unfold containers_get. intros H.
  apply bind_inv in H as [(a & w1 & H1 & H)|(e & _ & X)]; [|discriminate].
  apply issue_world in H1. subst w1.
  unfold bind, gets, ret, raise in H. cbn [containers set_calls] in H.
  destruct (lookup_container key (containers w)); inversion H. auto.
Qed.

(** A successful upload: the target is a directory of the container and
    the archive is unpacked under it. *)
Lemma put_archive_inv id path tar w w' :
  put_archive fault id path tar w = (inr tt, w') ->
  exists c fs,
    by_id id (containers w) = Some c
    /\ extract (Fspath.resolve path) tar (c_fs c) = Some fs
    /\ w' = set_containers (update_container id (with_fs fs) (containers w))
                           (set_calls (calls w ++ [CPutArchive id path tar]) w).
Proof.
  unfold put_archive. intros H.
  apply bind_inv in H as [(a & w1 & H1 & H)|(e & _ & X)]; [|discriminate].
  apply issue_world in H1. subst w1.
  apply bind_inv in H as [(c & w2 & H2 & H)|(e & _ & X)]; [|discriminate].
  apply live_inv in H2 as [Hc ->]. cbn [containers set_calls] in Hc.
  unfold raise, put_container, modify in H.
  destruct (is_dir (c_fs c) (Fspath.resolve path)); [|inversion H].
  destruct (extract (Fspath.resolve path) tar (c_fs c)) as [fs|] eqn:E; [|inversion H].
  inversion H. exists c, fs. split; [exact Hc|]. split; [exact E | reflexivity].
Qed.

Lemma by_id_same id cs c : by_id id cs = Some c -> c_id c = id.
Proof. unfold by_id. intros H. apply find_some in H as [_ H]. apply String.eqb_eq, H. Qed.

Lemma extract_one_stored dir name content fs fs' :
  simple_name name ->
  extract dir [mkTarEntry name (String.length content) (Some content)] fs = Some fs' ->
  fs_files fs' !! (dir ++ [name]) = Some content.
Proof.
  intros Hn. simpl. unfold extract_member. simpl te_name. simpl te_data.
  rewrite (walk_simple dir name Hn).
  destruct (negb (Fspath.is_prefix dir (dir ++ [name]))); [discriminate|].
  destruct (is_dir fs (dir ++ [name])); [discriminate|].
  intros H. inversion H. simpl. apply lookup_insert_eq.
Qed.

(** What a successful [write_file_sandbox] leaves behind: the content,
    stored in the container under the target directory. *)
Lemma write_file_stored container_id file_name file_contents workspace_id dest_dir w d w1 :
  simple_name file_name ->
  write_file_sandbox fault shell container_id file_name file_contents
                     workspace_id dest_dir w = (d, w1) ->
  dict_get "success" d = Some (VBool true) ->
  docker_available w = true
  /\ local_kept w w1
  /\ exists c c1,
       lookup_container container_id (containers w1) = Some c
       /\ by_id (c_id c) (containers w1) = Some c1
       /\ fs_files (c_fs c1)
            !! (Fspath.resolve (resolve_dest_dir workspace_id dest_dir) ++ [file_name])
          = Some file_contents.
Proof.
  intros Hn H Hs. unfold write_file_sandbox in H.
  destruct (docker_available w) eqn:Ed; simpl in H;
    [|inversion H; subst; discriminate].
  split; [reflexivity|].
  destruct (write_file_body _ _ _ _ _ _ _ w) as [[e|d'] w'] eqn:E;
    [inversion H; subst; discriminate|].
  inversion H. subst d' w'. clear H Hs.
  unfold write_file_body in E.
  apply bind_inv in E as [(c0 & wa & H1 & E)|(e & _ & X)]; [|discriminate].
  apply containers_get_inv in H1 as [Hl ->].
  apply bind_inv in E as [(o & wb & H2 & E)|(e & _ & X)]; [|discriminate].
  apply exec_run_frame in H2 as [Lb Ib].
  apply bind_inv in E as [([] & wc & H3 & E)|(e & _ & X)]; [|discriminate].
  inversion E. subst wc. clear E.
  apply put_archive_inv in H3 as (c2 & fs & Hc2 & Hx & ->).
  rewrite resolve_trimmed in Hx.
  apply (extract_one_stored _ _ _ _ _ Hn) in Hx.
  split.
  { destruct Lb as (A & B & C). repeat split; simpl; assumption. }
  pose proof (by_id_same _ _ _ Hc2) as Hid.
  assert (Hk : c_id <$> lookup_container container_id
                          (update_container (c_id c0) (with_fs fs) (containers wb))
               = Some (c_id c0)).
  { pose proof (ids_kept_update (c_id c0) (with_fs fs) wb (fun x => conj eq_refl eq_refl)
                  container_id) as K.
    simpl in K. rewrite K, Ib. simpl. rewrite Hl. reflexivity. }
  destruct (lookup_container container_id
              (update_container (c_id c0) (with_fs fs) (containers wb)))
    as [c|] eqn:Ec; [|discriminate].
  assert (Hcid : c_id c = c_id c0) by (simpl in Hk; congruence). clear Hk.
  exists c, (with_fs fs c2). simpl. split; [exact Ec|]. split.
  - rewrite Hcid, by_id_update by reflexivity.
    change (containers (set_calls _ wb)) with (containers wb).
    rewrite Hc2. simpl. rewrite Hid, String.eqb_refl. reflexivity.
  - exact Hx.
Qed.

Lemma get_archive_file id path w c content :
  fault w (CGetArchive id path) = None ->
  by_id id (containers w) = Some c ->
  fs_files (c_fs c) !! Fspath.resolve path = Some content ->
  get_archive fault id path w
  = (inr [mkTarEntry (List.last (Fspath.resolve path) EmptyString)
                     (String.length content) (Some content)],
     set_calls (calls w ++ [CGetArchive id path]) w).
Proof.
  intros Hf Hc Hp. set (w1 := set_calls (calls w ++ [CGetArchive id path]) w).
  assert (H1 : issue fault (CGetArchive id path) w = (inr tt, w1))
    by (unfold issue; rewrite Hf; reflexivity).
  assert (H2 : live id w1 = (inr c, w1)).
  { unfold live, bind, gets, ret. change (containers w1) with (containers w).
    rewrite Hc. reflexivity. }
  unfold get_archive. rewrite (bind_inr _ _ _ _ _ H1), (bind_inr _ _ _ _ _ H2).
  unfold archive_of. rewrite Hp. reflexivity.
Qed.

Definition copied_out (dest : string) (content : bytes) : pydict :=
  [("success", VBool true);
   ("local_path", VStr dest);
   ("file_size", VInt (Z.of_nat (String.length content)))].

(** Reading a stored file into a local name of the working directory. *)
Lemma copy_out_stored container_id src_path workspace_id local_dest_path w c c1 content :
  docker_available w = true ->
  (forall w0, fault w0 (CGet container_id) = None) ->
  (forall w0 id p, fault w0 (CGetArchive id p) = None) ->
  lookup_container container_id (containers w) = Some c ->
  by_id (c_id c) (containers w) = Some c1 ->
  fs_files (c_fs c1) !! Fspath.resolve (container_src workspace_id src_path) = Some content ->
  forall dest,
    dest = default (Py.basename (container_src workspace_id src_path)) local_dest_path ->
    Py.dirname dest = EmptyString -> dest <> EmptyString -> dest ∉ local_dirs w ->
    exists w2,
      copy_file_from_sandbox fault container_id src_path workspace_id local_dest_path w
      = (copied_out dest content, w2)
      /\ local_files w2 !! dest = Some content.
Proof.
  intros Hd Hg Ha Hl Hc Hp dest Edest Hdir Hne Hnd.
  unfold copy_file_from_sandbox. rewrite Hd. simpl negb. cbv iota.
  unfold copy_file_from_body. rewrite <- Edest.
  destruct (containers_get_ok fault _ _ _ (Hg w) Hl) as (w1 & E1).
  apply containers_get_inv in E1 as E1'. destruct E1' as [_ ->].
  rewrite (bind_inr _ _ _ _ _ E1).
  set (w1 := set_calls (calls w ++ [CGet container_id]) w) in *.
  pose proof (get_archive_file (c_id c) _ w1 c1 content (Ha _ _ _) Hc Hp) as E2.
  rewrite (bind_inr _ _ _ _ _ E2).
  set (w2 := set_calls _ w1) in *.
  rewrite Hdir. change (String.eqb EmptyString EmptyString) with true. cbv iota.
  unfold bind at 1. unfold ret at 1. unfold bind at 1. unfold ret at 1.
  assert (E3 : local_open_wb dest w2
               = (inr tt, set_local (<[dest := EmptyString]> (local_files w2)) (local_dirs w2) w2)).
  { unfold local_open_wb. apply String.eqb_neq in Hne. rewrite Hne.
    rewrite bool_decide_eq_false_2 by exact Hnd.
    rewrite Hdir. reflexivity. }
  rewrite (bind_inr _ _ _ _ _ E3). simpl te_data.
  unfold bind at 1. unfold ret at 1.
  unfold bind, local_write, modify, os_path_getsize, ret. simpl.
  rewrite lookup_insert_eq. eexists. split; [reflexivity|]. simpl.
  apply lookup_insert_eq.
Qed.

Lemma simple_name_relative n : simple_name n -> Py.startswith n "/" = false.
Proof.
  intros (_ & H & _). destruct n as [|c n]; [reflexivity|].
  simpl in *. apply orb_false_iff in H as [H _]. unfold Py.sep in H. rewrite H. reflexivity.
Qed.

(** C7, as amended.  For every file name (one path component) and every
    text content: when [write_file_sandbox], called with a [workspace_id]
    and no [dest_dir], reports success, [copy_file_from_sandbox] called
    next with the same container, workspace and name and no local
    destination writes a local file of that name whose bytes are the
    encoded content, and reports [file_size] equal to its length in bytes;
    this provided the adapter fails on neither the lookup nor the download
    and the name is not a local directory. *)
Theorem write_then_read_roundtrip container_id file_name file_contents ws w d w1
    (Hn : simple_name file_name)
    (Hw : write_file_sandbox fault shell container_id file_name file_contents
                             (Some ws) None w = (d, w1))
    (Hs : dict_get "success" d = Some (VBool true))
    (Hg : forall w0, fault w0 (CGet container_id) = None)
    (Ha : forall w0 id p, fault w0 (CGetArchive id p) = None)
    (Hl : file_name ∉ local_dirs w) :
  exists w2,
    copy_file_from_sandbox fault container_id file_name (Some ws) None w1
    = (copied_out file_name file_contents, w2)
    /\ local_files w2 !! file_name = Some file_contents.
Proof.
  destruct (write_file_stored _ _ _ _ _ _ _ _ Hn Hw Hs)
    as (Hd & (Ld & Lf & Ldirs) & c & c1 & Hc & Hc1 & Hp).
  assert (Esrc : container_src (Some ws) file_name
                 = base_dir (Some ws) +:+ "/" +:+ file_name).
  { unfold container_src, base_dir. rewrite (simple_name_relative _ Hn). simpl negb.
    cbv iota. rewrite append_assoc. reflexivity. }
  apply (copy_out_stored container_id file_name (Some ws) None w1 c c1 file_contents).
  - rewrite Ld. exact Hd.
  - exact Hg.
  - exact Ha.
  - exact Hc.
  - exact Hc1.
  - rewrite Esrc, (resolve_child _ _ Hn). exact Hp.
  - rewrite Esrc. unfold Py.basename.
    rewrite (after_last_sep_child _ _ (proj1 (proj2 Hn))). reflexivity.
  - apply dirname_simple, Hn.
  - apply Hn.
  - rewrite Ldirs. exact Hl.
Qed.

End RoundTrip.

Lemma write_then_read_roundtrip_witness :
  exists w2,
    copy_file_from_sandbox Sample.no_fault "c1" "a.txt" (Some "w1") None
      (write_file_sandbox Sample.no_fault Sample.shell
         "c1" "a.txt" "hello" (Some "w1") None Sample.world).2
    = (copied_out "a.txt" "hello", w2)
    /\ local_files w2 !! "a.txt" = Some "hello".
Proof.
  apply (write_then_read_roundtrip Sample.no_fault Sample.shell
           "c1" "a.txt" "hello" "w1" Sample.world
           (write_file_sandbox Sample.no_fault Sample.shell
              "c1" "a.txt" "hello" (Some "w1") None Sample.world).1).
  - repeat split; discriminate.
  - apply surjective_pairing.
  - vm_compute. reflexivity.
  - reflexivity.
  - reflexivity.
  - apply not_elem_of_empty.
Defined.

(** The round trip of the specification: content [hello], size 5. *)
Example sample_roundtrip :
  (copy_file_from_sandbox Sample.no_fault "c1" "a.txt" (Some "w1") None
     (write_file_sandbox Sample.no_fault Sample.shell
        "c1" "a.txt" "hello" (Some "w1") None Sample.world).2).1
  = [("success", VBool true); ("local_path", VStr "a.txt"); ("file_size", VInt 5)].
Proof. vm_compute. reflexivity. Qed.

(** C7 as stated fails: without a [workspace_id] the file is written under
    [/app], while the name handed to [get_archive] is left as it is and is
    resolved from the root of the container. *)
Lemma roundtrip_standalone_fails :
  let written := write_file_sandbox Sample.no_fault Sample.shell
                   "c1" "a.txt" "hello" None None Sample.world in
  written.1 = [("success", VBool true); ("file_path", VStr "/app/a.txt")]
  /\ (copy_file_from_sandbox Sample.no_fault "c1" "a.txt" None None written.2).1
     = [("success", VBool false);
        ("error", VStr "从容器复制文件失败: 404 Client Error: Not Found (Could not find the file a.txt)")]
  /\ calls (copy_file_from_sandbox Sample.no_fault "c1" "a.txt" None None written.2).2
     = [CGet "c1"; CExec "c1" ["sh"; "-c"; "mkdir -p /app"];
        CPutArchive "c1" "/app" [mkTarEntry "a.txt" 5 (Some "hello")];
        CGet "c1"; CGetArchive "c1" "a.txt"].
Proof. vm_compute. repeat split; reflexivity. Qed.


(** ** [ensure_persistent_container] *)

(** Updating and removing by id, over a list with a new container at its end. *)
Lemma update_absent id f cs : by_id id cs = None -> update_container id f cs = cs.
Proof.
  unfold by_id, update_container. induction cs as [|c cs IH]; simpl; [reflexivity|].
  destruct (String.eqb (c_id c) id); [discriminate|].
  intros H. rewrite (IH H). reflexivity.
Qed.

Lemma remove_absent id cs : by_id id cs = None -> remove_container id cs = cs.
Proof.
  unfold by_id, remove_container. induction cs as [|c cs IH]; simpl; [reflexivity|].
  destruct (String.eqb (c_id c) id); [discriminate|].
  intros H. simpl. rewrite (IH H). reflexivity.
Qed.

Lemma update_app id f cs l :
  update_container id f (cs ++ l) = update_container id f cs ++ update_container id f l.
Proof. unfold update_container. apply map_app. Qed.

Lemma remove_app id cs l :
  remove_container id (cs ++ l) = remove_container id cs ++ remove_container id l.
Proof. unfold remove_container. apply List.filter_app. Qed.

Lemma remove_only id c : c_id c = id -> remove_container id [c] = [].
Proof.
  intros H. unfold remove_container. cbn [List.filter]. rewrite H, String.eqb_refl.
  reflexivity.
Qed.

Section RegistryProperties.

Variable fault : World -> EngineCall -> option exn.
Variable shell : World -> Container -> list string -> ExecOutput * Fs.

Lemma containers_get_found key w c :
  fault w (CGet key) = None -> lookup_container key (containers w) = Some c ->
  containers_get fault key w = (inr c, set_calls (calls w ++ [CGet key]) w).
Proof.
  intros Hf Hc. destruct (containers_get_ok fault key w c Hf Hc) as (w' & E).
  apply containers_get_inv in E as E'. destruct E' as [_ ->]. exact E.
Qed.

Lemma containers_get_missing key w :
  fault w (CGet key) = None -> lookup_container key (containers w) = None ->
  containers_get fault key w
  = (inl (no_such_container key), set_calls (calls w ++ [CGet key]) w).
Proof.
  intros Hf Hc. set (w1 := set_calls (calls w ++ [CGet key]) w).
  assert (H1 : issue fault (CGet key) w = (inr tt, w1))
    by (unfold issue; rewrite Hf; reflexivity).
  unfold containers_get. rewrite (bind_inr _ _ _ _ _ H1).
  unfold bind, gets, raise. change (containers w1) with (containers w).
  rewrite Hc. reflexivity.
Qed.

Lemma try_NotFound_inr {A} (m h : M A) w a w' :
  m w = (inr a, w') -> try_NotFound m h w = (inr a, w').
Proof. intros H. unfold try_NotFound. rewrite H. reflexivity. Qed.

Lemma try_NotFound_caught {A} (m h : M A) w e w' :
  m w = (inl e, w') -> is_NotFound e = true -> try_NotFound m h w = h w'.
Proof. intros H He. unfold try_NotFound. rewrite H, He. reflexivity. Qed.

(** The cached identity is valid: its container is there and running. *)
Definition cache_valid (w : World) (pid : string) : Prop :=
  persistent_container_id w = Some pid
  /\ exists c, lookup_container pid (containers w) = Some c /\ c_status c = "running".

(** Lines 64-69.  With a valid cached identity the function returns it
    after one lookup; nothing is created, started or changed. *)
Theorem ensure_cached_hit w pid
    (Hv : cache_valid w pid)
    (Hf : fault w (CGet pid) = None) :
  ensure_persistent_container fault shell w
  = (inr pid, set_calls (calls w ++ [CGet pid]) w).
Proof.
  destruct Hv as (Hp & c & Hc & Hs).
  unfold ensure_persistent_container, check_cached.
  assert (E0 : gets persistent_container_id w = (inr (Some pid), w))
    by (unfold gets; rewrite Hp; reflexivity).
  assert (E1 : check_cached fault w = (inr (Some pid), set_calls (calls w ++ [CGet pid]) w)).
  { unfold check_cached. rewrite (bind_inr _ _ _ _ _ E0).
    apply try_NotFound_inr.
    rewrite (bind_inr _ _ _ _ _ (containers_get_found _ _ _ Hf Hc)).
    rewrite Hs. reflexivity. }
  fold check_cached. rewrite (bind_inr _ _ _ _ _ E1). reflexivity.
Qed.

(** No valid cached identity: none at all, or one whose container is gone
    or not running. *)
Definition cache_stale (w : World) : Prop :=
  match persistent_container_id w with
  | None => True
  | Some pid =>
      match lookup_container pid (containers w) with
      | None => True
      | Some c => c_status c <> "running"
      end
  end.

Definition is_lookup (c : EngineCall) : Prop := exists key, c = CGet key.

(** Lines 64-72 on a stale cache: at most one lookup, no identity found,
    the containers untouched. *)
Lemma check_cached_stale w :
  cache_stale w -> (forall w0 key, fault w0 (CGet key) = None) ->
  exists w0 d,
    check_cached fault w = (inr None, w0)
    /\ containers w0 = containers w
    /\ calls w0 = calls w ++ d /\ Forall is_lookup d.
Proof.
  unfold cache_stale. intros Hs Hg. unfold check_cached.
  destruct (persistent_container_id w) as [pid|] eqn:Hp.
  - assert (E0 : gets persistent_container_id w = (inr (Some pid), w))
      by (unfold gets; rewrite Hp; reflexivity).
    rewrite (bind_inr _ _ _ _ _ E0).
    destruct (lookup_container pid (containers w)) as [c|] eqn:Hc.
    + exists (set_calls (calls w ++ [CGet pid]) w), [CGet pid].
      split; [|split; [reflexivity|split; [reflexivity|]]].
      * apply try_NotFound_inr.
        rewrite (bind_inr _ _ _ _ _ (containers_get_found _ _ _ (Hg _ _) Hc)).
        apply String.eqb_neq in Hs. rewrite Hs. reflexivity.
      * constructor; [eexists; reflexivity | constructor].
    + exists (set_persistent None (set_calls (calls w ++ [CGet pid]) w)), [CGet pid].
      split; [|split; [reflexivity|split; [reflexivity|]]].
      * rewrite (try_NotFound_caught _ _ _ _ _
                   (bind_inl _ _ _ _ _ (containers_get_missing _ _ (Hg _ _) Hc)) eq_refl).
        reflexivity.
      * constructor; [eexists; reflexivity | constructor].
  - assert (E0 : gets persistent_container_id w = (inr None, w))
      by (unfold gets; rewrite Hp; reflexivity).
    rewrite (bind_inr _ _ _ _ _ E0).
    exists w, []. rewrite app_nil_r. repeat split. constructor.
Qed.

Lemma container_start_ok id w c :
  fault w (CStart id) = None -> by_id id (containers w) = Some c ->
  container_start fault id w
  = (inr tt, set_containers (update_container id (with_status "running") (containers w))
                            (set_calls (calls w ++ [CStart id]) w)).
Proof.
  intros Hf Hc. set (w1 := set_calls (calls w ++ [CStart id]) w).
  assert (H1 : issue fault (CStart id) w = (inr tt, w1))
    by (unfold issue; rewrite Hf; reflexivity).
  assert (H2 : live id w1 = (inr c, w1)).
  { unfold live, bind, gets, ret. change (containers w1) with (containers w).
    rewrite Hc. reflexivity. }
  unfold container_start. rewrite (bind_inr _ _ _ _ _ H1), (bind_inr _ _ _ _ _ H2).
  reflexivity.
Qed.

Lemma lookup_by_id key cs c : by_id key cs = Some c -> lookup_container key cs = Some c.
Proof. intros H. unfold lookup_container. rewrite H. reflexivity. Qed.

(** The world after lines 75-81 have adopted the container [c]. *)
Definition adopted (c : Container) (w : World) : World :=
  let w1 := set_calls (calls w ++ [CGet PERSISTENT_CONTAINER_NAME]) w in
  set_persistent (Some (c_id c))
    (if String.eqb (c_status c) "running" then w1
     else set_containers (update_container (c_id c) (with_status "running") (containers w1))
                         (set_calls (calls w1 ++ [CStart (c_id c)]) w1)).

Lemma adopt_named_found w c :
  (forall w0 key, fault w0 (CGet key) = None) ->
  (forall w0 id, fault w0 (CStart id) = None) ->
  lookup_container PERSISTENT_CONTAINER_NAME (containers w) = Some c ->
  by_id (c_id c) (containers w) = Some c ->
  adopt_named fault w = (inr (Some (c_id c)), adopted c w).
Proof.
  intros Hg Hst Hl Hid. unfold adopt_named, adopted. apply try_NotFound_inr.
  rewrite (bind_inr _ _ _ _ _ (containers_get_found _ _ _ (Hg _ _) Hl)).
  set (w1 := set_calls (calls w ++ [CGet PERSISTENT_CONTAINER_NAME]) w).
  destruct (String.eqb (c_status c) "running"); simpl negb; cbv iota.
  - reflexivity.
  - assert (Hid1 : by_id (c_id c) (containers w1) = Some c) by exact Hid.
    rewrite (bind_inr _ _ _ _ _ (container_start_ok _ _ _ (Hst _ _) Hid1)).
    reflexivity.
Qed.

Lemma adopted_valid c w :
  by_id (c_id c) (containers w) = Some c -> cache_valid (adopted c w) (c_id c).
Proof.
  intros Hid. unfold cache_valid, adopted.
  destruct (String.eqb (c_status c) "running") eqn:E; simpl.
  - split; [reflexivity|]. exists c. split; [apply lookup_by_id, Hid|].
    apply String.eqb_eq, E.
  - split; [reflexivity|]. exists (with_status "running" c). split; [|reflexivity].
    apply lookup_by_id. rewrite by_id_update by reflexivity. rewrite Hid. simpl.
    rewrite String.eqb_refl. reflexivity.
Qed.

(** Lines 59-83.  With no valid cached identity and a container of the
    well-known name in the engine, the function starts that container when
    it is not running, caches its id and returns it; it creates no
    container. *)
Theorem ensure_adopts_named w c
    (Hs : cache_stale w)
    (Hg : forall w0 key, fault w0 (CGet key) = None)
    (Hst : forall w0 id, fault w0 (CStart id) = None)
    (Hl : lookup_container PERSISTENT_CONTAINER_NAME (containers w) = Some c)
    (Hid : by_id (c_id c) (containers w) = Some c) :
  exists w',
    ensure_persistent_container fault shell w = (inr (c_id c), w')
    /\ cache_valid w' (c_id c)
    /\ map c_id (containers w') = map c_id (containers w)
    /\ (c_status c <> "running" -> In (CStart (c_id c)) (calls w')).
Proof.
  destruct (check_cached_stale w Hs Hg) as (w0 & d & E0 & Hc0 & _ & _).
  assert (Hl0 : lookup_container PERSISTENT_CONTAINER_NAME (containers w0) = Some c)
    by (rewrite Hc0; exact Hl).
  assert (Hid0 : by_id (c_id c) (containers w0) = Some c) by (rewrite Hc0; exact Hid).
  exists (adopted c w0). split; [|split; [|split]].
  - unfold ensure_persistent_container. rewrite (bind_inr _ _ _ _ _ E0).
    rewrite (bind_inr _ _ _ _ _ (adopt_named_found w0 c Hg Hst Hl0 Hid0)). reflexivity.
  - apply adopted_valid, Hid0.
  - unfold adopted. destruct (String.eqb (c_status c) "running"); simpl.
    + rewrite Hc0. reflexivity.
    + rewrite Hc0. unfold update_container. rewrite map_map. apply map_ext.
      intros x. destruct (String.eqb (c_id x) (c_id c)); reflexivity.
  - intros Hn. apply String.eqb_neq in Hn. unfold adopted. rewrite Hn. simpl.
    apply in_or_app. right. left. reflexivity.
Qed.

(** *** A new container *)

Lemma length_repeat_string (a : ascii) n :
  String.length (string_of_list_ascii (repeat a n)) = n.
Proof. induction n as [|n IH]; simpl; [reflexivity | rewrite IH; reflexivity]. Qed.

Definition longest_key (cs : list Container) : nat :=
  fold_right (fun c n => Nat.max (Nat.max (String.length (c_id c))
                                          (String.length (c_name c))) n) 0%nat cs.

Lemma fresh_id_length cs : String.length (fresh_id cs) = S (longest_key cs).
Proof. unfold fresh_id. apply length_repeat_string. Qed.

Lemma longest_key_bound cs c :
  In c cs ->
  String.length (c_id c) <= longest_key cs /\ String.length (c_name c) <= longest_key cs.
Proof.
  induction cs as [|x cs IH]; simpl; [tauto|].
  intros [->|H]; [lia|]. destruct (IH H). lia.
Qed.

Lemma find_all_false {A} (f : A -> bool) (l : list A) :
  (forall x, In x l -> f x = false) -> find f l = None.
Proof.
  induction l as [|x l IH]; simpl; [reflexivity|]. intros H.
  rewrite (H x (or_introl eq_refl)). apply IH. intros y Hy. apply H. right. exact Hy.
Qed.

(** The id the engine picks is the id and the name of no container. *)
Lemma fresh_id_fresh cs :
  by_id (fresh_id cs) cs = None /\ by_name (fresh_id cs) cs = None.
Proof.
  split; unfold by_id, by_name.
  - apply find_all_false. intros c Hc. apply String.eqb_neq. intros E.
    pose proof (fresh_id_length cs). destruct (longest_key_bound cs c Hc).
    rewrite <- E in H. lia.
  - apply find_all_false. intros c Hc. apply String.eqb_neq. intros E.
    pose proof (fresh_id_length cs). destruct (longest_key_bound cs c Hc).
    rewrite <- E in H. lia.
Qed.

Lemma find_app_none {A} (f : A -> bool) l1 l2 :
  find f l1 = None -> find f (l1 ++ l2) = find f l2.
Proof.
  induction l1 as [|x l1 IH]; simpl; [reflexivity|].
  destruct (f x); [discriminate | exact IH].
Qed.

Lemma by_id_new cs c : by_id (c_id c) cs = None -> by_id (c_id c) (cs ++ [c]) = Some c.
Proof.
  intros H. unfold by_id in *. rewrite (find_app_none _ _ _ H). simpl.
  rewrite String.eqb_refl. reflexivity.
Qed.

Lemma lookup_none key cs :
  lookup_container key cs = None -> by_id key cs = None /\ by_name key cs = None.
Proof.
  unfold lookup_container. destruct (by_id key cs); [discriminate | auto].
Qed.

Lemma lookup_new_name cs c :
  lookup_container (c_name c) cs = None -> lookup_container (c_name c) (cs ++ [c]) = Some c.
Proof.
  intros H. apply lookup_none in H as [H1 H2]. unfold lookup_container, by_id, by_name in *.
  rewrite (find_app_none _ _ _ H1), (find_app_none _ _ _ H2). simpl.
  rewrite String.eqb_refl. destruct (String.eqb (c_id c) (c_name c)); reflexivity.
Qed.

Lemma map_id_update id f cs :
  (forall c, c_id (f c) = c_id c) ->
  map c_id (update_container id f cs) = map c_id cs.
Proof.
  intros Hf. unfold update_container. rewrite map_map. apply map_ext.
  intros x. destruct (String.eqb (c_id x) id); [apply Hf | reflexivity].
Qed.

(** A command changes neither the cached identity nor the set of
    containers. *)
Lemma exec_run_keeps id argv w r w' :
  exec_run fault shell id argv w = (r, w') ->
  persistent_container_id w' = persistent_container_id w
  /\ map c_id (containers w') = map c_id (containers w).
Proof.
  unfold exec_run. intros H.
  apply bind_inv in H as [(a & w1 & H1 & H)|(e & H1 & _)];
    [|apply issue_world in H1; subst; split; reflexivity].
  apply issue_world in H1. subst w1.
  apply bind_inv in H as [(c & w2 & H2 & H)|(e & H2 & _)];
    [|apply live_world in H2; subst; split; reflexivity].
  apply live_world in H2. subst w2.
  destruct (negb (String.eqb (c_status c) "running")).
  - inversion H. subst. split; reflexivity.
  - unfold bind, gets, put_container, modify, ret in H.
    destruct (shell _ c argv) as [o fs]. inversion H. simpl.
    split; [reflexivity | apply map_id_update; reflexivity].
Qed.

(** The container that lines 91-113 create. *)
Definition created (cs : list Container) : Container :=
  mkContainer (fresh_id cs) PERSISTENT_CONTAINER_NAME "running" initial_fs.

Lemma containers_run_new image name gpu w :
  fault w (CRun image (Some name) gpu) = None ->
  lookup_container name (containers w) = None ->
  containers_run fault image (Some name) gpu w
  = (inr (mkContainer (fresh_id (containers w)) name "running" initial_fs),
     set_containers (containers w
                     ++ [mkContainer (fresh_id (containers w)) name "running" initial_fs])
                    (set_calls (calls w ++ [CRun image (Some name) gpu]) w)).
Proof.
  intros Hf Hl. set (w1 := set_calls (calls w ++ [CRun image (Some name) gpu]) w).
  assert (H1 : issue fault (CRun image (Some name) gpu) w = (inr tt, w1))
    by (unfold issue; rewrite Hf; reflexivity).
  unfold containers_run. rewrite (bind_inr _ _ _ _ _ H1).
  unfold bind at 1. unfold gets at 1. change (containers w1) with (containers w).
  rewrite Hl. reflexivity.
Qed.

(** The world after a command that ran: the call on the trace, the file
    system of the container replaced, nothing else. *)
Lemma exec_run_world id argv w o w' :
  exec_run fault shell id argv w = (inr o, w') ->
  exists fs,
    w' = set_containers (update_container id (with_fs fs) (containers w))
                        (set_calls (calls w ++ [CExec id argv]) w).
Proof.
  unfold exec_run. intros H.
  apply bind_inv in H as [(a & w1 & H1 & H)|(e & _ & X)]; [|discriminate].
  apply issue_world in H1. subst w1.
  apply bind_inv in H as [(c & w2 & H2 & H)|(e & _ & X)]; [|discriminate].
  apply live_world in H2. subst w2.
  destruct (negb (String.eqb (c_status c) "running")); [discriminate|].
  unfold bind, gets, put_container, modify, ret in H.
  destruct (shell _ c argv) as [o1 fs]. inversion H. exists fs. reflexivity.
Qed.

(** The lookup of lines 65-66, issued when an id is cached. *)
Definition stale_lookup (w : World) : list EngineCall :=
  match persistent_container_id w with
  | Some pid => [CGet pid]
  | None => []
  end.

Lemma check_cached_stale_trace w :
  cache_stale w -> (forall w0 key, fault w0 (CGet key) = None) ->
  exists w0,
    check_cached fault w = (inr None, w0)
    /\ containers w0 = containers w
    /\ calls w0 = calls w ++ stale_lookup w.
Proof.
  unfold cache_stale, stale_lookup. intros Hs Hg. unfold check_cached.
  destruct (persistent_container_id w) as [pid|] eqn:Hp.
  - assert (E0 : gets persistent_container_id w = (inr (Some pid), w))
      by (unfold gets; rewrite Hp; reflexivity).
    rewrite (bind_inr _ _ _ _ _ E0).
    destruct (lookup_container pid (containers w)) as [c|] eqn:Hc.
    + exists (set_calls (calls w ++ [CGet pid]) w).
      split; [|split; reflexivity].
      apply try_NotFound_inr.
      rewrite (bind_inr _ _ _ _ _ (containers_get_found _ _ _ (Hg _ _) Hc)).
      apply String.eqb_neq in Hs. rewrite Hs. reflexivity.
    + exists (set_persistent None (set_calls (calls w ++ [CGet pid]) w)).
      split; [|split; reflexivity].
      rewrite (try_NotFound_caught _ _ _ _ _
                 (bind_inl _ _ _ _ _ (containers_get_missing _ _ (Hg _ _) Hc)) eq_refl).
      reflexivity.
  - assert (E0 : gets persistent_container_id w = (inr None, w))
      by (unfold gets; rewrite Hp; reflexivity).
    rewrite (bind_inr _ _ _ _ _ E0).
    exists w. rewrite app_nil_r. repeat split.
Qed.

(** Lines 59-124 when nothing is there, step by step: the world the call
    ends in. *)
Lemma create_run w :
  cache_stale w -> (forall w0 call, fault w0 call = None) ->
  lookup_container PERSISTENT_CONTAINER_NAME (containers w) = None ->
  exists w' fs,
    ensure_persistent_container fault shell w = (inr (fresh_id (containers w)), w')
    /\ persistent_container_id w' = Some (fresh_id (containers w))
    /\ containers w'
       = containers w
         ++ [mkContainer (fresh_id (containers w)) PERSISTENT_CONTAINER_NAME "running" fs]
    /\ calls w'
       = calls w ++ stale_lookup w
         ++ [CGet PERSISTENT_CONTAINER_NAME;
             CPull DEFAULT_IMAGE;
             CRun DEFAULT_IMAGE (Some PERSISTENT_CONTAINER_NAME) true;
             CExec (fresh_id (containers w)) ["mkdir"; "-p"; "/app/workspaces"]].
Proof.
  intros Hs Hf Hl.
  destruct (check_cached_stale_trace w Hs (fun w0 key => Hf w0 _)) as (w0 & E0 & Hc0 & Hd0).
  assert (Hl0 : lookup_container PERSISTENT_CONTAINER_NAME (containers w0) = None)
    by (rewrite Hc0; exact Hl).
  set (w1 := set_calls (calls w0 ++ [CGet PERSISTENT_CONTAINER_NAME]) w0).
  assert (E1 : adopt_named fault w0 = (inr None, w1)).
  { unfold adopt_named.
    rewrite (try_NotFound_caught _ _ _ _ _
               (bind_inl _ _ _ _ _ (containers_get_missing _ _ (Hf _ _) Hl0)) eq_refl).
    reflexivity. }
  set (w2 := set_calls (calls w1 ++ [CPull DEFAULT_IMAGE]) w1).
  assert (E2 : images_pull fault DEFAULT_IMAGE w1 = (inr tt, w2))
    by (unfold images_pull, issue; rewrite Hf; reflexivity).
  assert (Hl2 : lookup_container PERSISTENT_CONTAINER_NAME (containers w2) = None)
    by exact Hl0.
  pose proof (containers_run_new DEFAULT_IMAGE PERSISTENT_CONTAINER_NAME true w2 (Hf _ _) Hl2)
    as E3.
  change (containers w2) with (containers w0) in E3. rewrite Hc0 in E3.
  fold (created (containers w)) in E3.
  set (c := created (containers w)) in *.
  set (w3 := set_containers _ _) in E3.
  set (w4 := set_persistent (Some (c_id c)) w3).
  assert (Hn : by_id (c_id c) (containers w) = None) by apply (fresh_id_fresh (containers w)).
  assert (Hid4 : by_id (c_id c) (containers w4) = Some c).
  { change (containers w4) with (containers w ++ [c]). apply by_id_new. exact Hn. }
  assert (R4 : running (c_id c) w4) by (exists c; split; [exact Hid4 | reflexivity]).
  destruct (exec_run_ok fault shell (c_id c) ["mkdir"; "-p"; "/app/workspaces"] w4 (Hf _ _) R4)
    as (o & w5 & E5 & _ & _).
  destruct (exec_run_world _ _ _ _ _ E5) as (fs & Hw5).
  exists w5, fs. split; [|split; [|split]].
  - unfold ensure_persistent_container.
    rewrite (bind_inr _ _ _ _ _ E0), (bind_inr _ _ _ _ _ E1).
    unfold create_persistent.
    rewrite (bind_inr _ _ _ _ _ E2), (bind_inr _ _ _ _ _ E3).
    unfold bind at 1. unfold modify at 1. fold w4.
    rewrite (bind_inr _ _ _ _ _ E5). reflexivity.
  - rewrite Hw5. reflexivity.
  - rewrite Hw5.
    change (update_container (c_id c) (with_fs fs) (containers w ++ [c])
            = containers w ++ [with_fs fs c]).
    rewrite update_app, (update_absent (c_id c) _ _ Hn).
    unfold update_container. cbn [map]. rewrite String.eqb_refl. reflexivity.
  - rewrite Hw5.
    change (((((calls w0 ++ [CGet PERSISTENT_CONTAINER_NAME]) ++ [CPull DEFAULT_IMAGE])
               ++ [CRun DEFAULT_IMAGE (Some PERSISTENT_CONTAINER_NAME) true])
              ++ [CExec (c_id c) ["mkdir"; "-p"; "/app/workspaces"]])
            = calls w ++ stale_lookup w
              ++ [CGet PERSISTENT_CONTAINER_NAME; CPull DEFAULT_IMAGE;
                  CRun DEFAULT_IMAGE (Some PERSISTENT_CONTAINER_NAME) true;
                  CExec (c_id c) ["mkdir"; "-p"; "/app/workspaces"]]).
    rewrite Hd0, <- !app_assoc. reflexivity.
Qed.

(** What the callers of the function rely on after a creation. *)
Lemma create_run_valid w :
  cache_stale w -> (forall w0 call, fault w0 call = None) ->
  lookup_container PERSISTENT_CONTAINER_NAME (containers w) = None ->
  exists w',
    ensure_persistent_container fault shell w = (inr (fresh_id (containers w)), w')
    /\ cache_valid w' (fresh_id (containers w))
    /\ map c_id (containers w') = map c_id (containers w) ++ [fresh_id (containers w)]
    /\ In (CRun DEFAULT_IMAGE (Some PERSISTENT_CONTAINER_NAME) true) (calls w').
Proof.
  intros Hs Hf Hl. destruct (create_run w Hs Hf Hl) as (w' & fs & E & Hp & Hc & Hcalls).
  exists w'. split; [exact E|]. split; [|split].
  - split; [exact Hp|].
    exists (mkContainer (fresh_id (containers w)) PERSISTENT_CONTAINER_NAME "running" fs).
    split; [|reflexivity].
    rewrite Hc. apply lookup_by_id.
    apply (by_id_new (containers w)
             (mkContainer (fresh_id (containers w)) PERSISTENT_CONTAINER_NAME "running" fs)).
    apply (fresh_id_fresh (containers w)).
  - rewrite Hc, map_app. reflexivity.
  - rewrite Hcalls. apply in_or_app. right. apply in_or_app. right.
    right. right. left. reflexivity.
Qed.

(** Lines 59-124 when nothing is there.  With no valid cached identity and
    no container of the well-known name, and no call failing, the function
    looks the name up (after the lookup of a cached id, when one is cached),
    pulls the default image, creates one container under that name with the
    GPU request and makes [/app/workspaces] in it, in this order and with no
    other call; it caches the new id and returns it.  The new container is
    running and is the only one added. *)
Theorem ensure_creates w
    (Hs : cache_stale w)
    (Hf : forall w0 call, fault w0 call = None)
    (Hl : lookup_container PERSISTENT_CONTAINER_NAME (containers w) = None) :
  exists w' fs,
    ensure_persistent_container fault shell w = (inr (fresh_id (containers w)), w')
    /\ cache_valid w' (fresh_id (containers w))
    /\ containers w'
       = containers w
         ++ [mkContainer (fresh_id (containers w)) PERSISTENT_CONTAINER_NAME "running" fs]
    /\ (c_id <$> lookup_container PERSISTENT_CONTAINER_NAME (containers w'))
       = Some (fresh_id (containers w))
    /\ calls w'
       = calls w ++ stale_lookup w
         ++ [CGet PERSISTENT_CONTAINER_NAME;
             CPull DEFAULT_IMAGE;
             CRun DEFAULT_IMAGE (Some PERSISTENT_CONTAINER_NAME) true;
             CExec (fresh_id (containers w)) ["mkdir"; "-p"; "/app/workspaces"]].
Proof.
  destruct (create_run w Hs Hf Hl) as (w' & fs & E & Hp & Hc & Hcalls).
  set (c := mkContainer (fresh_id (containers w)) PERSISTENT_CONTAINER_NAME "running" fs) in *.
  exists w', fs. split; [exact E|].
  split; [|split; [exact Hc|split; [|exact Hcalls]]].
  - split; [exact Hp|]. exists c. split; [|reflexivity].
    rewrite Hc. apply lookup_by_id. apply (by_id_new (containers w) c).
    apply (fresh_id_fresh (containers w)).
  - rewrite Hc. pose proof (lookup_new_name (containers w) c Hl) as X.
    change (c_name c) with PERSISTENT_CONTAINER_NAME in X. rewrite X. reflexivity.
Qed.

(** *** One caller after another *)

(** [n] calls in a row, with their results. *)
Fixpoint acquire_n (n : nat) (w : World) : list (exn + string) * World :=
  match n with
  | O => ([], w)
  | S n' =>
      let '(r, w1) := ensure_persistent_container fault shell w in
      let '(rs, w2) := acquire_n n' w1 in
      (r :: rs, w2)
  end.

Lemma cache_cases w : (exists pid, cache_valid w pid) \/ cache_stale w.
Proof.
  unfold cache_valid, cache_stale.
  destruct (persistent_container_id w) as [pid|]; [|right; exact I].
  destruct (lookup_container pid (containers w)) as [c|] eqn:E; [|right; exact I].
  destruct (String.eqb (c_status c) "running") eqn:Es.
  - left. exists pid. split; [reflexivity|]. exists c. split; [exact E|].
    apply String.eqb_eq, Es.
  - right. apply String.eqb_neq, Es.
Qed.

Lemma acquire_n_valid id :
  (forall w0 call, fault w0 call = None) ->
  forall n w, cache_valid w id ->
    Forall (fun r => r = inr id) (acquire_n n w).1
    /\ containers (acquire_n n w).2 = containers w.
Proof.
  intros Hf. induction n as [|n IH]; intros w Hv; simpl.
  - split; [constructor | reflexivity].
  - rewrite (ensure_cached_hit w id Hv (Hf _ _)).
    assert (Hv1 : cache_valid (set_calls (calls w ++ [CGet id]) w) id) by exact Hv.
    destruct (IH _ Hv1) as [A B].
    destruct (acquire_n n _) as [rs w2]. simpl in *.
    split; [constructor; [reflexivity | exact A] | exact B].
Qed.

(** Lines 59-124, called [n] times in a row with no adapter failure: every
    call returns the same id, and over all the calls at most one container
    is added to the engine. *)
Theorem ensure_repeated n w
    (Hf : forall w0 call, fault w0 call = None)
    (Hwf : forall c, lookup_container PERSISTENT_CONTAINER_NAME (containers w) = Some c ->
                     by_id (c_id c) (containers w) = Some c) :
  exists id,
    Forall (fun r => r = inr id) (acquire_n n w).1
    /\ (map c_id (containers (acquire_n n w).2) = map c_id (containers w)
        \/ map c_id (containers (acquire_n n w).2) = map c_id (containers w) ++ [id]).
Proof.
  destruct n as [|n].
  { exists EmptyString. simpl. split; [constructor | left; reflexivity]. }
  assert (H1 : exists id w1,
             ensure_persistent_container fault shell w = (inr id, w1)
             /\ cache_valid w1 id
             /\ (map c_id (containers w1) = map c_id (containers w)
                 \/ map c_id (containers w1) = map c_id (containers w) ++ [id])).
  { destruct (cache_cases w) as [(pid & Hv)|Hs].
    - exists pid, (set_calls (calls w ++ [CGet pid]) w).
      split; [apply ensure_cached_hit; [exact Hv | apply Hf]|].
      split; [exact Hv | left; reflexivity].
    - destruct (lookup_container PERSISTENT_CONTAINER_NAME (containers w)) as [c|] eqn:El.
      + destruct (ensure_adopts_named w c Hs (fun w0 key => Hf w0 _)
                    (fun w0 id => Hf w0 _) El (Hwf c eq_refl))
          as (w1 & E & Hv & Hm & _).
        exists (c_id c), w1. split; [exact E|]. split; [exact Hv | left; exact Hm].
      + destruct (create_run_valid w Hs Hf El) as (w1 & E & Hv & Hm & _).
        exists (fresh_id (containers w)), w1.
        split; [exact E|]. split; [exact Hv | right; exact Hm]. }
  destruct H1 as (id & w1 & E & Hv & Hm).
  exists id. simpl. rewrite E.
  destruct (acquire_n_valid id Hf n w1 Hv) as [A B].
  destruct (acquire_n n w1) as [rs w2]. simpl in *.
  split; [constructor; [reflexivity | exact A]|]. rewrite B. exact Hm.
Qed.

End RegistryProperties.

(** Sample engines for the persistent container. *)
Module SamplePersistent.

Definition named (status : string) : Container :=
  mkContainer "p1" PERSISTENT_CONTAINER_NAME status initial_fs.

(** The container is there, stopped, and the process has no cached id. *)
Definition world_stopped : World := mkWorld true None [named "exited"] ∅ ∅ 0 [].

(** The container is there and running; no cached id. *)
Definition world_running : World := mkWorld true None [named "running"] ∅ ∅ 0 [].

(** The container is running and its id is cached. *)
Definition world_cached : World := mkWorld true (Some "p1") [named "running"] ∅ ∅ 0 [].

(** No container at all. *)
Definition world_empty : World := mkWorld true None [] ∅ ∅ 0 [].

End SamplePersistent.

Lemma ensure_cached_hit_witness :
  ensure_persistent_container Sample.no_fault Sample.shell SamplePersistent.world_cached
  = (inr "p1", set_calls (calls SamplePersistent.world_cached ++ [CGet "p1"])
                         SamplePersistent.world_cached).
Proof.
  apply (ensure_cached_hit Sample.no_fault Sample.shell SamplePersistent.world_cached "p1").
  - split; [reflexivity|]. exists (SamplePersistent.named "running"). split; reflexivity.
  - reflexivity.
Defined.

Lemma ensure_adopts_named_witness :
  exists w',
    ensure_persistent_container Sample.no_fault Sample.shell SamplePersistent.world_stopped
    = (inr (c_id (SamplePersistent.named "exited")), w')
    /\ cache_valid w' (c_id (SamplePersistent.named "exited"))
    /\ map c_id (containers w') = map c_id (containers SamplePersistent.world_stopped)
    /\ (c_status (SamplePersistent.named "exited") <> "running" ->
        In (CStart (c_id (SamplePersistent.named "exited"))) (calls w')).
Proof.
  apply (ensure_adopts_named Sample.no_fault Sample.shell
           SamplePersistent.world_stopped (SamplePersistent.named "exited")).
  - exact I.
  - reflexivity.
  - reflexivity.
  - reflexivity.
  - reflexivity.
Defined.

Lemma ensure_creates_witness :
  exists w' fs,
    ensure_persistent_container Sample.no_fault Sample.shell SamplePersistent.world_empty
    = (inr (fresh_id (containers SamplePersistent.world_empty)), w')
    /\ cache_valid w' (fresh_id (containers SamplePersistent.world_empty))
    /\ containers w'
       = containers SamplePersistent.world_empty
         ++ [mkContainer (fresh_id (containers SamplePersistent.world_empty))
                         PERSISTENT_CONTAINER_NAME "running" fs]
    /\ (c_id <$> lookup_container PERSISTENT_CONTAINER_NAME (containers w'))
       = Some (fresh_id (containers SamplePersistent.world_empty))
    /\ calls w'
       = calls SamplePersistent.world_empty ++ stale_lookup SamplePersistent.world_empty
         ++ [CGet PERSISTENT_CONTAINER_NAME;
             CPull DEFAULT_IMAGE;
             CRun DEFAULT_IMAGE (Some PERSISTENT_CONTAINER_NAME) true;
             CExec (fresh_id (containers SamplePersistent.world_empty))
                   ["mkdir"; "-p"; "/app/workspaces"]].
Proof.
  apply (ensure_creates Sample.no_fault Sample.shell SamplePersistent.world_empty).
  - exact I.
  - intros w0 call. reflexivity.
  - reflexivity.
Defined.

Lemma ensure_repeated_witness :
  exists id,
    Forall (fun r => r = inr id)
           (acquire_n Sample.no_fault Sample.shell 3 SamplePersistent.world_empty).1
    /\ (map c_id (containers (acquire_n Sample.no_fault Sample.shell 3
                                SamplePersistent.world_empty).2)
        = map c_id (containers SamplePersistent.world_empty)
        \/ map c_id (containers (acquire_n Sample.no_fault Sample.shell 3
                                   SamplePersistent.world_empty).2)
           = map c_id (containers SamplePersistent.world_empty) ++ [id]).
Proof.
  apply (ensure_repeated Sample.no_fault Sample.shell 3 SamplePersistent.world_empty).
  - reflexivity.
  - intros c H. discriminate H.
Defined.

(** Three calls on an empty engine: one container, one id. *)
Example sample_acquire_three :
  (acquire_n Sample.no_fault Sample.shell 3 SamplePersistent.world_empty).1
  = [inr "f"; inr "f"; inr "f"]
  /\ map c_id (containers (acquire_n Sample.no_fault Sample.shell 3
                             SamplePersistent.world_empty).2) = ["f"].
Proof. vm_compute. split; reflexivity. Qed.


(** ** [sandbox_initialize] *)

Section InitializeProperties.

Variable fault : World -> EngineCall -> option exn.
Variable shell : World -> Container -> list string -> ExecOutput * Fs.
Variable uuid4 : nat -> string.

Lemma exec_run_refused id argv w c :
  fault w (CExec id argv) = None -> by_id id (containers w) = Some c ->
  c_status c <> "running" ->
  exec_run fault shell id argv w
  = (inl (not_running id), set_calls (calls w ++ [CExec id argv]) w).
Proof.
  intros Hf Hc Hs. set (w1 := set_calls (calls w ++ [CExec id argv]) w).
  assert (H1 : issue fault (CExec id argv) w = (inr tt, w1))
    by (unfold issue; rewrite Hf; reflexivity).
  assert (H2 : live id w1 = (inr c, w1)).
  { unfold live, bind, gets, ret. change (containers w1) with (containers w).
    rewrite Hc. reflexivity. }
  unfold exec_run. rewrite (bind_inr _ _ _ _ _ H1), (bind_inr _ _ _ _ _ H2).
  apply String.eqb_neq in Hs. rewrite Hs. reflexivity.
Qed.

Lemma map_status_with_fs id fs cs :
  map c_status (update_container id (with_fs fs) cs) = map c_status cs.
Proof.
  unfold update_container. rewrite map_map. apply map_ext.
  intros x. destruct (String.eqb (c_id x) id); reflexivity.
Qed.

(** A command that runs: its trace, and what it leaves in place. *)
Lemma exec_run_done id argv w c :
  fault w (CExec id argv) = None -> by_id id (containers w) = Some c ->
  c_status c = "running" ->
  exists o w',
    exec_run fault shell id argv w = (inr o, w')
    /\ calls w' = calls w ++ [CExec id argv]
    /\ persistent_container_id w' = persistent_container_id w
    /\ uuid_count w' = uuid_count w
    /\ map c_status (containers w') = map c_status (containers w).
Proof.
  intros Hf Hc Hs. set (w1 := set_calls (calls w ++ [CExec id argv]) w).
  assert (H1 : issue fault (CExec id argv) w = (inr tt, w1))
    by (unfold issue; rewrite Hf; reflexivity).
  assert (H2 : live id w1 = (inr c, w1)).
  { unfold live, bind, gets, ret. change (containers w1) with (containers w).
    rewrite Hc. reflexivity. }
  unfold exec_run. rewrite (bind_inr _ _ _ _ _ H1), (bind_inr _ _ _ _ _ H2).
  rewrite Hs. change (negb ("running" =? "running")%string) with false. cbv iota.
  unfold bind, gets, put_container, modify, ret.
  destruct (shell w1 c argv) as [o fs].
  eexists _, _. split; [reflexivity|]. simpl.
  repeat split. apply map_status_with_fs.
Qed.


(** What the reply of lines 156-163 holds. *)
Definition reused (id ws : string) : pydict :=
  [("success", VBool true);
   ("container_id", VStr id);
   ("workspace_id", VStr ws);
   ("workspace_path", VStr ("/app/workspaces/" +:+ ws));
   ("mode", VStr "persistent");
   ("message", VStr "使用已存在的持久化容器")].

(** Lines 145-163 and 211-216.  When a container has the well-known
    name, [sandbox_initialize] in persistent mode looks it up and asks it to
    make the workspace directory, and that is all it asks of the engine: it
    never starts the container and never records its identity.  A running
    container gives the reply of lines 156-163; one that is not running
    gives the failure reply of lines 213-216, and is still not running
    afterwards. *)
Theorem initialize_reuses_named image w c
    (Hd : docker_available w = true)
    (Hg : fault w (CGet PERSISTENT_CONTAINER_NAME) = None)
    (Hx : forall w0 argv, fault w0 (CExec (c_id c) argv) = None)
    (Hl : lookup_container PERSISTENT_CONTAINER_NAME (containers w) = Some c)
    (Hid : by_id (c_id c) (containers w) = Some c) :
  calls (sandbox_initialize fault shell uuid4 image true w).2
  = calls w ++ [CGet PERSISTENT_CONTAINER_NAME;
                CExec (c_id c) ["mkdir"; "-p"; "/app/workspaces/" +:+ uuid4 (uuid_count w)]]
  /\ persistent_container_id (sandbox_initialize fault shell uuid4 image true w).2
     = persistent_container_id w
  /\ map c_status (containers (sandbox_initialize fault shell uuid4 image true w).2)
     = map c_status (containers w)
  /\ (c_status c = "running" ->
      (sandbox_initialize fault shell uuid4 image true w).1
      = reused (c_id c) (uuid4 (uuid_count w)))
  /\ (c_status c <> "running" ->
      (sandbox_initialize fault shell uuid4 image true w).1
      = failure "创建容器失败: " (not_running (c_id c))).
Proof.
  set (w1 := set_calls (calls w ++ [CGet PERSISTENT_CONTAINER_NAME]) w).
  set (w2 := set_uuid_count (S (uuid_count w)) w1).
  set (argv := ["mkdir"; "-p"; "/app/workspaces/" +:+ uuid4 (uuid_count w)]).
  assert (E1 : containers_get fault PERSISTENT_CONTAINER_NAME w = (inr c, w1))
    by (apply containers_get_found; assumption).
  assert (E2 : uuid_draw uuid4 w1 = (inr (uuid4 (uuid_count w)), w2)) by reflexivity.
  assert (Hc2 : by_id (c_id c) (containers w2) = Some c) by exact Hid.
  unfold sandbox_initialize. rewrite Hd. change (negb true) with false. cbv iota.
  unfold sandbox_initialize_body.
  destruct (String.eqb (c_status c) "running") eqn:Hs.
  - apply String.eqb_eq in Hs.
    destruct (exec_run_done (c_id c) argv w2 c (Hx _ _) Hc2 Hs)
      as (o & w3 & E3 & Hcalls & Hp & _ & Hst).
    assert (E : initialize_existing fault shell uuid4 w
                = (inr (reused (c_id c) (uuid4 (uuid_count w))), w3)).
    { unfold initialize_existing.
      rewrite (bind_inr _ _ _ _ _ E1), (bind_inr _ _ _ _ _ E2).
      fold argv. rewrite (bind_inr _ _ _ _ _ E3). reflexivity. }
    rewrite (try_NotFound_inr _ _ _ _ _ E). simpl fst. simpl snd.
    split; [|split; [|split; [|split]]].
    + rewrite Hcalls. simpl. rewrite <- app_assoc. reflexivity.
    + rewrite Hp. reflexivity.
    + rewrite Hst. reflexivity.
    + reflexivity.
    + intros Hn. contradiction.
  - apply String.eqb_neq in Hs.
    pose proof (exec_run_refused (c_id c) argv w2 c (Hx _ _) Hc2 Hs) as E3.
    assert (E : initialize_existing fault shell uuid4 w
                = (inl (not_running (c_id c)), set_calls (calls w2 ++ [CExec (c_id c) argv]) w2)).
    { unfold initialize_existing.
      rewrite (bind_inr _ _ _ _ _ E1), (bind_inr _ _ _ _ _ E2).
      fold argv. rewrite (bind_inl _ _ _ _ _ E3). reflexivity. }
    unfold try_NotFound. rewrite E. simpl.
    split; [|split; [|split; [|split]]].
    + rewrite <- app_assoc. reflexivity.
    + reflexivity.
    + reflexivity.
    + intros Hn. contradiction.
    + reflexivity.
Qed.

End InitializeProperties.


(** ** What a computation leaves alone

    [keeps P m]: whatever [m] does, and whether it returns or raises, the
    world after it is related by [P] to the world before it. *)

Section Frame.

Variable P : World -> World -> Prop.
Hypothesis P_refl : forall w, P w w.
Hypothesis P_trans : forall a b c, P a b -> P b c -> P a c.

Definition keeps {A} (m : M A) : Prop := forall w r w', m w = (r, w') -> P w w'.

Lemma keeps_ret {A} (a : A) : keeps (ret a).
Proof. intros w r w' H. inversion H. apply P_refl. Qed.

Lemma keeps_raise {A} (e : exn) : keeps (@raise A e).
Proof. intros w r w' H. inversion H. apply P_refl. Qed.

Lemma keeps_gets {A} (f : World -> A) : keeps (gets f).
Proof. intros w r w' H. inversion H. apply P_refl. Qed.

Lemma keeps_modify (f : World -> World) : (forall w, P w (f w)) -> keeps (modify f).
Proof. intros Hf w r w' H. inversion H. apply Hf. Qed.

Lemma keeps_bind {A B} (m : M A) (k : A -> M B) :
  keeps m -> (forall a, keeps (k a)) -> keeps (bind m k).
Proof.
  intros Hm Hk w r w' H.
  apply bind_inv in H as [(a & w1 & E1 & E2) | (e & E1 & _)].
  - eapply P_trans; [exact (Hm _ _ _ E1) | exact (Hk _ _ _ _ E2)].
  - exact (Hm _ _ _ E1).
Qed.

Lemma keeps_try_NotFound {A} (m h : M A) : keeps m -> keeps h -> keeps (try_NotFound m h).
Proof.
  intros Hm Hh w r w' H. unfold try_NotFound in H.
  destruct (m w) as [[e|a] w1] eqn:E.
  - destruct (is_NotFound e).
    + eapply P_trans; [exact (Hm _ _ _ E) | exact (Hh _ _ _ H)].
    + inversion H; subst. exact (Hm _ _ _ E).
  - inversion H; subst. exact (Hm _ _ _ E).
Qed.

Lemma keeps_try_pass (m : M unit) : keeps m -> keeps (try_pass m).
Proof.
  intros Hm w r w' H. apply try_pass_inv in H as [_ [r0 E]]. exact (Hm _ _ _ E).
Qed.

End Frame.


(** ** The engine leaves the host alone

    In this model of the engine a call changes containers, the cached
    identity and the trace; the relation below records what it leaves. *)

Definition engine_only (w w' : World) : Prop :=
  local_kept w w' /\ uuid_count w' = uuid_count w.

Lemma engine_only_refl w : engine_only w w.
Proof. split; [apply local_kept_refl | reflexivity]. Qed.

Lemma engine_only_trans a b c : engine_only a b -> engine_only b c -> engine_only a c.
Proof.
  intros [L1 U1] [L2 U2]. split; [exact (local_kept_trans _ _ _ L1 L2) | congruence].
Qed.

Ltac engine_frame :=
  repeat first
    [ apply (keeps_ret _ engine_only_refl)
    | apply (keeps_raise _ engine_only_refl)
    | apply (keeps_gets _ engine_only_refl)
    | apply (keeps_bind _ engine_only_trans); [|intros ?]
    | apply (keeps_try_NotFound _ engine_only_trans)
    | apply keeps_try_pass
    | apply keeps_modify; intros ?; repeat split ].

Section EngineFrame.

Variable fault : World -> EngineCall -> option exn.
Variable shell : World -> Container -> list string -> ExecOutput * Fs.

Lemma keeps_issue c : keeps engine_only (issue fault c).
Proof.
  intros w r w' H. apply issue_world in H. subst. repeat split.
Qed.

Lemma keeps_live id : keeps engine_only (live id).
Proof. intros w r w' H. apply live_world in H. subst. apply engine_only_refl. Qed.

Lemma keeps_put_container id f : keeps engine_only (put_container id f).
Proof. unfold put_container. engine_frame. Qed.

Lemma keeps_containers_get key : keeps engine_only (containers_get fault key).
Proof.
  intros w r w' H. apply containers_get_world in H. subst. repeat split.
Qed.

Lemma keeps_exec_run id argv : keeps engine_only (exec_run fault shell id argv).
Proof.
  unfold exec_run.
  apply (keeps_bind _ engine_only_trans); [apply keeps_issue | intros _].
  apply (keeps_bind _ engine_only_trans); [apply keeps_live | intros c].
  destruct (negb _); [engine_frame|].
  intros w r w' H. unfold bind, gets in H.
  destruct (shell w c argv) as [o fs]. inversion H. repeat split.
Qed.

Lemma keeps_container_start id : keeps engine_only (container_start fault id).
Proof.
  unfold container_start.
  apply (keeps_bind _ engine_only_trans); [apply keeps_issue | intros _].
  apply (keeps_bind _ engine_only_trans); [apply keeps_live | intros c].
  apply keeps_put_container.
Qed.

Lemma keeps_container_stop id t : keeps engine_only (container_stop fault id t).
Proof.
  unfold container_stop.
  apply (keeps_bind _ engine_only_trans); [apply keeps_issue | intros _].
  apply (keeps_bind _ engine_only_trans); [apply keeps_live | intros c].
  apply keeps_put_container.
Qed.

Lemma keeps_container_remove id v : keeps engine_only (container_remove fault id v).
Proof.
  unfold container_remove.
  apply (keeps_bind _ engine_only_trans); [apply keeps_issue | intros _].
  apply (keeps_bind _ engine_only_trans); [apply keeps_live | intros c].
  destruct (String.eqb _ _); engine_frame.
Qed.

Lemma keeps_containers_run image name gpu :
  keeps engine_only (containers_run fault image name gpu).
Proof.
  unfold containers_run.
  apply (keeps_bind _ engine_only_trans); [apply keeps_issue | intros _].
  apply (keeps_bind _ engine_only_trans); [apply (keeps_gets _ engine_only_refl) | intros cs].
  destruct (lookup_container _ cs); engine_frame.
Qed.

Lemma keeps_put_archive id path tar : keeps engine_only (put_archive fault id path tar).
Proof.
  unfold put_archive.
  apply (keeps_bind _ engine_only_trans); [apply keeps_issue | intros _].
  apply (keeps_bind _ engine_only_trans); [apply keeps_live | intros c].
  destruct (is_dir _ _); [|engine_frame].
  destruct (extract _ _ _); [apply keeps_put_container | engine_frame].
Qed.

Lemma keeps_get_archive id path : keeps engine_only (get_archive fault id path).
Proof.
  unfold get_archive.
  apply (keeps_bind _ engine_only_trans); [apply keeps_issue | intros _].
  apply (keeps_bind _ engine_only_trans); [apply keeps_live | intros c].
  destruct (archive_of _ _); engine_frame.
Qed.

Lemma keeps_ensure : keeps engine_only (ensure_persistent_container fault shell).
Proof.
  unfold ensure_persistent_container.
  apply (keeps_bind _ engine_only_trans).
  - unfold check_cached.
    apply (keeps_bind _ engine_only_trans); [apply (keeps_gets _ engine_only_refl) | intros o].
    destruct o as [pid|]; [|engine_frame].
    apply (keeps_try_NotFound _ engine_only_trans); [|engine_frame].
    apply (keeps_bind _ engine_only_trans); [apply keeps_containers_get | intros c].
    destruct (String.eqb _ _); engine_frame.
  - intros [pid|]; [engine_frame|].
    apply (keeps_bind _ engine_only_trans).
    + unfold adopt_named.
      apply (keeps_try_NotFound _ engine_only_trans); [|engine_frame].
      apply (keeps_bind _ engine_only_trans); [apply keeps_containers_get | intros c].
      apply (keeps_bind _ engine_only_trans).
      * destruct (negb _); [apply keeps_container_start | engine_frame].
      * intros _. engine_frame.
    + intros [pid|]; [engine_frame|].
      unfold create_persistent, images_pull.
      apply (keeps_bind _ engine_only_trans); [apply keeps_issue | intros _].
      apply (keeps_bind _ engine_only_trans); [apply keeps_containers_run | intros c].
      apply (keeps_bind _ engine_only_trans); [engine_frame | intros _].
      apply (keeps_bind _ engine_only_trans); [apply keeps_exec_run | intros _].
      engine_frame.
Qed.

End EngineFrame.


(** ** [sandbox_initialize]: a container of its own, and a first persistent one *)

Section InitializeBranches.

Variable fault : World -> EngineCall -> option exn.
Variable shell : World -> Container -> list string -> ExecOutput * Fs.
Variable uuid4 : nat -> string.

(** The container [containers.run] makes when it is given no name. *)
Definition standalone (cs : list Container) : Container :=
  mkContainer (fresh_id cs) (fresh_id cs) "running" initial_fs.

Lemma lookup_fresh cs : lookup_container (fresh_id cs) cs = None.
Proof.
  unfold lookup_container. destruct (fresh_id_fresh cs) as [-> ->]. reflexivity.
Qed.

Lemma containers_run_anon image gpu w :
  fault w (CRun image None gpu) = None ->
  containers_run fault image None gpu w
  = (inr (standalone (containers w)),
     set_containers (containers w ++ [standalone (containers w)])
                    (set_calls (calls w ++ [CRun image None gpu]) w)).
Proof.
  intros Hf. set (w1 := set_calls (calls w ++ [CRun image None gpu]) w).
  assert (H1 : issue fault (CRun image None gpu) w = (inr tt, w1))
    by (unfold issue; rewrite Hf; reflexivity).
  unfold containers_run. rewrite (bind_inr _ _ _ _ _ H1).
  unfold bind, gets. change (containers w1) with (containers w).
  rewrite lookup_fresh. reflexivity.
Qed.

Definition standalone_reply (id : string) : pydict :=
  [("success", VBool true); ("container_id", VStr id); ("mode", VStr "standalone")].

(** Lines 181-210.  Outside persistent mode the tool pulls the image it was
    given, runs one container from it and replies with that container's id
    and no workspace.  The container is new (no container had its id) and
    running, the containers that were there are as they were, and the
    cached identity of the persistent container is not touched. *)
Theorem initialize_standalone_new image w
    (Hd : docker_available w = true)
    (Hp : fault w (CPull image) = None)
    (Hr : forall w0, fault w0 (CRun image None false) = None) :
  sandbox_initialize fault shell uuid4 image false w
  = (standalone_reply (fresh_id (containers w)),
     set_containers (containers w ++ [standalone (containers w)])
                    (set_calls (calls w ++ [CPull image; CRun image None false]) w))
  /\ by_id (fresh_id (containers w)) (containers w) = None
  /\ dict_get "workspace_id" (standalone_reply (fresh_id (containers w))) = None.
Proof.
  split; [|split; [apply fresh_id_fresh | reflexivity]].
  unfold sandbox_initialize. rewrite Hd. change (negb true) with false. cbv iota.
  unfold sandbox_initialize_body, initialize_standalone, images_pull.
  set (w1 := set_calls (calls w ++ [CPull image]) w).
  assert (H1 : issue fault (CPull image) w = (inr tt, w1))
    by (unfold issue; rewrite Hp; reflexivity).
  rewrite (bind_inr _ _ _ _ _ H1).
  rewrite (bind_inr _ _ _ _ _ (containers_run_anon image false w1 (Hr w1))).
  unfold ret, standalone_reply, w1. simpl. rewrite <- app_assoc. reflexivity.
Qed.


(** Lines 181-210 with 656-675.  A container made outside persistent mode
    and then handed to [sandbox_stop] is stopped and removed: the engine's
    containers are again the ones there were before the two calls.  The
    cached identity must not be the new id, or line 656 would keep the
    container. *)
Theorem standalone_then_stop image w
    (Hd : docker_available w = true)
    (Hf : forall w0 call, fault w0 call = None)
    (Hc : persistent_container_id w <> Some (fresh_id (containers w))) :
  let id := fresh_id (containers w) in
  let w1 := (sandbox_initialize fault shell uuid4 image false w).2 in
  (sandbox_stop fault id false w1).1 = stopped_and_removed id
  /\ containers (sandbox_stop fault id false w1).2 = containers w
  /\ persistent_container_id (sandbox_stop fault id false w1).2 = persistent_container_id w
  /\ calls (sandbox_stop fault id false w1).2
     = calls w ++ [CPull image; CRun image None false;
                   CGet id; CStop id 10; CRemove id true].
Proof.
  intros id w1.
  destruct (initialize_standalone_new image w Hd (Hf _ _) (fun w0 => Hf w0 _)) as (E & Hn & _).
  unfold w1. rewrite E. clear w1 E. simpl snd.
  set (c := standalone (containers w)).
  set (w1 := set_containers (containers w ++ [c]) _).
  assert (Hid : by_id id (containers w1) = Some c).
  { unfold w1. simpl. apply (by_id_new (containers w) c). exact Hn. }
  assert (Hk : is_cached id (persistent_container_id w1) = false).
  { unfold w1. simpl. unfold is_cached.
    destruct (persistent_container_id w) as [pid|]; [|reflexivity].
    apply String.eqb_neq. intros He. apply Hc. rewrite <- He. reflexivity. }
  unfold sandbox_stop. change (docker_available w1) with (docker_available w).
  rewrite Hd. change (negb true) with false. cbv iota.
  unfold sandbox_stop_body.
  assert (E0 : gets persistent_container_id w1 = (inr (persistent_container_id w1), w1))
    by reflexivity.
  rewrite (bind_inr _ _ _ _ _ E0). cbv beta. rewrite Hk.
  change (false || false) with false. cbv iota.
  set (w2 := set_calls (calls w1 ++ [CGet id]) w1).
  assert (E1 : containers_get fault id w1 = (inr c, w2))
    by (apply containers_get_found; [apply Hf | apply lookup_by_id; exact Hid]).
  rewrite (bind_inr _ _ _ _ _ E1).
  change (c_id c) with id.
  assert (E2 := container_stop_ok fault id 10 w2 c (Hf _ _) Hid).
  rewrite (bind_inr _ _ _ _ _ E2).
  set (w3 := set_containers (update_container _ _ _) _) in *.
  assert (Hc3 : by_id id (containers w3) = Some (with_status "exited" c)).
  { change (by_id id (update_container id (with_status "exited") (containers w1))
            = Some (with_status "exited" c)).
    rewrite by_id_update by reflexivity. rewrite Hid.
    unfold fmap, option_fmap, option_map. change (c_id c) with id.
    rewrite String.eqb_refl. reflexivity. }
  assert (E3 := container_remove_ok fault id true w3 _ (Hf _ _) Hc3 eq_refl).
  rewrite (bind_inr _ _ _ _ _ E3). unfold ret. cbn [fst snd].
  split; [reflexivity|]. split; [|split; [reflexivity|]].
  - change (remove_container id
              (update_container id (with_status "exited") (containers w ++ [c]))
            = containers w).
    rewrite update_app, remove_app, (update_absent id _ _ Hn), (remove_absent id _ Hn).
    unfold update_container. cbn [map]. change (c_id c) with id.
    rewrite String.eqb_refl.
    rewrite (remove_only id (with_status "exited" c) (eq_refl id)). apply app_nil_r.
  - change (((((calls w ++ [CPull image; CRun image None false]) ++ [CGet id])
               ++ [CStop id 10]) ++ [CRemove id true])
            = calls w ++ [CPull image; CRun image None false;
                          CGet id; CStop id 10; CRemove id true]).
    rewrite <- !app_assoc. reflexivity.
Qed.


Lemma by_id_in id cs :
  In id (map c_id cs) -> exists c, by_id id cs = Some c /\ c_id c = id.
Proof.
  intros H. apply in_map_iff in H as (c & Hc & Hin).
  destruct (find_is_Some (fun x => String.eqb (c_id x) id) cs c Hin) as (y & Hy & Ey).
  - rewrite Hc. apply String.eqb_refl.
  - exists y. split; [exact Hy | apply String.eqb_eq, Ey].
Qed.

Lemma cache_stale_ext w w' :
  persistent_container_id w' = persistent_container_id w -> containers w' = containers w ->
  cache_stale w -> cache_stale w'.
Proof. unfold cache_stale. intros -> ->. tauto. Qed.

(** What the reply of lines 174-180 holds. *)
Definition made (id ws : string) : pydict :=
  [("success", VBool true);
   ("container_id", VStr id);
   ("workspace_id", VStr ws);
   ("workspace_path", VStr ("/app/workspaces/" +:+ ws));
   ("mode", VStr "persistent")].

(** Lines 145-180.  In persistent mode, with no container of the well-known
    name and no valid cached identity, the tool creates the persistent
    container through [ensure_persistent_container] (from [DEFAULT_IMAGE],
    whatever image the caller named), makes a workspace directory in it as
    its last engine call, and replies with the new container's id and the
    identifier just drawn.  Afterwards the cached identity is that of the
    new, running container. *)
Theorem initialize_creates_persistent image w
    (Hd : docker_available w = true)
    (Hf : forall w0 call, fault w0 call = None)
    (Hs : cache_stale w)
    (Hl : lookup_container PERSISTENT_CONTAINER_NAME (containers w) = None) :
  exists w' before,
    sandbox_initialize fault shell uuid4 image true w
    = (made (fresh_id (containers w)) (uuid4 (uuid_count w)), w')
    /\ cache_valid w' (fresh_id (containers w))
    /\ map c_id (containers w') = map c_id (containers w) ++ [fresh_id (containers w)]
    /\ calls w'
       = before ++ [CExec (fresh_id (containers w))
                          ["mkdir"; "-p"; "/app/workspaces/" +:+ uuid4 (uuid_count w)]]
    /\ In (CRun DEFAULT_IMAGE (Some PERSISTENT_CONTAINER_NAME) true) before.
Proof.
  set (id := fresh_id (containers w)).
  set (ws := uuid4 (uuid_count w)).
  set (argv := ["mkdir"; "-p"; "/app/workspaces/" +:+ ws]).
  set (w1 := set_calls (calls w ++ [CGet PERSISTENT_CONTAINER_NAME]) w).
  assert (E1 : initialize_existing fault shell uuid4 w
               = (inl (no_such_container PERSISTENT_CONTAINER_NAME), w1)).
  { unfold initialize_existing.
    rewrite (bind_inl _ _ _ _ _ (containers_get_missing fault _ _ (Hf _ _) Hl)).
    reflexivity. }
  assert (Hs1 : cache_stale w1) by (apply (cache_stale_ext w w1); [reflexivity..|exact Hs]).
  destruct (create_run_valid fault shell w1 Hs1 Hf Hl) as (w2 & E2 & Hv2 & Hids2 & Hin2).
  change (containers w1) with (containers w) in E2, Hv2, Hids2. fold id in E2, Hv2, Hids2.
  pose proof (keeps_ensure fault shell _ _ _ E2) as [_ Hu2].
  change (uuid_count w1) with (uuid_count w) in Hu2.
  set (w3 := set_uuid_count (S (uuid_count w2)) w2).
  assert (E3 : uuid_draw uuid4 w2 = (inr ws, w3)).
  { unfold uuid_draw, ws, w3. rewrite Hu2. reflexivity. }
  destruct (by_id_in id (containers w2)) as (c & Hc & Hcid).
  { rewrite Hids2. apply in_or_app. right. left. reflexivity. }
  assert (Hrun : c_status c = "running").
  { destruct Hv2 as (_ & c' & Hl' & Hr'). rewrite (lookup_by_id _ _ _ Hc) in Hl'.
    congruence. }
  set (w4 := set_calls (calls w3 ++ [CGet id]) w3).
  assert (E4 : containers_get fault id w3 = (inr c, w4))
    by (apply containers_get_found; [apply Hf | apply lookup_by_id; exact Hc]).
  assert (Hc4 : by_id (c_id c) (containers w4) = Some c) by (rewrite Hcid; exact Hc).
  destruct (exec_run_ok fault shell (c_id c) argv w4 (Hf _ _))
    as (o & w5 & E5 & _ & c5 & Hc5 & Hr5); [exists c; split; assumption|].
  destruct (exec_run_keeps fault shell _ _ _ _ _ E5) as [Hp5 Hids5].
  destruct (exec_run_done fault shell (c_id c) argv w4 c (Hf _ _) Hc4 Hrun)
    as (o' & w5' & E5' & Hcalls5 & _).
  rewrite E5 in E5'. inversion E5'. subst o' w5'. clear E5'.
  assert (E : initialize_created fault shell uuid4 w1 = (inr (made id ws), w5)).
  { unfold initialize_created.
    rewrite (bind_inr _ _ _ _ _ E2), (bind_inr _ _ _ _ _ E3), (bind_inr _ _ _ _ _ E4).
    fold argv. rewrite (bind_inr _ _ _ _ _ E5). reflexivity. }
  exists w5, (calls w4).
  split; [|split; [|split; [|split]]].
  - unfold sandbox_initialize. rewrite Hd. change (negb true) with false. cbv iota.
    unfold sandbox_initialize_body.
    rewrite (try_NotFound_caught _ _ _ _ _ E1 eq_refl), E. reflexivity.
  - split.
    + rewrite Hp5. change (persistent_container_id w4) with (persistent_container_id w2).
      apply Hv2.
    + exists c5. split; [|exact Hr5]. apply lookup_by_id. rewrite <- Hcid. exact Hc5.
  - rewrite Hids5. exact Hids2.
  - rewrite Hcalls5, Hcid. reflexivity.
  - change (calls w4) with (calls w2 ++ [CGet id]). apply in_or_app. left. exact Hin2.
Qed.

End InitializeBranches.


Lemma initialize_reuses_named_witness :
  let w := SamplePersistent.world_stopped in
  let c := SamplePersistent.named "exited" in
  let r := sandbox_initialize Sample.no_fault Sample.shell Sample.uuid4 DEFAULT_IMAGE true w in
  calls r.2
  = calls w ++ [CGet PERSISTENT_CONTAINER_NAME;
                CExec (c_id c) ["mkdir"; "-p";
                                "/app/workspaces/" +:+ Sample.uuid4 (uuid_count w)]]
  /\ persistent_container_id r.2 = persistent_container_id w
  /\ map c_status (containers r.2) = map c_status (containers w)
  /\ (c_status c = "running" -> r.1 = reused (c_id c) (Sample.uuid4 (uuid_count w)))
  /\ (c_status c <> "running" -> r.1 = failure "创建容器失败: " (not_running (c_id c))).
Proof.
  intros w c r.
  apply (initialize_reuses_named Sample.no_fault Sample.shell Sample.uuid4 DEFAULT_IMAGE w c).
  - reflexivity.
  - reflexivity.
  - intros w0 argv. reflexivity.
  - reflexivity.
  - reflexivity.
Defined.

(** The same call on running and on stopped containers of the well-known
    name. *)
Example sample_initialize_named :
  (sandbox_initialize Sample.no_fault Sample.shell Sample.uuid4 DEFAULT_IMAGE true
     SamplePersistent.world_running).1
  = reused "p1" "0000-a"
  /\ dict_get "success"
       (sandbox_initialize Sample.no_fault Sample.shell Sample.uuid4 DEFAULT_IMAGE true
          SamplePersistent.world_stopped).1
     = Some (VBool false)
  /\ map c_status
       (containers (sandbox_initialize Sample.no_fault Sample.shell Sample.uuid4
                      DEFAULT_IMAGE true SamplePersistent.world_stopped).2)
     = ["exited"].
Proof. vm_compute. repeat split. Qed.

Lemma initialize_standalone_new_witness :
  let w := SamplePersistent.world_cached in
  sandbox_initialize Sample.no_fault Sample.shell Sample.uuid4 "python:3.9-slim" false w
  = (standalone_reply (fresh_id (containers w)),
     set_containers (containers w ++ [standalone (containers w)])
                    (set_calls (calls w ++ [CPull "python:3.9-slim";
                                            CRun "python:3.9-slim" None false]) w))
  /\ by_id (fresh_id (containers w)) (containers w) = None
  /\ dict_get "workspace_id" (standalone_reply (fresh_id (containers w))) = None.
Proof.
  intros w.
  apply (initialize_standalone_new Sample.no_fault Sample.shell Sample.uuid4
           "python:3.9-slim" w).
  - reflexivity.
  - reflexivity.
  - intros w0. reflexivity.
Defined.

Lemma standalone_then_stop_witness :
  let w := SamplePersistent.world_cached in
  let id := fresh_id (containers w) in
  let w1 := (sandbox_initialize Sample.no_fault Sample.shell Sample.uuid4
               "python:3.9-slim" false w).2 in
  (sandbox_stop Sample.no_fault id false w1).1 = stopped_and_removed id
  /\ containers (sandbox_stop Sample.no_fault id false w1).2 = containers w
  /\ persistent_container_id (sandbox_stop Sample.no_fault id false w1).2
     = persistent_container_id w
  /\ calls (sandbox_stop Sample.no_fault id false w1).2
     = calls w ++ [CPull "python:3.9-slim"; CRun "python:3.9-slim" None false;
                   CGet id; CStop id 10; CRemove id true].
Proof.
  apply (standalone_then_stop Sample.no_fault Sample.shell Sample.uuid4
           "python:3.9-slim" SamplePersistent.world_cached).
  - reflexivity.
  - intros w0 call. reflexivity.
  - vm_compute. discriminate.
Defined.

Lemma initialize_creates_persistent_witness :
  let w := SamplePersistent.world_empty in
  exists w' before,
    sandbox_initialize Sample.no_fault Sample.shell Sample.uuid4 "python:3.9-slim" true w
    = (made (fresh_id (containers w)) (Sample.uuid4 (uuid_count w)), w')
    /\ cache_valid w' (fresh_id (containers w))
    /\ map c_id (containers w') = map c_id (containers w) ++ [fresh_id (containers w)]
    /\ calls w'
       = before ++ [CExec (fresh_id (containers w))
                          ["mkdir"; "-p";
                           "/app/workspaces/" +:+ Sample.uuid4 (uuid_count w)]]
    /\ In (CRun DEFAULT_IMAGE (Some PERSISTENT_CONTAINER_NAME) true) before.
Proof.
  intros w.
  apply (initialize_creates_persistent Sample.no_fault Sample.shell Sample.uuid4
           "python:3.9-slim" w).
  - reflexivity.
  - intros w0 call. reflexivity.
  - exact I.
  - reflexivity.
Defined.


(** ** Tools as guarded bodies *)

Section HostFrame.

Variable fault : World -> EngineCall -> option exn.
Variable shell : World -> Container -> list string -> ExecOutput * Fs.
Variable tar_add : World -> string -> string -> exn + list TarEntry.
Variable tar_tree : World -> string -> exn + list TarEntry.
Variable uuid4 : nat -> string.

Lemma keeps_weaken {A} (P Q : World -> World -> Prop) (m : M A) :
  (forall w w', P w w' -> Q w w') -> keeps P m -> keeps Q m.
Proof. intros H Hm w r w' E. apply H. exact (Hm _ _ _ E). Qed.

(** A tool: the guard on [docker_available], then the body inside [try],
    an exception turned into a reply. *)
Definition as_tool {A} (body : M A) (ok : A -> pydict) (err : exn -> pydict) (w : World)
    : pydict * World :=
  if negb (docker_available w) then (unavailable, w)
  else
    match body w with
    | (inr a, w') => (ok a, w')
    | (inl e, w') => (err e, w')
    end.

Lemma as_tool_keeps {A} (P : World -> World -> Prop) (body : M A) ok err w :
  (forall w, P w w) -> keeps P body -> P w (as_tool body ok err w).2.
Proof.
  intros Hr Hb. unfold as_tool. destruct (negb (docker_available w)); [apply Hr|].
  destruct (body w) as [[e|a] w'] eqn:E; exact (Hb _ _ _ E).
Qed.

End HostFrame.


(** ** [copy_file_from_sandbox] and the host *)

Section DownloadProperties.

Variable fault : World -> EngineCall -> option exn.

(** Only the file [dest] may differ, and no directory is lost. *)
Definition only_dest (dest : string) (w w' : World) : Prop :=
  (forall p, p <> dest -> local_files w' !! p = local_files w !! p)
  /\ local_dirs w ⊆ local_dirs w'.

Lemma only_dest_refl dest w : only_dest dest w w.
Proof. split; [reflexivity | set_solver]. Qed.

Lemma only_dest_trans dest a b c :
  only_dest dest a b -> only_dest dest b c -> only_dest dest a c.
Proof.
  intros [F1 D1] [F2 D2]. split.
  - intros p Hp. rewrite (F2 p Hp). apply (F1 p Hp).
  - set_solver.
Qed.

Lemma engine_only_dest dest w w' : engine_only w w' -> only_dest dest w w'.
Proof.
  intros [(_ & Hf & Hd) _]. split.
  - intros p _. rewrite Hf. reflexivity.
  - rewrite Hd. set_solver.
Qed.

Lemma keeps_os_makedirs dest p : keeps (only_dest dest) (os_makedirs p).
Proof.
  intros w r w' H. unfold os_makedirs in H.
  destruct (_ || _); [inversion H; subst; apply only_dest_refl|].
  destruct (under_file _ _); inversion H; subst; [apply only_dest_refl|].
  split; [reflexivity | simpl; set_solver].
Qed.

Lemma keeps_local_open_wb dest : keeps (only_dest dest) (local_open_wb dest).
Proof.
  intros w r w' H. unfold local_open_wb in H.
  destruct (String.eqb dest EmptyString); [inversion H; apply only_dest_refl|].
  destruct (bool_decide _); [inversion H; apply only_dest_refl|].
  destruct (_ || _).
  - inversion H; subst. split; [|simpl; set_solver].
    intros p Hp. simpl. apply lookup_insert_ne. congruence.
  - destruct (existsb _ _); inversion H; subst; apply only_dest_refl.
Qed.

Lemma keeps_local_write dest data : keeps (only_dest dest) (local_write dest data).
Proof.
  intros w r w' H. inversion H. split; [|simpl; set_solver].
  intros p Hp. simpl. apply lookup_insert_ne. congruence.
Qed.

Lemma keeps_os_path_getsize dest p : keeps (only_dest dest) (os_path_getsize p).
Proof.
  intros w r w' H. unfold os_path_getsize in H.
  destruct (local_files w !! p); inversion H; apply only_dest_refl.
Qed.

Lemma keeps_copy_file_from_body cid path ws ldest :
  keeps (only_dest (default (Py.basename (container_src ws path)) ldest))
        (copy_file_from_body fault cid path ws ldest).
Proof.
  set (dest := default (Py.basename (container_src ws path)) ldest).
  pose proof (fun A (m : M A) =>
                keeps_weaken engine_only (only_dest dest) m (engine_only_dest dest)) as W.
  pose proof (only_dest_trans dest) as T.
  pose proof (only_dest_refl dest) as R.
  unfold copy_file_from_body. fold dest.
  apply (keeps_bind _ T); [apply W, keeps_containers_get | intros c].
  apply (keeps_bind _ T); [apply W, keeps_get_archive | intros tar].
  apply (keeps_bind _ T).
  { destruct (String.eqb _ _); [apply (keeps_ret _ R)|].
    apply (keeps_bind _ T); [apply (keeps_gets _ R) | intros present].
    destruct present; [apply (keeps_ret _ R) | apply keeps_os_makedirs]. }
  intros _.
  apply (keeps_bind _ T).
  { destruct tar; [apply (keeps_raise _ R) | apply (keeps_ret _ R)]. }
  intros member.
  apply (keeps_bind _ T); [apply keeps_local_open_wb | intros _].
  apply (keeps_bind _ T).
  { destruct (te_data member); [apply (keeps_ret _ R) | apply (keeps_raise _ R)]. }
  intros data.
  apply (keeps_bind _ T); [apply keeps_local_write | intros _].
  apply (keeps_bind _ T); [apply keeps_os_path_getsize | intros size].
  apply (keeps_ret _ R).
Qed.

(** Lines 584-633.  Whatever happens, the only host file the tool can
    change is the destination (the given [local_dest_path], or the base name
    of the source path when none is given); every other file keeps its
    content or its absence, and no directory disappears. *)
Theorem copy_out_writes_only_dest cid path ws ldest w :
  only_dest (default (Py.basename (container_src ws path)) ldest) w
            (copy_file_from_sandbox fault cid path ws ldest w).2.
Proof.
  apply (as_tool_keeps _ (copy_file_from_body fault cid path ws ldest)
           (fun d => d) (failure "从容器复制文件失败: ") w (only_dest_refl _)).
  apply keeps_copy_file_from_body.
Qed.


Lemma archive_of_dir fs p :
  fs_files fs !! p = None -> is_dir fs p = true ->
  exists rest, archive_of fs p = Some (mkTarEntry (List.last p EmptyString) 0 None :: rest).
Proof.
  intros H1 H2. unfold archive_of. unfold bytes in *. rewrite H1, H2.
  eexists. reflexivity.
Qed.

Lemma archive_of_nothing fs p :
  fs_files fs !! p = None -> is_dir fs p = false -> archive_of fs p = None.
Proof.
  intros H1 H2. unfold archive_of. unfold bytes in *. rewrite H1, H2. reflexivity.
Qed.

(** [get_archive] once the container is found: the outcome is that of
    [archive_of]. *)
Lemma get_archive_found id path w c :
  fault w (CGetArchive id path) = None -> by_id id (containers w) = Some c ->
  get_archive fault id path w
  = (match archive_of (c_fs c) (Fspath.resolve path) with
     | Some tar => inr tar
     | None => inl (Raise NotFound
                      ("404 Client Error: Not Found (Could not find the file "
                       +:+ path +:+ ")"))
     end,
     set_calls (calls w ++ [CGetArchive id path]) w).
Proof.
  intros Hf Hc. set (w1 := set_calls (calls w ++ [CGetArchive id path]) w).
  assert (H1 : issue fault (CGetArchive id path) w = (inr tt, w1))
    by (unfold issue; rewrite Hf; reflexivity).
  assert (H2 : live id w1 = (inr c, w1)).
  { unfold live, bind, gets, ret. change (containers w1) with (containers w).
    rewrite Hc. reflexivity. }
  unfold get_archive. rewrite (bind_inr _ _ _ _ _ H1), (bind_inr _ _ _ _ _ H2).
  destruct (archive_of _ _); reflexivity.
Qed.

Definition not_a_file : exn :=
  Raise AttributeError "'NoneType' object has no attribute 'read'".

(** Lines 601-621.  Asked for a directory of the container, the tool
    fails, at [tar.extractfile(member).read()]; by then line 620 has opened
    the destination for writing, so the reply is an error and the host file
    of that name is there and empty, whatever it held before.  (The
    destination is a plain name here, so that lines 604-606 have nothing to
    create.) *)
Theorem copy_out_directory_empties_dest cid path ws dest w c
    (Hd : docker_available w = true)
    (Hg : fault w (CGet cid) = None)
    (Ha : forall w0, fault w0 (CGetArchive (c_id c) (container_src ws path)) = None)
    (Hl : lookup_container cid (containers w) = Some c)
    (Hid : by_id (c_id c) (containers w) = Some c)
    (Hfile : fs_files (c_fs c) !! Fspath.resolve (container_src ws path) = None)
    (Hdir : is_dir (c_fs c) (Fspath.resolve (container_src ws path)) = true)
    (Hne : dest <> EmptyString)
    (Hflat : Py.dirname dest = EmptyString)
    (Hnd : dest ∉ local_dirs w) :
  (copy_file_from_sandbox fault cid path ws (Some dest) w).1
  = failure "从容器复制文件失败: " not_a_file
  /\ local_files (copy_file_from_sandbox fault cid path ws (Some dest) w).2
     = <[dest := EmptyString]> (local_files w)
  /\ local_dirs (copy_file_from_sandbox fault cid path ws (Some dest) w).2 = local_dirs w.
Proof.
  set (src := container_src ws path) in *.
  set (w1 := set_calls (calls w ++ [CGet cid]) w).
  set (w2 := set_calls (calls w1 ++ [CGetArchive (c_id c) src]) w1).
  assert (E1 : containers_get fault cid w = (inr c, w1))
    by (apply containers_get_found; assumption).
  destruct (archive_of_dir _ _ Hfile Hdir) as (rest & Et).
  set (top := mkTarEntry (List.last (Fspath.resolve src) EmptyString) 0 None) in Et.
  assert (E2 : get_archive fault (c_id c) src w1 = (inr (top :: rest), w2)).
  { rewrite (get_archive_found (c_id c) src w1 c (Ha _) Hid), Et. reflexivity. }
  assert (E3 : local_open_wb dest w2
               = (inr tt, set_local (<[dest := EmptyString]> (local_files w2)) (local_dirs w2) w2)).
  { unfold local_open_wb. apply String.eqb_neq in Hne. rewrite Hne.
    change (local_dirs w2) with (local_dirs w).
    rewrite (bool_decide_eq_false_2 _ Hnd), Hflat. reflexivity. }
  assert (E : copy_file_from_body fault cid path ws (Some dest) w
              = (inl not_a_file,
                 set_local (<[dest := EmptyString]> (local_files w2)) (local_dirs w2) w2)).
  { unfold copy_file_from_body. fold src.
    rewrite (bind_inr _ _ _ _ _ E1), (bind_inr _ _ _ _ _ E2).
    change (default (Py.basename src) (Some dest)) with dest. rewrite Hflat.
    change (String.eqb EmptyString EmptyString) with true. cbv iota.
    unfold bind at 1. unfold ret at 1. unfold bind at 1. unfold ret at 1.
    rewrite (bind_inr _ _ _ _ _ E3). reflexivity. }
  unfold copy_file_from_sandbox. rewrite Hd. change (negb true) with false. cbv iota.
  rewrite E. repeat split.
Qed.

Definition no_such_file (path : string) : exn :=
  Raise NotFound ("404 Client Error: Not Found (Could not find the file " +:+ path +:+ ")").

(** Lines 601-606.  The download comes before anything is done on the
    host: when the container has nothing at the source path, the reply is
    the engine's error and the host is as it was; in particular the parent
    directory of the destination is not created. *)
Theorem copy_out_missing_source cid path ws ldest w c
    (Hd : docker_available w = true)
    (Hg : fault w (CGet cid) = None)
    (Ha : forall w0, fault w0 (CGetArchive (c_id c) (container_src ws path)) = None)
    (Hl : lookup_container cid (containers w) = Some c)
    (Hid : by_id (c_id c) (containers w) = Some c)
    (Hfile : fs_files (c_fs c) !! Fspath.resolve (container_src ws path) = None)
    (Hdir : is_dir (c_fs c) (Fspath.resolve (container_src ws path)) = false) :
  copy_file_from_sandbox fault cid path ws ldest w
  = (failure "从容器复制文件失败: " (no_such_file (container_src ws path)),
     set_calls (calls w ++ [CGet cid; CGetArchive (c_id c) (container_src ws path)]) w).
Proof.
  set (src := container_src ws path) in *.
  set (w1 := set_calls (calls w ++ [CGet cid]) w).
  assert (E1 : containers_get fault cid w = (inr c, w1))
    by (apply containers_get_found; assumption).
  assert (E2 : get_archive fault (c_id c) src w1
               = (inl (no_such_file src), set_calls (calls w1 ++ [CGetArchive (c_id c) src]) w1)).
  { rewrite (get_archive_found (c_id c) src w1 c (Ha _) Hid).
    rewrite (archive_of_nothing _ _ Hfile Hdir). reflexivity. }
  unfold copy_file_from_sandbox. rewrite Hd. change (negb true) with false. cbv iota.
  unfold copy_file_from_body. fold src.
  rewrite (bind_inr _ _ _ _ _ E1), (bind_inl _ _ _ _ _ E2).
  unfold set_calls, w1. simpl. rewrite <- app_assoc. reflexivity.
Qed.

End DownloadProperties.


(** A host that already has a file [out.txt]. *)
Module SampleDownload.

Definition world : World :=
  mkWorld true None [Sample.box] {[ "out.txt" := "old" ]} ∅ 0 [].

End SampleDownload.

Lemma copy_out_directory_empties_dest_witness :
  (copy_file_from_sandbox Sample.no_fault "c1" "/app" None (Some "out.txt")
     SampleDownload.world).1
  = failure "从容器复制文件失败: " not_a_file
  /\ local_files (copy_file_from_sandbox Sample.no_fault "c1" "/app" None (Some "out.txt")
                    SampleDownload.world).2
     = <[ "out.txt" := EmptyString ]> (local_files SampleDownload.world)
  /\ local_dirs (copy_file_from_sandbox Sample.no_fault "c1" "/app" None (Some "out.txt")
                   SampleDownload.world).2
     = local_dirs SampleDownload.world.
Proof.
  apply (copy_out_directory_empties_dest Sample.no_fault "c1" "/app" None "out.txt"
           SampleDownload.world Sample.box).
  - reflexivity.
  - reflexivity.
  - intros w0. reflexivity.
  - reflexivity.
  - reflexivity.
  - apply lookup_empty.
  - apply bool_decide_eq_true_2. set_solver.
  - discriminate.
  - reflexivity.
  - apply not_elem_of_empty.
Defined.

Lemma copy_out_missing_source_witness :
  copy_file_from_sandbox Sample.no_fault "c1" "/nope" None (Some "new/out.txt") Sample.world
  = (failure "从容器复制文件失败: " (no_such_file (container_src None "/nope")),
     set_calls (calls Sample.world
                ++ [CGet "c1"; CGetArchive (c_id Sample.box) (container_src None "/nope")])
               Sample.world).
Proof.
  apply (copy_out_missing_source Sample.no_fault "c1" "/nope" None (Some "new/out.txt")
           Sample.world Sample.box).
  - reflexivity.
  - reflexivity.
  - intros w0. reflexivity.
  - reflexivity.
  - reflexivity.
  - apply lookup_empty.
  - apply bool_decide_eq_false_2. set_solver.
Defined.


(** ** [sandbox_exec] on a container that is not running *)

Section ExecEdge.

Variable fault : World -> EngineCall -> option exn.
Variable shell : World -> Container -> list string -> ExecOutput * Fs.

Lemma bootstrap_refused id w c :
  fault w (CExec id ["which"; "pip"]) = None -> by_id id (containers w) = Some c ->
  c_status c <> "running" ->
  bootstrap fault shell id w = (inr tt, set_calls (calls w ++ [CExec id ["which"; "pip"]]) w).
Proof.
  intros Hf Hc Hs. unfold bootstrap, try_pass.
  rewrite (bind_inl _ _ _ _ _ (exec_run_refused fault shell id _ w c Hf Hc Hs)).
  reflexivity.
Qed.

Lemma install_step_refused id to_run w c :
  (forall w0 argv, fault w0 (CExec id argv) = None) -> by_id id (containers w) = Some c ->
  c_status c <> "running" ->
  exists w', install_step fault shell id to_run w = (inr tt, w')
             /\ containers w' = containers w.
Proof.
  intros Hf Hc Hs. unfold install_step. destruct (Py.startswith to_run "python").
  - unfold try_pass.
    rewrite (bind_inl _ _ _ _ _ (exec_run_refused fault shell id _ w c (Hf _ _) Hc Hs)).
    eexists. split; reflexivity.
  - exists w. split; reflexivity.
Qed.

(** Lines 237-315.  On a container that is found but is not running, the
    checks for [pip] fail and are dropped (lines 259-260), so an empty list
    of commands is answered with success and no results, while any other
    list fails at its first command: the reply is the engine's refusal, and
    the results gathered so far are not returned.  No container is
    changed. *)
Theorem sandbox_exec_not_running cid commands ws w c
    (Hd : docker_available w = true)
    (Hf : forall w0 call, fault w0 call = None)
    (Hl : lookup_container cid (containers w) = Some c)
    (Hid : by_id (c_id c) (containers w) = Some c)
    (Hs : c_status c <> "running") :
  (sandbox_exec fault shell cid commands ws w).1
  = match commands with
    | [] => [("success", VBool true); ("results", VList [])]
    | _ :: _ => failure "执行命令失败: " (not_running (c_id c))
    end
  /\ containers (sandbox_exec fault shell cid commands ws w).2 = containers w.
Proof.
  set (w1 := set_calls (calls w ++ [CGet cid]) w).
  set (w2 := set_calls (calls w1 ++ [CExec (c_id c) ["which"; "pip"]]) w1).
  assert (E1 : containers_get fault cid w = (inr c, w1))
    by (apply containers_get_found; [apply Hf | exact Hl]).
  assert (E2 : bootstrap fault shell (c_id c) w1 = (inr tt, w2))
    by (apply (bootstrap_refused _ _ c); [apply Hf | exact Hid | exact Hs]).
  unfold sandbox_exec. rewrite Hd. change (negb true) with false. cbv iota.
  unfold sandbox_exec_body.
  rewrite (bind_inr _ _ _ _ _ E1), (bind_inr _ _ _ _ _ E2).
  destruct commands as [|cmd rest].
  - split; reflexivity.
  - cbn [run_commands].
    destruct (install_step_refused (c_id c) (cmd_to_run ws cmd) w2 c
                (fun w0 argv => Hf w0 _) Hid Hs) as (w3 & E3 & Hc3).
    rewrite (bind_inr _ _ _ _ _ E3).
    assert (Hid3 : by_id (c_id c) (containers w3) = Some c) by (rewrite Hc3; exact Hid).
    rewrite (bind_inl _ _ _ _ _
               (exec_run_refused fault shell (c_id c) _ w3 c (Hf _ _) Hid3 Hs)).
    split; [reflexivity | exact Hc3].
Qed.

End ExecEdge.

Lemma sandbox_exec_not_running_witness :
  (sandbox_exec Sample.no_fault Sample.shell "p1" ["python main.py"; "ls"] None
     SamplePersistent.world_stopped).1
  = failure "执行命令失败: " (not_running (c_id (SamplePersistent.named "exited")))
  /\ containers (sandbox_exec Sample.no_fault Sample.shell "p1" ["python main.py"; "ls"] None
                   SamplePersistent.world_stopped).2
     = containers SamplePersistent.world_stopped.
Proof.
  apply (sandbox_exec_not_running Sample.no_fault Sample.shell "p1" ["python main.py"; "ls"]
           None SamplePersistent.world_stopped (SamplePersistent.named "exited")).
  - reflexivity.
  - intros w0 call. reflexivity.
  - reflexivity.
  - reflexivity.
  - discriminate.
Defined.


(** ** [copy_project] without its source, [sandbox_stop] by name *)

Section MoreEdges.

Variable fault : World -> EngineCall -> option exn.
Variable shell : World -> Container -> list string -> ExecOutput * Fs.
Variable tar_tree : World -> string -> exn + list TarEntry.

Definition local_dir_missing (local_src_dir : string) : pydict :=
  [("success", VBool false); ("error", VStr ("本地目录不存在: " +:+ local_src_dir))].

(** Lines 497-505.  When the container is found and the source is not a
    directory of the host (it is absent, or it is a file), the reply names
    the missing directory, without the prefix of line 560; the lookup is the
    only engine call, so nothing is created in the container. *)
Theorem copy_project_local_missing cid src ws dest w c
    (Hd : docker_available w = true)
    (Hg : fault w (CGet cid) = None)
    (Hl : lookup_container cid (containers w) = Some c)
    (Hm : src ∉ local_dirs w) :
  copy_project fault shell tar_tree cid src ws dest w
  = (local_dir_missing src, set_calls (calls w ++ [CGet cid]) w).
Proof.
  set (w1 := set_calls (calls w ++ [CGet cid]) w).
  assert (E1 : containers_get fault cid w = (inr c, w1))
    by (apply containers_get_found; assumption).
  assert (E2 : gets (fun w => bool_decide (src ∈ local_dirs w)) w1 = (inr false, w1)).
  { unfold gets. change (local_dirs w1) with (local_dirs w).
    rewrite (bool_decide_eq_false_2 _ Hm). reflexivity. }
  unfold copy_project. rewrite Hd. change (negb true) with false. cbv iota.
  unfold copy_project_body.
  rewrite (bind_inr _ _ _ _ _ E1), (bind_inr _ _ _ _ _ E2). reflexivity.
Qed.

(** Lines 654-675.  Line 656 compares the argument with the cached id as
    strings.  So the persistent container, addressed by anything else the
    engine resolves to it (its name, say) and without [is_persistent], is
    stopped and removed like any other; the cached id is left as it was,
    naming a container that is gone. *)
Theorem stop_by_name_removes_persistent key pid w c
    (Hd : docker_available w = true)
    (Hf : forall w0 call, fault w0 call = None)
    (Hp : persistent_container_id w = Some pid)
    (Hk : key <> pid)
    (Hl : lookup_container key (containers w) = Some c)
    (Hc : c_id c = pid)
    (Hid : by_id pid (containers w) = Some c) :
  (sandbox_stop fault key false w).1 = stopped_and_removed key
  /\ by_id pid (containers (sandbox_stop fault key false w).2) = None
  /\ persistent_container_id (sandbox_stop fault key false w).2 = Some pid
  /\ calls (sandbox_stop fault key false w).2
     = calls w ++ [CGet key; CStop pid 10; CRemove pid true].
Proof.
  set (w1 := set_calls (calls w ++ [CGet key]) w).
  assert (E0 : gets persistent_container_id w = (inr (Some pid), w))
    by (unfold gets; rewrite Hp; reflexivity).
  assert (E1 : containers_get fault key w = (inr c, w1))
    by (apply containers_get_found; [apply Hf | exact Hl]).
  assert (E2 := container_stop_ok fault pid 10 w1 c (Hf _ _) Hid).
  set (w2 := set_containers (update_container pid (with_status "exited") (containers w1))
                            (set_calls (calls w1 ++ [CStop pid 10]) w1)) in E2.
  assert (Hc2 : by_id pid (containers w2) = Some (with_status "exited" c)).
  { change (by_id pid (update_container pid (with_status "exited") (containers w))
            = Some (with_status "exited" c)).
    rewrite by_id_update by reflexivity. rewrite Hid.
    unfold fmap, option_fmap, option_map. rewrite Hc, String.eqb_refl. reflexivity. }
  assert (E3 := container_remove_ok fault pid true w2 _ (Hf _ _) Hc2 eq_refl).
  unfold sandbox_stop. rewrite Hd. change (negb true) with false. cbv iota.
  unfold sandbox_stop_body.
  rewrite (bind_inr _ _ _ _ _ E0). cbv beta.
  apply String.eqb_neq in Hk. unfold is_cached. rewrite Hk.
  change (false || false) with false. cbv iota.
  rewrite (bind_inr _ _ _ _ _ E1), Hc, (bind_inr _ _ _ _ _ E2), (bind_inr _ _ _ _ _ E3).
  unfold ret. cbn [fst snd].
  split; [reflexivity|]. split; [apply by_id_remove|]. split; [exact Hp|].
  change ((((calls w ++ [CGet key]) ++ [CStop pid 10]) ++ [CRemove pid true])
          = calls w ++ [CGet key; CStop pid 10; CRemove pid true]).
  rewrite <- !app_assoc. reflexivity.
Qed.

End MoreEdges.

Lemma copy_project_local_missing_witness :
  copy_project Sample.no_fault Sample.shell Sample.tar_tree "c1" "/home/me/project" None None
    Sample.world
  = (local_dir_missing "/home/me/project",
     set_calls (calls Sample.world ++ [CGet "c1"]) Sample.world).
Proof.
  apply (copy_project_local_missing Sample.no_fault Sample.shell Sample.tar_tree
           "c1" "/home/me/project" None None Sample.world Sample.box).
  - reflexivity.
  - reflexivity.
  - reflexivity.
  - apply not_elem_of_empty.
Defined.

Lemma stop_by_name_removes_persistent_witness :
  (sandbox_stop Sample.no_fault PERSISTENT_CONTAINER_NAME false
     SamplePersistent.world_cached).1
  = stopped_and_removed PERSISTENT_CONTAINER_NAME
  /\ by_id "p1" (containers (sandbox_stop Sample.no_fault PERSISTENT_CONTAINER_NAME false
                               SamplePersistent.world_cached).2) = None
  /\ persistent_container_id (sandbox_stop Sample.no_fault PERSISTENT_CONTAINER_NAME false
                                SamplePersistent.world_cached).2 = Some "p1"
  /\ calls (sandbox_stop Sample.no_fault PERSISTENT_CONTAINER_NAME false
              SamplePersistent.world_cached).2
     = calls SamplePersistent.world_cached
       ++ [CGet PERSISTENT_CONTAINER_NAME; CStop "p1" 10; CRemove "p1" true].
Proof.
  apply (stop_by_name_removes_persistent Sample.no_fault PERSISTENT_CONTAINER_NAME "p1"
           SamplePersistent.world_cached (SamplePersistent.named "running")).
  - reflexivity.
  - intros w0 call. reflexivity.
  - reflexivity.
  - discriminate.
  - reflexivity.
  - reflexivity.
  - reflexivity.
Defined.

